(** * Baseball almanac scraper: extraction engine, sink and normalizer

    A shallow embedding of [common_scraper.py], [scraper_al.py] and
    [data_cleaner.py].  Python strings are byte strings (UTF-8), [None] is
    [None], an exception inside a [try] is an [option] that came back empty,
    loops over rows are folds that thread the loop variables. *)

From Stdlib Require Import String Ascii ZArith QArith Bool List Lia DecimalString.
From stdpp Require Import base option list gmap strings.
Import ListNotations.

Local Open Scope string_scope.
Local Open Scope bool_scope.
Local Open Scope nat_scope.
Local Open Scope list_scope.

(** ** Python string primitives *)

Module Py.

(** [bool(s)] for a [str]. *)
Definition truthy (s : string) : bool :=
  match s with EmptyString => false | String _ _ => true end.

(** [bool(x)] for a value that is a [str] or [None]. *)
Definition truthy_opt (o : option string) : bool :=
  match o with Some s => truthy s | None => false end.

(** The ASCII characters [str.isspace] accepts (the Unicode spaces beyond
    ASCII are not modelled). *)
Definition is_space (a : ascii) : bool :=
  let n := nat_of_ascii a in
  ((9 <=? n) && (n <=? 13)) || ((28 <=? n) && (n <=? 32)).

Fixpoint lstrip (s : string) : string :=
  match s with
  | String a s' => if is_space a then lstrip s' else s
  | EmptyString => EmptyString
  end.

Fixpoint rstrip (s : string) : string :=
  match s with
  | String a s' =>
      let r := rstrip s' in
      if is_space a && negb (truthy r) then EmptyString else String a r
  | EmptyString => EmptyString
  end.

(** [s.strip()] *)
Definition strip (s : string) : string := rstrip (lstrip s).

(** [s.startswith(p)] *)
Definition startswith (p s : string) : bool := String.prefix p s.

(** [sub in s] *)
Fixpoint contains (sub s : string) : bool :=
  String.prefix sub s ||
  match s with
  | String _ s' => contains sub s'
  | EmptyString => false
  end.

(** [s.endswith(p)] *)
Fixpoint endswith (p s : string) : bool :=
  String.eqb p s ||
  match s with
  | String _ s' => endswith p s'
  | EmptyString => false
  end.

(** [s.replace(old, new)] for a non-empty [old] (every call in the program
    passes a non-empty literal): occurrences are replaced left to right and
    do not overlap.  [skip] counts the bytes of a matched [old] still to be
    dropped. *)
Fixpoint replace_from (old new : string) (skip : nat) (s : string) : string :=
  match s with
  | EmptyString => EmptyString
  | String a s' =>
      match skip with
      | S k => replace_from old new k s'
      | O =>
          if String.prefix old s
          then new +:+ replace_from old new (String.length old - 1) s'
          else String a (replace_from old new 0 s')
      end
  end.

Definition replace (old new s : string) : string := replace_from old new 0 s.

(** [x in xs] for a list of strings. *)
Definition mem (x : string) (xs : list string) : bool :=
  existsb (String.eqb x) xs.

(** The string starts with a byte outside ASCII (the first byte of a
    multi-byte character). *)
Definition lead (p : string) : bool :=
  match p with
  | String b _ => 128 <=? nat_of_ascii b
  | EmptyString => false
  end.

(** *** Numeric literals: [int(s)] and [float(s)] *)

Definition is_digit (a : ascii) : bool :=
  let n := nat_of_ascii a in (48 <=? n) && (n <=? 57).

Definition digit_val (a : ascii) : Z := Z.of_nat (nat_of_ascii a - 48).

(** Every character is a decimal digit. *)
Fixpoint all_digits (s : string) : bool :=
  match s with
  | String a s' => is_digit a && all_digits s'
  | EmptyString => true
  end.

(** A [digitpart]: [digit (["_"] digit)*].  Returns the value read so far,
    the number of digits, and the unread rest. *)
Fixpoint read_digits (s : string) (acc : Z) (n : nat) : Z * nat * string :=
  match s with
  | String a s' =>
      if is_digit a then read_digits s' (acc * 10 + digit_val a)%Z (S n)
      else if Ascii.eqb a "_" && negb (n =? 0) then
        match s' with
        | String b _ => if is_digit b then read_digits s' acc n else (acc, n, s)
        | EmptyString => (acc, n, s)
        end
      else (acc, n, s)
  | EmptyString => (acc, n, s)
  end.

Definition read_sign (s : string) : bool * string :=
  match s with
  | String "-" s' => (true, s')
  | String "+" s' => (false, s')
  | _ => (false, s)
  end.

(** [int(s)]: blanks around, a sign, a digitpart.  [None] is [ValueError]. *)
Definition int (s : string) : option Z :=
  let '(neg, s1) := read_sign (strip s) in
  match read_digits s1 0 0 with
  | (v, S _, EmptyString) => Some (if neg then (- v)%Z else v)
  | _ => None
  end.

Definition lower (a : ascii) : ascii :=
  let n := nat_of_ascii a in
  if (65 <=? n) && (n <=? 90) then ascii_of_nat (n + 32) else a.

Fixpoint lowercase (s : string) : string :=
  match s with
  | String a s' => String (lower a) (lowercase s')
  | EmptyString => EmptyString
  end.

Definition upper_ascii (a : ascii) : ascii :=
  let n := nat_of_ascii a in
  if (97 <=? n) && (n <=? 122) then ascii_of_nat (n - 32) else a.

(** [s.upper()] on ASCII letters. *)
Fixpoint upper (s : string) : string :=
  match s with
  | String a s' => String (upper_ascii a) (upper s')
  | EmptyString => EmptyString
  end.

(** What [float(s)] returns.  A finite literal keeps its exact decimal value:
    the program only compares it with 0 and 1, and [in_unit] below draws the
    comparison where rounding to binary64 draws it. *)
Inductive pyfloat :=
  | Finite (q : Q)
  | Infinite (neg : bool)
  | NaN.

Definition scale10 (m e : Z) : Q :=
  if (0 <=? e)%Z then inject_Z (m * 10 ^ e) else Qmake m (Z.to_pos (10 ^ (- e))).

(** The optional exponent of a [floatnumber]; [None] when the rest is not
    one. *)
Definition read_exponent (s : string) : option Z :=
  match s with
  | EmptyString => Some 0%Z
  | String a s' =>
      if Ascii.eqb (lower a) "e" then
        let '(neg, s1) := read_sign s' in
        match read_digits s1 0 0 with
        | (v, S _, EmptyString) => Some (if neg then (- v)%Z else v)
        | _ => None
        end
      else None
  end.

(** [number [exponent]] with
    [number ::= [digitpart] "." digitpart | digitpart ["."]]. *)
Definition read_floatnumber (s : string) : option Q :=
  let '(ip, ni, s1) := read_digits s 0 0 in
  match s1 with
  | String "." s2 =>
      let '(m, nf, s3) := read_digits s2 ip 0 in
      if (ni =? 0) && (nf =? 0) then None
      else e ← read_exponent s3; Some (scale10 m (e - Z.of_nat nf))
  | _ =>
      if ni =? 0 then None
      else e ← read_exponent s1; Some (scale10 ip e)
  end.

(** [float(s)]; [None] is [ValueError]. *)
Definition float (s : string) : option pyfloat :=
  let '(neg, s1) := read_sign (strip s) in
  let w := lowercase s1 in
  if String.eqb w "inf" || String.eqb w "infinity" then Some (Infinite neg)
  else if String.eqb w "nan" then Some NaN
  else q ← read_floatnumber s1; Some (Finite (if neg then Qopp q else q)).

(** [0 <= v <= 1] on the binary64 that [float] returned: a literal rounds to
    a double in [[-0.0, 1.0]] exactly when it lies between the two midpoints
    [-2^-1075] and [1 + 2^-53] (ties go to the even neighbour, 0 and 1). *)
Definition in_unit (v : pyfloat) : bool :=
  match v with
  | Finite q =>
      Qle_bool (Qmake (-1) (2 ^ 1075)) q && Qle_bool q (1 + Qmake 1 (2 ^ 53))
  | _ => false
  end.

End Py.


(** ** The tabular document model

    What the page-fetching collaborator hands to the extractors: a table is a
    list of rows ([find_elements(By.XPATH, ".//tr")]), a row a list of cells
    ([find_elements(By.TAG_NAME, "td")]). *)

Record Cell := {
  cell_text : string;            (* [cell.text] *)
  cell_class : string;           (* [cell.get_attribute("class")] *)
  cell_link : option string;     (* text of the first [<a>] inside the cell;
                                    [None]: [find_element] raises *)
  cell_rowspan : option string;  (* [cell.get_attribute("rowspan")] *)
}.

Record Row := {
  row_class : string;            (* [row.get_attribute("class")] *)
  row_cells : list Cell;
}.

(** [cells[i].text.strip()]; [None] is [IndexError]. *)
Definition text_at (cells : list Cell) (i : nat) : option string :=
  c ← cells !! i; Some (Py.strip (cell_text c)).

(** A plain data cell, for examples. *)
Definition td (s : string) : Cell :=
  {| cell_text := s; cell_class := "datacolBox"; cell_link := None;
     cell_rowspan := None |}.

(** A cell whose text is a link. *)
Definition td_link (s : string) : Cell :=
  {| cell_text := s; cell_class := "datacolBox"; cell_link := Some s;
     cell_rowspan := None |}.

Definition tr (cells : list Cell) : Row :=
  {| row_class := ""; row_cells := cells |}.

(** ** [extract_team_standings] *)

Module Standings.

Record StandingRecord := {
  Year : string;
  League : string;
  Division : string;
  Team : string;
  Wins : option string;
  Losses : option string;
  Ties : option string;
  WP : option string;
  GB : option string;
  Payroll : option string;
}.

Definition split_indicators : list string :=
  ["Final"; "1st Half"; "2nd Half"; "(a)"; "(b)"].

(** Lines 253-267: [(offset, skip_row)]. *)
Definition split_offset (cells : list Cell) : nat * bool :=
  if 1 <? length cells then
    match text_at cells 1 with
    | Some second_cell_text =>
        if Py.mem second_cell_text split_indicators
        then (1, negb (String.eqb second_cell_text "Final"))
        else (0, false)
    | None => (0, false)
    end
  else (0, false).

(** The values of one row before the empty-to-[None] pass. *)
Record Fields := {
  wins : option string;
  losses : option string;
  ties : option string;
  wp : option string;
  gb : option string;
  payroll : option string;
}.

Definition no_fields : Fields :=
  {| wins := None; losses := None; ties := None; wp := None; gb := None;
     payroll := None |}.

(** [payroll_text.replace('$', '').replace(',', '').strip()] when the text
    starts with the currency marker. *)
Definition payroll_of (payroll_text : string) : option string :=
  if Py.startswith "$" payroll_text
  then Some (Py.strip (Py.replace "," "" (Py.replace "$" "" payroll_text)))
  else None.

(** [float(cell) if cell else 0] *)
Definition float_or_zero (cell : string) : option Py.pyfloat :=
  if Py.truthy cell then Py.float cell else Some (Py.Finite 0).

(** Lines 296-320, the body of the [try]: [(ties, wp, gb, payroll)], or
    [None] when it raises.  Only the two [float] calls can raise, and they
    come before any assignment: the cell reads below them are within
    [num_cells >= 7 + offset]. *)
Definition ties_or_wp (offset num_cells : nat) (cells : list Cell)
    (third_cell fourth_cell : string)
    : option (option string * option string * option string * option string) :=
  third_val ← float_or_zero third_cell;
  fourth_val ← float_or_zero fourth_cell;
  if Py.in_unit fourth_val && Py.contains "." fourth_cell then
    let ties :=
      if Py.truthy third_cell && negb (String.eqb third_cell "0")
      then Some third_cell else None in
    gb ← text_at cells (5 + offset);
    if 7 + offset <=? num_cells then
      payroll_text ← text_at cells (6 + offset);
      Some (ties, Some fourth_cell, Some gb, payroll_of payroll_text)
    else Some (ties, Some fourth_cell, Some gb, None)
  else
    if 6 + offset <=? num_cells then
      payroll_text ← text_at cells (5 + offset);
      Some (None, Some third_cell, Some fourth_cell, payroll_of payroll_text)
    else Some (None, Some third_cell, Some fourth_cell, None).

(** Lines 275-328: the column reads, every index shifted by [offset].
    [None]: an exception escaped to the row's [except]. *)
Definition read_fields (offset : nat) (cells : list Cell) : option Fields :=
  let num_cells := length cells in
  if 5 + offset <=? num_cells then
    w ← text_at cells (1 + offset);
    l ← text_at cells (2 + offset);
    if 7 + offset <=? num_cells then
      third_cell ← text_at cells (3 + offset);
      fourth_cell ← text_at cells (4 + offset);
      match ties_or_wp offset num_cells cells third_cell fourth_cell with
      | Some (t, p, g, pay) =>
          Some {| wins := Some w; losses := Some l; ties := t; wp := p;
                  gb := g; payroll := pay |}
      | None =>
          Some {| wins := Some w; losses := Some l; ties := None;
                  wp := Some third_cell; gb := Some fourth_cell;
                  payroll := None |}
      end
    else
      p ← text_at cells (3 + offset);
      g ← text_at cells (4 + offset);
      Some {| wins := Some w; losses := Some l; ties := None; wp := Some p;
              gb := Some g; payroll := None |}
  else Some no_fields.

(** The two mangled encodings of the half-game glyph the extractor knows. *)
Definition half_long : string := "Ãƒâ€šÃ‚Â½".
Definition half_short : string := "Â½".

(** Lines 330-338. *)
Definition clean_gb (gb : option string) : option string :=
  match gb with
  | Some g =>
      if String.eqb g "--" then Some "0"
      else if Py.truthy g && Py.contains half_long g
      then Some (Py.replace half_long ".5" g)
      else if Py.truthy g && Py.contains half_short g
      then Some (Py.replace half_short ".5" g)
      else if Py.truthy g && Py.contains "," g
      then Some (Py.replace "," "." g)
      else gb
  | None => None
  end.

(** [if not x: x = None] *)
Definition or_none (x : option string) : option string :=
  if Py.truthy_opt x then x else None.

(** [if not ties or ties == '0': ties = None] *)
Definition ties_or_none (x : option string) : option string :=
  match x with
  | Some t => if negb (Py.truthy t) || String.eqb t "0" then None else x
  | None => None
  end.

(** Lines 330-365: the record appended for a row whose fields were read. *)
Definition record_of (year league division team_name : string) (f : Fields)
    : StandingRecord :=
  {| Year := year; League := league; Division := division; Team := team_name;
     Wins := or_none (wins f);
     Losses := or_none (losses f);
     Ties := ties_or_none (ties f);
     WP := or_none (wp f);
     GB := or_none (clean_gb (gb f));
     Payroll := or_none (payroll f) |}.

(** Lines 272-365: what a team row appends once its offset is known. *)
Definition parse_at (year league division team_name : string) (offset : nat)
    (cells : list Cell) : list StandingRecord :=
  match read_fields offset cells with
  | Some f => [record_of year league division team_name f]
  | None => []
  end.

(** One pass of the loop body: the division to carry on with and the records
    appended. *)
Definition standings_row (year league current_division : string) (row : Row)
    : string * list StandingRecord :=
  let cells := row_cells row in
  match cells with
  | [] => (current_division, [])
  | c0 :: _ =>
      let first_cell_class := cell_class c0 in
      let first_cell_text := Py.strip (cell_text c0) in
      let first_cell_rowspan := cell_rowspan c0 in
      if Py.truthy_opt first_cell_rowspan
         && Py.mem first_cell_text ["East"; "Central"; "West"]
      then (first_cell_text, [])
      else if Py.contains "banner" first_cell_class
              || Py.contains "header" first_cell_class
      then (current_division, [])
      else
        match cell_link c0 with
        | None => (current_division, [])
        | Some link_text =>
            let team_name := Py.strip link_text in
            if Py.contains "All-Star" team_name
               || Py.contains "World Series" team_name
            then (current_division, [])
            else if negb (Py.truthy team_name) then (current_division, [])
            else
              let '(offset, skip_row) := split_offset cells in
              if skip_row then (current_division, [])
              else (current_division,
                    parse_at year league current_division team_name offset cells)
        end
  end.

Fixpoint standings_rows (year league current_division : string)
    (rows : list Row) : list StandingRecord :=
  match rows with
  | [] => []
  | row :: rest =>
      let '(division, out) := standings_row year league current_division row in
      out ++ standings_rows year league division rest
  end.

Definition extract_team_standings (ba_table : list Row) (year league : string)
    : list StandingRecord :=
  standings_rows year league "Standard" ba_table.

End Standings.

(** ** [extract_player_leaders] *)

Module Leaders.

Record LeaderRecord := {
  Year : string;
  League : string;
  Statistic : option string;
  Player_Name : option string;
  Team : string;
  Value : option string;
}.

(** The three variables the loop carries from row to row. *)
Record State := {
  current_statistic : option string;
  current_value : option string;
  current_player : option string;
}.

Definition initial : State :=
  {| current_statistic := None; current_value := None;
     current_player := None |}.

(** [name.replace('*', '').strip()] *)
Definition clean_name (name : string) : string :=
  Py.strip (Py.replace "*" "" name).

(** Lines 127-148, the row that opens a group.  The four cell reads are
    within [num_cells >= 5]; [int(player_rowspan)] can raise, after the
    statistic and the value were stored and before the record is
    appended. *)
Definition start_row (year league : string) (st : State) (cells : list Cell)
    : State * list LeaderRecord :=
  match text_at cells 0, text_at cells 1, text_at cells 2, text_at cells 3,
        cells !! 1 with
  | Some statistic, Some player, Some team, Some value, Some c1 =>
      let player_name := clean_name player in
      let player_rowspan := cell_rowspan c1 in
      let emit keep :=
        ({| current_statistic := Some statistic; current_value := Some value;
            current_player := keep |},
         [{| Year := year; League := league; Statistic := Some statistic;
             Player_Name := Some player_name; Team := team;
             Value := Some value |}]) in
      if Py.truthy_opt player_rowspan then
        match Py.int (default "" player_rowspan) with
        | Some n => if (1 <? n)%Z then emit (Some player_name) else emit None
        | None =>
            ({| current_statistic := Some statistic;
                current_value := Some value;
                current_player := current_player st |}, [])
        end
      else emit None
  | _, _, _, _, _ => (st, [])
  end.

(** Lines 118-123: the rows the loop passes over, inactive ("grey") or
    structural (banner, header).  Both tests end in [continue]. *)
Definition passed_over (row : Row) (c0 : Cell) : bool :=
  let first_cell_class := cell_class c0 in
  (Py.contains "grey" first_cell_class || Py.contains "grey" (row_class row))
  || (Py.contains "banner" first_cell_class
      || Py.contains "header" first_cell_class).

(** One pass of the loop body (lines 113-192). *)
Definition leader_row (year league : string) (st : State) (row : Row)
    : State * list LeaderRecord :=
  let cells := row_cells row in
  match cells with
  | [] => (st, [])
  | c0 :: _ =>
      let first_cell_class := cell_class c0 in
      if passed_over row c0 then (st, [])
      else
        let num_cells := length cells in
        if (5 <=? num_cells) && Py.contains "datacolBlue" first_cell_class
        then start_row year league st cells
        else if (num_cells =? 2) && Py.truthy_opt (current_statistic st)
                && Py.truthy_opt (current_value st)
        then
          match text_at cells 0, text_at cells 1 with
          | Some player, Some team =>
              (st, [{| Year := year; League := league;
                       Statistic := current_statistic st;
                       Player_Name := Some (clean_name player);
                       Team := team; Value := current_value st |}])
          | _, _ => (st, [])
          end
        else if (num_cells =? 1) && Py.truthy_opt (current_player st)
                && Py.truthy_opt (current_statistic st)
        then
          match text_at cells 0 with
          | Some team =>
              (st, [{| Year := year; League := league;
                       Statistic := current_statistic st;
                       Player_Name := current_player st;
                       Team := team; Value := current_value st |}])
          | None => (st, [])
          end
        else if (num_cells =? 3) && Py.truthy_opt (current_statistic st)
        then
          match text_at cells 0, text_at cells 1, text_at cells 2 with
          | Some player, Some team, Some value =>
              (st, [{| Year := year; League := league;
                       Statistic := current_statistic st;
                       Player_Name := Some (clean_name player);
                       Team := team; Value := Some value |}])
          | _, _, _ => (st, [])
          end
        else (st, [])
  end.

Fixpoint leader_rows (year league : string) (st : State) (rows : list Row)
    : list LeaderRecord :=
  match rows with
  | [] => []
  | row :: rest =>
      let '(st', out) := leader_row year league st row in
      out ++ leader_rows year league st' rest
  end.

Definition extract_player_leaders (ba_table : list Row) (year league : string)
    : list LeaderRecord :=
  leader_rows year league initial ba_table.

End Leaders.

(** ** [extract_team_leaders] (vertical format) *)

Module TeamLeaders.

Record TeamLeaderRecord := {
  Year : string;
  League : string;
  Statistic : string;
  Team : string;
  Value : string;
}.

Definition team_leader_row (year league : string) (row : Row)
    : list TeamLeaderRecord :=
  let cells := row_cells row in
  match cells with
  | [] => []
  | c0 :: _ =>
      if length cells <? 3 then []
      else
        let first_cell_class := cell_class c0 in
        if Py.contains "banner" first_cell_class
           || Py.contains "header" first_cell_class
        then []
        else if Py.contains "datacolBlue" first_cell_class then
          match text_at cells 0, text_at cells 1, text_at cells 2 with
          | Some statistic, Some team, Some value0 =>
              let value :=
                if Py.truthy value0 then Py.replace "," "" value0 else value0 in
              if Py.truthy statistic && Py.truthy team && Py.truthy value
              then [{| Year := year; League := league; Statistic := statistic;
                       Team := team; Value := value |}]
              else []
          | _, _, _ => []
          end
        else []
  end.

Definition extract_team_leaders (ba_table : list Row) (year league : string)
    : list TeamLeaderRecord :=
  flat_map (team_leader_row year league) ba_table.

End TeamLeaders.

(** ** Records as Python dictionaries

    A record is a [dict] from column name to a [str] or [None]; insertion
    order is kept, and assigning an existing key overwrites it in place. *)

Definition dict := list (string * option string).

Fixpoint dict_set (k : string) (v : option string) (d : dict) : dict :=
  match d with
  | [] => [(k, v)]
  | (k', v') :: d' =>
      if String.eqb k k' then (k, v) :: d' else (k', v') :: dict_set k v d'
  end.

(** [d[k]]; the outer [None] is [KeyError]. *)
Fixpoint dict_get (k : string) (d : dict) : option (option string) :=
  match d with
  | [] => None
  | (k', v') :: d' => if String.eqb k k' then Some v' else dict_get k d'
  end.

(** ** [extract_team_stats_complete] (horizontal format) *)

Module TeamStats.

Definition EXPECTED_COLUMNS : list string :=
  ["TEAM"; "W"; "L"; "ERA"; "G"; "CG"; "SHO"; "SV"; "SVO";
   "IP"; "HA"; "R"; "ER"; "HR"; "HBP"; "BB"; "SO"].

Definition COLUMN_MAPPING : list (string * string) :=
  [("H", "HA"); ("SH", "SHO"); ("Team", "TEAM"); ("TEAM", "TEAM")].

(** [COLUMN_MAPPING.get(col, col)] *)
Definition normalize_column (col : string) : string :=
  match List.find (fun kv => String.eqb col (fst kv)) COLUMN_MAPPING with
  | Some kv => snd kv
  | None => col
  end.

(** [ba_table.find_element(By.XPATH, ".//tr[td[@class='banner']]")] *)
Definition header_row (ba_table : list Row) : option Row :=
  List.find
    (fun row =>
       existsb (fun c => String.eqb (cell_class c) "banner") (row_cells row))
    ba_table.

(** Lines 440-444: the non-empty header texts, in order. *)
Definition html_columns_of (header_cells : list Cell) : list string :=
  List.filter Py.truthy (map (fun c => Py.strip (cell_text c)) header_cells).

(** Lines 475-477: a later column of the same name overwrites the index. *)
Definition index_columns (columns : list string) : gmap string nat :=
  fold_left (fun m p => <[snd p := fst p]> m) (imap pair columns) ∅.


Definition is_special (stats_type year : string) : bool :=
  String.eqb stats_type "Pitching" && Py.mem year ["2002"; "2003"; "2004"].

(** [value.replace(',', '')] under [if value:] *)
Definition no_commas (value : string) : string :=
  if Py.truthy value then Py.replace "," "" value else value.

(** Cell [i] of a row as the extractor stores it: its text without commas,
    [None] when the row has no cell [i]. *)
Definition cell_value (cells : list Cell) (i : nat) : option string :=
  no_commas <$> text_at cells i.

(** Lines 536-550: the value stored for one expected column. *)
Definition mapped_value (html_col_to_index : gmap string nat)
    (cells : list Cell) (expected_col : string) : option string :=
  match html_col_to_index !! expected_col with
  | Some cell_idx =>
      if cell_idx <? length cells
      then value ← text_at cells cell_idx; Some (no_commas value)
      else None
  | None => None
  end.

(** Lines 531-550. *)
Definition map_expected (html_col_to_index : gmap string nat)
    (cells : list Cell) (row_data : dict) : dict :=
  fold_left
    (fun d expected_col =>
       if String.eqb expected_col "TEAM" then d
       else dict_set expected_col
              (mapped_value html_col_to_index cells expected_col) d)
    EXPECTED_COLUMNS row_data.

(** Lines 556-571: cell [idx] goes under header label [idx]. *)
Definition map_positional (html_columns : list string) (cells : list Cell)
    (row_data : dict) : dict :=
  let max_idx := Nat.min (length cells) (length html_columns) in
  fold_left
    (fun d idx =>
       match html_columns !! idx, text_at cells idx with
       | Some col_name, Some value =>
           if negb (String.eqb (Py.upper col_name) "TEAM")
           then dict_set col_name (Some (no_commas value)) d
           else d
       | _, _ => d
       end)
    (seq 0 max_idx) row_data.

(** Lines 504-510: the link text, else the cell text. *)
Definition team_of (c0 : Cell) : string :=
  match cell_link c0 with
  | Some link_text => Py.strip link_text
  | None => Py.strip (cell_text c0)
  end.

(** One data row (lines 493-573); [None] when the row is skipped. *)
Definition stats_row (special : bool) (html_columns : list string)
    (html_col_to_index : gmap string nat) (year league : string) (row : Row)
    : option dict :=
  let cells := row_cells row in
  match cells with
  | [] => None
  | c0 :: _ =>
      if length cells <? 3 then None
      else
        let first_cell_class := cell_class c0 in
        if Py.contains "banner" first_cell_class
           || Py.contains "header" first_cell_class
        then None
        else
          let team_name := team_of c0 in
          if negb (Py.truthy team_name) then None
          else if Py.contains "All-Star" team_name
                  || Py.contains "World Series" team_name
                  || Py.contains "Seasonal Events" team_name
          then None
          else
            let row_data :=
              [("Year", Some year); ("League", Some league);
               ("Team", Some team_name)] in
            Some (if special
                  then map_expected html_col_to_index cells row_data
                  else map_positional html_columns cells row_data)
  end.

Definition extract_team_stats_complete (ba_table : list Row)
    (year league stats_type : string) : list dict :=
  match header_row ba_table with
  | None => []
  | Some header =>
      let html_columns := html_columns_of (row_cells header) in
      match html_columns with
      | [] => []
      | _ :: _ =>
          let special := is_special stats_type year in
          let normalized_html_columns :=
            if special then map normalize_column html_columns
            else html_columns in
          let html_col_to_index :=
            if special then index_columns normalized_html_columns else ∅ in
          omap (stats_row special html_columns html_col_to_index year league)
               ba_table
      end
  end.

End TeamStats.

(** ** The pandas layer

    A CSV file is its header and its lines of fields (quoting is taken as a
    faithful round trip of each field).  A frame holds typed values:
    [read_csv] gives a column whose fields all read as numbers a numeric
    dtype, and leaves the fields of any other column as text. *)

Record File := {
  header : list string;
  lines : list (list string);
}.

Module Pandas.

(** The scalar side of pandas: how a field is read as a number, how a number
    is written, and which numbers are integers.  Numbers are written as they
    were read (the upcast of an integer column that holds a missing value is
    not modelled). *)
Class Numeric := {
  number : Type;
  number_eq_dec : EqDecision number;
  to_number : string -> option number;
  num_str : number -> string;
  is_integer : number -> bool;
}.
#[global] Existing Instance number_eq_dec.

(** The strings [read_csv] reads as a missing value. *)
Definition NA_VALUES : list string :=
  [""; "#N/A"; "#N/A N/A"; "#NA"; "-1.#IND"; "-1.#QNAN"; "-NaN"; "-nan";
   "1.#IND"; "1.#QNAN"; "<NA>"; "N/A"; "NA"; "NULL"; "NaN"; "None"; "n/a";
   "nan"; "null"].

Inductive dtype := int64 | float64 | object.

Section frames.
Context `{Numeric}.

(** A cell: missing ([NaN] or [None]), a number, or a [str]. *)
Inductive value :=
  | NA
  | Num (n : number)
  | Str (s : string).

#[global] Instance value_eq_dec : EqDecision value.
Proof. solve_decision. Defined.

Record DataFrame := {
  columns : list string;
  rows : list (list value);
}.

Definition is_str (v : value) : bool :=
  match v with Str _ => true | _ => false end.

Definition is_int_value (v : value) : bool :=
  match v with Num n => is_integer n | _ => false end.

(** [series.dtype], read off the values the series holds. *)
Definition series_dtype (s : list value) : dtype :=
  if existsb is_str s then object
  else if forallb is_int_value s then int64
  else float64.

(** [str(v)], and what [astype(str)] makes of a cell. *)
Definition astype_str (v : value) : string :=
  match v with
  | NA => "nan"
  | Num n => num_str n
  | Str s => s
  end.

Fixpoint index_of (c : string) (cols : list string) : option nat :=
  match cols with
  | [] => None
  | c' :: cols' =>
      if String.eqb c c' then Some 0 else S <$> index_of c cols'
  end.

(** [c in df.columns] *)
Definition has_column (df : DataFrame) (c : string) : bool :=
  Py.mem c (columns df).

(** [df[c]] *)
Definition series (df : DataFrame) (c : string) : list value :=
  match index_of c (columns df) with
  | Some i => map (fun r => default NA (r !! i)) (rows df)
  | None => []
  end.

(** [df[c] = s] for a column the frame has. *)
Definition set_series (df : DataFrame) (c : string) (s : list value)
    : DataFrame :=
  match index_of c (columns df) with
  | Some i =>
      {| columns := columns df;
         rows := imap (fun k r => <[i := default NA (s !! k)]> r) (rows df) |}
  | None => df
  end.

(** [df[c] = df[c].apply(f)] *)
Definition apply_column (f : value -> value) (c : string) (df : DataFrame)
    : DataFrame :=
  set_series df c (map f (series df c)).

(** [pd.DataFrame(data)] for a list of dictionaries: the columns are the
    keys in order of first appearance, a key a record lacks is missing. *)
Definition keys_of (data : list dict) : list string :=
  fold_left
    (fun cols d =>
       fold_left
         (fun cols kv => if Py.mem (fst kv) cols then cols else cols ++ [fst kv])
         d cols)
    data [].

Definition cell_of (d : dict) (c : string) : value :=
  match dict_get c d with
  | Some (Some s) => Str s
  | _ => NA
  end.

Definition of_records (data : list dict) : DataFrame :=
  let cols := keys_of data in
  {| columns := cols; rows := map (fun d => map (cell_of d) cols) data |}.

(** [df.to_csv(path, index=False)] *)
Definition field_of (v : value) : string :=
  match v with
  | NA => ""
  | Num n => num_str n
  | Str s => s
  end.

Definition to_csv (df : DataFrame) : File :=
  {| header := columns df; lines := map (map field_of) (rows df) |}.

(** [pd.read_csv(path)]: a column is numeric when every field that is not a
    missing value reads as a number. *)
Definition is_na_field (s : string) : bool := Py.mem s NA_VALUES.

Definition field_at (i : nat) (line : list string) : string :=
  default "" (line !! i).

Definition numeric_column (i : nat) (ls : list (list string)) : bool :=
  forallb
    (fun line =>
       let s := field_at i line in
       is_na_field s || bool_decide (is_Some (to_number s)))
    ls.

Definition read_field (numeric : bool) (s : string) : value :=
  if is_na_field s then NA
  else if numeric then
    match to_number s with Some n => Num n | None => NA end
  else Str s.

Definition read_csv (f : File) : DataFrame :=
  let numeric := imap (fun i _ => numeric_column i (lines f)) (header f) in
  {| columns := header f;
     rows := map (fun line =>
                    imap (fun i num => read_field num (field_at i line)) numeric)
                 (lines f) |}.

(** [pd.concat([a, b], ignore_index=True)]: the columns of [a], then those
    only [b] has; a row is missing where its frame lacks the column. *)
Definition reindex (cols : list string) (df : DataFrame) : list (list value) :=
  map (fun r =>
         map (fun c =>
                match index_of c (columns df) with
                | Some i => default NA (r !! i)
                | None => NA
                end) cols)
      (rows df).

Definition concat (a b : DataFrame) : DataFrame :=
  let cols :=
    columns a ++ List.filter (fun c => negb (Py.mem c (columns a))) (columns b) in
  {| columns := cols; rows := reindex cols a ++ reindex cols b |}.

(** The key of a row under [subset]. *)
Definition row_key (cols subset : list string) (r : list value) : list value :=
  map (fun c =>
         match index_of c cols with
         | Some i => default NA (r !! i)
         | None => NA
         end) subset.

(** [keep='first']: a row goes when an earlier row had its key. *)
Fixpoint keep_first (cols subset : list string) (seen : list (list value))
    (rs : list (list value)) : list (list value) :=
  match rs with
  | [] => []
  | r :: rest =>
      let k := row_key cols subset r in
      if bool_decide (k ∈ seen) then keep_first cols subset seen rest
      else r :: keep_first cols subset (k :: seen) rest
  end.

(** [df.drop_duplicates(subset=subset, keep='first')] *)
Definition drop_duplicates (subset : list string) (df : DataFrame) : DataFrame :=
  {| columns := columns df;
     rows := keep_first (columns df) subset [] (rows df) |}.

(** [df.dropna(how='all')] *)
Definition dropna_all (df : DataFrame) : DataFrame :=
  {| columns := columns df;
     rows := List.filter
               (fun r => negb (forallb (fun v => bool_decide (v = NA)) r))
               (rows df) |}.

(** [len(df)] *)
Definition len (df : DataFrame) : nat := length (rows df).

End frames.

End Pandas.

(** ** The incremental sink: [save_to_csv] *)

Module Sink.
Import Pandas.

Definition KEY_COLUMNS : list string :=
  ["Year"; "League"; "Team"; "Player_Name"; "Statistic"].

(** [not xs] for a list. *)
Definition is_empty {A} (xs : list A) : bool :=
  match xs with [] => true | _ :: _ => false end.

Section sink.
Context `{Numeric}.

(** Lines 613-623: the conventional keys the new frame has, in that order. *)
Definition key_columns (df : DataFrame) : list string :=
  List.filter (has_column df) KEY_COLUMNS.

(** The files of the output directory, by name.  No step of the merge raises
    in this model, so the fallback append of the [except] is not reached. *)
Definition save_to_csv (data : list dict) (filename : string)
    (fs : gmap string File) : gmap string File :=
  match data with
  | [] => fs
  | _ :: _ =>
      let df_new := of_records data in
      match fs !! filename with
      | None => <[filename := to_csv df_new]> fs
      | Some f =>
          let df_existing := read_csv f in
          let keys := key_columns df_new in
          if negb (is_empty keys) then
            let df_combined :=
              drop_duplicates keys (concat df_existing df_new) in
            <[filename := to_csv df_combined]> fs
          else
            <[filename := {| header := header f;
                             lines := lines f ++ lines (to_csv df_new) |}]> fs
      end
  end.

End sink.

End Sink.

(** An instance of the scalar layer that reads integer literals only (pandas
    reads decimals as well); the examples below run on it. *)

Module IntegerFields.

Definition read_integer (s : string) : option Z :=
  let '(neg, s1) :=
    match s with
    | String "-" s' => (true, s')
    | _ => (false, s)
    end in
  if Py.truthy s1 && Py.all_digits s1 then
    let v := fst (fst (Py.read_digits s1 0 0)) in
    Some (if neg then (- v)%Z else v)
  else None.

Definition write_integer (z : Z) : string :=
  DecimalString.NilZero.string_of_int (Z.to_int z).

#[global] Instance integers : Pandas.Numeric := {|
  Pandas.number := Z;
  Pandas.number_eq_dec := Z.eq_dec;
  Pandas.to_number := read_integer;
  Pandas.num_str := write_integer;
  Pandas.is_integer := fun _ => true;
|}.

End IntegerFields.

(** ** The normalizer: [data_cleaner.py] *)

Module Cleaner.
Import Pandas.

(** The alternatives of the pattern in [clean_special_characters], in the
    order the regular expression tries them. *)
Definition HALF_PATTERNS : list string :=
  ["Â½"; "½"; "Ã‚Â½"; "Ãƒâ€šÃ‚Â½"].

(** The characters of the class that step 3 looks for. *)
Definition SPECIAL_CHARS : list string :=
  ["Ã"; "‚"; "Â"; "½"; "ƒ"; "â"; "€"; "š"].

Definition has_special (s : string) : bool :=
  existsb (fun c => Py.contains c s) SPECIAL_CHARS.

(** [re.sub(pattern, '.5', s)]: at each position the first alternative that
    matches is replaced; [skip] counts the bytes of a match still to drop. *)
Fixpoint sub_half (skip : nat) (s : string) : string :=
  match s with
  | EmptyString => EmptyString
  | String a s' =>
      match skip with
      | S k => sub_half k s'
      | O =>
          match List.find (fun p => String.prefix p s) HALF_PATTERNS with
          | Some p => ".5" +:+ sub_half (String.length p - 1) s'
          | None => String a (sub_half 0 s')
          end
      end
  end.

(** The entries of [changes_made]. *)
Inductive Change :=
  | RemovedEmptyRows (n : nat)
  | RemovedDuplicates (n : nat) (keys : list string)
  | CleanedSpecial (n : nat) (col : string)
  | RemovedQuestionMarks (n : nat) (col : string)
  | ReplacedPlaceholders (n : nat)
  | RemovedAsterisks (n : nat) (col : string)
  | CleanedWhitespace (n : nat)
  | StandardizedDecimal (col : string)
  | ConvertedNumeric (col : string).

#[global] Instance dtype_eq_dec : EqDecision dtype.
Proof. solve_decision. Defined.

Definition numeric_like_columns : list string :=
  ["Year"; "Wins"; "Losses"; "Ties"; "G"; "AB"; "R"; "H"; "2B"; "3B"; "HR";
   "RBI"; "BB"; "SO"; "SB"; "W"; "L"; "CG"; "SHO"; "SV"; "IP"; "GB"; "Value"].

Definition numeric_columns : list string :=
  ["Year"; "Wins"; "Losses"; "Ties"; "G"; "AB"; "R"; "H"; "2B"; "3B"; "HR";
   "RBI"; "BB"; "SO"; "SB"; "W"; "L"; "CG"; "SHO"; "SV"; "IP"].

Definition decimal_numeric_columns : list string :=
  ["ERA"; "AVG"; "OBP"; "SLG"; "OPS"; "WP"; "BA"; "PCT"; "GB"; "Value"].

Definition decimal_markers : list string :=
  ["AVG"; "BA"; "ERA"; "WP"; "OBP"; "SLG"; "PCT"].

Section cleaner.
Context `{Numeric}.

Definition clean_special_characters (v : value) : value :=
  match v with
  | NA => NA
  | _ => Str (sub_half 0 (astype_str v))
  end.

Definition clean_placeholder_values (v : value) : value :=
  match v with
  | NA => NA
  | _ =>
      let value_str := Py.strip (astype_str v) in
      if String.eqb value_str "--" || String.eqb value_str "" then NA else v
  end.

Definition clean_asterisks (v : value) : value :=
  match v with
  | NA => NA
  | _ => Str (Py.strip (Py.replace "*" "" (astype_str v)))
  end.

Definition clean_whitespace (v : value) : value :=
  match v with
  | NA => NA
  | _ => Str (Py.strip (astype_str v))
  end.

(** [value_str[1:]] *)
Definition tail (s : string) : string :=
  match s with String _ s' => s' | EmptyString => EmptyString end.

Definition standardize_decimal_format (v : value) : value :=
  match v with
  | NA => NA
  | _ =>
      let value_str := Py.strip (astype_str v) in
      let value_str :=
        if Py.startswith "," value_str && (1 <? String.length value_str)
        then "." +:+ tail value_str else value_str in
      if Py.startswith "." value_str && (1 <? String.length value_str)
      then Str ("0" +:+ value_str) else Str value_str
  end.

(** [value_str[:-1]] *)
Fixpoint init (s : string) : string :=
  match s with
  | String a EmptyString => EmptyString
  | String a s' => String a (init s')
  | EmptyString => EmptyString
  end.

Definition clean_question_marks (v : value) : value :=
  match v with
  | NA => NA
  | _ =>
      let value_str := Py.strip (astype_str v) in
      if Py.endswith "?" value_str then Str (Py.strip (init value_str))
      else Str value_str
  end.

(** [pd.to_numeric(series, errors='coerce')] on one cell: what does not read
    as a number becomes [NaN]. *)
Definition coerce (v : value) : value :=
  match v with
  | Str s => match to_number s with Some n => Num n | None => NA end
  | _ => v
  end.

(** Lines 91-102.  With [errors='coerce'] the conversion does not raise, so
    the [except] that would hand the series back is not reached. *)
Definition convert_to_numeric (s : list value) : list value :=
  map coerce (map clean_special_characters (map clean_placeholder_values s)).

Definition count (p : value -> bool) (s : list value) : nat :=
  length (List.filter p s).

Definition is_object (s : list value) : bool :=
  bool_decide (series_dtype s = object).

(** Step 1 (lines 131-135). *)
Definition step_empty_rows (df : DataFrame) (log : list Change)
    : DataFrame * list Change :=
  let df' := dropna_all df in
  let removed := len df - len df' in
  (df', if 0 <? removed then log ++ [RemovedEmptyRows removed] else log).

(** Step 2 (lines 138-155). *)
Definition step_duplicates (df : DataFrame) (log : list Change)
    : DataFrame * list Change :=
  let keys := Sink.key_columns df in
  if negb (Sink.is_empty keys) then
    let df' := drop_duplicates keys df in
    let removed := len df - len df' in
    (df', if 0 <? removed then log ++ [RemovedDuplicates removed keys] else log)
  else (df, log).

(** A loop [for col in cols: ...] whose body rewrites one column and may
    log. *)
Definition for_columns (cols : list string)
    (body : string -> DataFrame -> list Change -> DataFrame * list Change)
    (df : DataFrame) (log : list Change) : DataFrame * list Change :=
  fold_left (fun st col => body col (fst st) (snd st)) cols (df, log).

(** Step 3 (lines 158-163). *)
Definition step_special (df : DataFrame) (log : list Change) :=
  for_columns (columns df)
    (fun col df log =>
       if is_object (series df col) then
         let before :=
           count (fun v => has_special (astype_str v)) (series df col) in
         if 0 <? before
         then (apply_column clean_special_characters col df,
               log ++ [CleanedSpecial before col])
         else (df, log)
       else (df, log))
    df log.

(** Step 4 (lines 166-173). *)
Definition step_question_marks (df : DataFrame) (log : list Change) :=
  for_columns numeric_like_columns
    (fun col df log =>
       if has_column df col then
         let before :=
           count (fun v => Py.contains "?" (astype_str v)) (series df col) in
         if 0 <? before
         then (apply_column clean_question_marks col df,
               log ++ [RemovedQuestionMarks before col])
         else (df, log)
       else (df, log))
    df log.

(** Step 5 (lines 176-183); the count is logged once, after the loop. *)
Definition step_placeholders (df : DataFrame) (log : list Change) :=
  let '(df', n) :=
    fold_left
      (fun st col =>
         let before :=
           count (fun v => String.eqb (Py.strip (astype_str v)) "--")
                 (series (fst st) col) in
         if 0 <? before
         then (apply_column clean_placeholder_values col (fst st),
               snd st + before)
         else st)
      (columns df) (df, 0) in
  (df', if 0 <? n then log ++ [ReplacedPlaceholders n] else log).

(** Step 6 (lines 186-192). *)
Definition name_columns (df : DataFrame) : list string :=
  List.filter
    (fun col =>
       Py.contains "Player" col || Py.contains "Name" col
       || Py.contains "Team" col)
    (columns df).

Definition step_asterisks (df : DataFrame) (log : list Change) :=
  for_columns (name_columns df)
    (fun col df log =>
       if has_column df col && is_object (series df col) then
         let before :=
           count (fun v => Py.contains "*" (astype_str v)) (series df col) in
         if 0 <? before
         then (apply_column clean_asterisks col df,
               log ++ [RemovedAsterisks before col])
         else (df, log)
       else (df, log))
    df log.

(** Step 7 (lines 195-201). *)
Definition step_whitespace (df : DataFrame) (log : list Change) :=
  let '(df', n) :=
    fold_left
      (fun st col =>
         if is_object (series (fst st) col)
         then (apply_column clean_whitespace col (fst st), S (snd st))
         else st)
      (columns df) (df, 0) in
  (df', if 0 <? n then log ++ [CleanedWhitespace n] else log).

(** Step 8 (lines 204-208). *)
Definition decimal_columns (df : DataFrame) : list string :=
  List.filter
    (fun col => existsb (fun x => Py.contains x col) decimal_markers)
    (columns df).

Definition step_decimal (df : DataFrame) (log : list Change) :=
  for_columns (decimal_columns df)
    (fun col df log =>
       if has_column df col
       then (apply_column standardize_decimal_format col df,
             log ++ [StandardizedDecimal col])
       else (df, log))
    df log.

(** Step 9 (lines 211-226), for one of the two lists of names. *)
Definition step_numeric (names : list string) (df : DataFrame)
    (log : list Change) :=
  for_columns names
    (fun col df log =>
       if has_column df col then
         let original_dtype := series_dtype (series df col) in
         let df' := set_series df col (convert_to_numeric (series df col)) in
         (df',
          if bool_decide (series_dtype (series df' col) = original_dtype)
          then log else log ++ [ConvertedNumeric col])
       else (df, log))
    df log.

(** The frame-to-frame part of [clean_csv] and its [changes_made]. *)
Definition clean_frame (df : DataFrame) : DataFrame * list Change :=
  let '(df, log) := step_empty_rows df [] in
  let '(df, log) := step_duplicates df log in
  let '(df, log) := step_special df log in
  let '(df, log) := step_question_marks df log in
  let '(df, log) := step_placeholders df log in
  let '(df, log) := step_asterisks df log in
  let '(df, log) := step_whitespace df log in
  let '(df, log) := step_decimal df log in
  let '(df, log) := step_numeric numeric_columns df log in
  step_numeric decimal_numeric_columns df log.

(** [clean_csv]: the file written to the output folder and the changes
    reported for it. *)
Definition clean_csv (f : File) : File * list Change :=
  let '(df, log) := clean_frame (read_csv f) in
  (to_csv df, log).

End cleaner.

End Cleaner.

(** ** The American League scraper: [scraper_al.py] *)

Module Scraper.
Import Pandas.

(** One [ba-table] of a year page. *)
Record Table := {
  title : option string;       (* text of the [h2]; [None]: it raises *)
  subtitle : option string;    (* text of the header paragraph, if any *)
  table_text : string;         (* [ba_table.text] *)
  table_rows : list Row;
}.

(** One entry of [al_years]: the year and what [driver.get(url)] loads
    ([None]: the fetch raises). *)
Record YearInfo := {
  year : string;
  page : option (list Table);
}.

Record Checkpoint := {
  league : string;
  processed_years : gset string;
}.

(** The output directory and the checkpoint file. *)
Record World := {
  files : gmap string File;
  checkpoint : option Checkpoint;
}.

Definition LEAGUE_SHORT : string := "AL".

(** The dictionaries the extractors append. *)
Definition standing_dict (r : Standings.StandingRecord) : dict :=
  [("Year", Some (Standings.Year r)); ("League", Some (Standings.League r));
   ("Division", Some (Standings.Division r)); ("Team", Some (Standings.Team r));
   ("Wins", Standings.Wins r); ("Losses", Standings.Losses r);
   ("Ties", Standings.Ties r); ("WP", Standings.WP r); ("GB", Standings.GB r);
   ("Payroll", Standings.Payroll r)].

Definition leader_dict (r : Leaders.LeaderRecord) : dict :=
  [("Year", Some (Leaders.Year r)); ("League", Some (Leaders.League r));
   ("Statistic", Leaders.Statistic r); ("Player_Name", Leaders.Player_Name r);
   ("Team", Some (Leaders.Team r)); ("Value", Leaders.Value r)].

Definition team_leader_dict (r : TeamLeaders.TeamLeaderRecord) : dict :=
  [("Year", Some (TeamLeaders.Year r)); ("League", Some (TeamLeaders.League r));
   ("Statistic", Some (TeamLeaders.Statistic r));
   ("Team", Some (TeamLeaders.Team r)); ("Value", Some (TeamLeaders.Value r))].

Section scraper.
Context `{Numeric}.

(** The body of the loop over the tables of a page (lines 79-123). *)
Definition process_table (y : string) (fs : gmap string File) (t : Table)
    : gmap string File :=
  match title t with
  | None => fs
  | Some h2 =>
      let title := Py.strip h2 in
      let subtitle := match subtitle t with Some p => Py.strip p | None => "" end in
      let rows := table_rows t in
      if Py.contains "Player Review" title then
        Sink.save_to_csv
          (map leader_dict (Leaders.extract_player_leaders rows y LEAGUE_SHORT))
          "AL_Player_Hitting_Leaders.csv" fs
      else if Py.contains "Pitcher Review" title then
        Sink.save_to_csv
          (map leader_dict (Leaders.extract_player_leaders rows y LEAGUE_SHORT))
          "AL_Pitcher_Leaders.csv" fs
      else if Py.contains "Team Standings" title
              || (Py.contains "American League" title
                  && Py.contains "Team Standings" (table_text t)) then
        Sink.save_to_csv
          (map standing_dict
               (Standings.extract_team_standings rows y LEAGUE_SHORT))
          "AL_Team_Standings.csv" fs
      else if Py.contains "Team Review" title then
        let num_columns :=
          match TeamStats.header_row rows with
          | Some banner_row => length (row_cells banner_row)
          | None => 0
          end in
        if num_columns =? 3 then
          if Py.contains "Hitting" subtitle then
            Sink.save_to_csv
              (map team_leader_dict
                   (TeamLeaders.extract_team_leaders rows y LEAGUE_SHORT))
              "AL_Team_Hitting_Leaders.csv" fs
          else if Py.contains "Pitching" subtitle then
            Sink.save_to_csv
              (map team_leader_dict
                   (TeamLeaders.extract_team_leaders rows y LEAGUE_SHORT))
              "AL_Team_Pitching_Leaders.csv" fs
          else fs
        else if 10 <? num_columns then
          if Py.contains "Hitting" subtitle then
            Sink.save_to_csv
              (TeamStats.extract_team_stats_complete rows y LEAGUE_SHORT "Hitting")
              "AL_Team_Hitting_Complete.csv" fs
          else if Py.contains "Pitching" subtitle then
            Sink.save_to_csv
              (TeamStats.extract_team_stats_complete rows y LEAGUE_SHORT "Pitching")
              "AL_Team_Pitching_Complete.csv" fs
          else fs
        else fs
      else fs
  end.

(** [process_year]: [None] when the fetch raises, before any table is
    saved. *)
Definition process_year (yi : YearInfo) (fs : gmap string File)
    : option (gmap string File) :=
  ba_tables ← page yi;
  Some (fold_left (process_table (year yi)) ba_tables fs).

Definition save_checkpoint (processed : gset string) : Checkpoint :=
  {| league := LEAGUE_SHORT; processed_years := processed |}.

Definition load_checkpoint (w : World) : gset string :=
  match checkpoint w with
  | Some c => if String.eqb (league c) LEAGUE_SHORT then processed_years c else ∅
  | None => ∅
  end.

(** [clean_csv_files]: every [.csv] of the output directory is removed. *)
Definition clean_csv_files (fs : gmap string File) : gmap string File :=
  filter (fun kv => Py.endswith ".csv" (fst kv) = false) fs.

(** The variables of the loop over the years, and the years it worked on. *)
Record Loop := {
  world : World;
  processed : gset string;
  failed_years : list string;
  visited : list string;
}.

(** One pass of the loop over [al_years] (lines 166-186). *)
Definition year_step (st : Loop) (yi : YearInfo) : Loop :=
  if bool_decide (year yi ∈ processed st) then st
  else
    match process_year yi (files (world st)) with
    | Some fs =>
        let processed' := processed st ∪ {[year yi]} in
        {| world :=
             {| files := fs;
                checkpoint :=
                  if size processed' mod 10 =? 0
                  then Some (save_checkpoint processed')
                  else checkpoint (world st) |};
           processed := processed';
           failed_years := failed_years st;
           visited := visited st ++ [year yi] |}
    | None =>
        {| world := world st;
           processed := processed st;
           failed_years := failed_years st ++ [year yi];
           visited := visited st ++ [year yi] |}
    end.

(** Lines 130-162: the output files and the old checkpoint are removed, then
    the checkpoint is loaded. *)
Definition start (w : World) : Loop :=
  let w0 := {| files := clean_csv_files (files w); checkpoint := None |} in
  {| world := w0; processed := load_checkpoint w0; failed_years := [];
     visited := [] |}.

(** [main] run to its end over the years of the league. *)
Definition main (al_years : list YearInfo) (w : World) : Loop :=
  let st := fold_left year_step al_years (start w) in
  {| world :=
       {| files := files (world st);
          checkpoint := Some (save_checkpoint (processed st)) |};
     processed := processed st;
     failed_years := failed_years st;
     visited := visited st |}.

(** [main] killed when [n] passes of the loop are done: no final
    checkpoint. *)
Definition interrupted (n : nat) (al_years : list YearInfo) (w : World) : Loop :=
  fold_left year_step (take n al_years) (start w).

End scraper.

End Scraper.

(** ** Example inputs *)

Module Examples.
Import Pandas IntegerFields.

(** The sample standings row of a split season. *)
Definition final_row : Row :=
  tr [td_link "Yankees"; td "Final"; td "95"; td "67"; td "0.586"; td "--"].

(** Rows wide enough for a ties column: a ties count, a dash, a zero. *)
Definition ties_cells : list Cell :=
  [td_link "Boston"; td "79"; td "57"; td "2"; td ".581"; td "4"; td ""].

Definition dash_cells : list Cell :=
  [td_link "Boston"; td "79"; td "57"; td "-"; td ".581"; td "4"; td ""].

Definition zero_cells : list Cell :=
  [td_link "Boston"; td "79"; td "57"; td "0"; td ".581"; td "4"; td ""].

(** The fields of a row two and a half games behind, the half game in its
    short mangled form. *)
Definition half_game_fields : Standings.Fields :=
  {| Standings.wins := Some "79"; Standings.losses := Some "57";
     Standings.ties := None; Standings.wp := Some ".581";
     Standings.gb := Some "2Â½"; Standings.payroll := None |}.

(** A tied leader: the player cell spans two rows. *)
Definition th (s : string) : Cell :=
  {| cell_text := s; cell_class := "datacolBlue"; cell_link := None;
     cell_rowspan := None |}.

Definition span2 (s : string) : Cell :=
  {| cell_text := s; cell_class := "datacolBox"; cell_link := None;
     cell_rowspan := Some "2" |}.

Definition leader_start : Row :=
  tr [th "Home Runs"; span2 "Babe Ruth *"; td "Boston"; td "29"; td ""].

Definition leader_next : Row := tr [td "New York"].

(** A 2003 pitching table without the SVO column. *)
Definition banner (s : string) : Cell :=
  {| cell_text := s; cell_class := "banner"; cell_link := None;
     cell_rowspan := None |}.

Definition pitching_header : Row :=
  tr (map banner ["Team"; "W"; "L"; "ERA"; "G"; "CG"; "SHO"; "SV"; "IP"; "HA";
                  "R"; "ER"; "HR"; "HBP"; "BB"; "SO"]).

Definition pitching_row : Row :=
  tr (td_link "Boston"
      :: map td ["95"; "67"; "3.50"; "162"; "5"; "10"; "40"; "1,450"; "1,300";
                 "700"; "600"; "150"; "50"; "500"; "1,100"]).

Definition pitching_table : list Row := [pitching_header; pitching_row].

(** Records for the sink: two teams. *)
Definition two_teams : list dict :=
  [[("League", Some "AL"); ("Team", Some "Boston"); ("Wins", Some "79")];
   [("League", Some "AL"); ("Team", Some "Chicago"); ("Wins", Some "83")]].

(** A leaders file in which one player is spelled with and without the
    asterisk. *)
Definition starred_file : File :=
  {| header := ["Team"; "Player_Name"];
     lines := [["NYY"; "Ruth*"]; ["NYY"; "Ruth"]] |}.


(** Twelve seasons, one standings table each. *)
Definition season (y : string) : Scraper.YearInfo :=
  {| Scraper.year := y;
     Scraper.page :=
       Some [ {| Scraper.title := Some "Team Standings";
                 Scraper.subtitle := None;
                 Scraper.table_text := "";
                 Scraper.table_rows :=
                   [tr [td_link "Boston"; td "79"; td "57"; td ".581"; td "--"]] |} ] |}.

Definition twelve_years : list string :=
  ["1901"; "1902"; "1903"; "1904"; "1905"; "1906"; "1907"; "1908"; "1909";
   "1910"; "1911"; "1912"].

Definition twelve_seasons : list Scraper.YearInfo := map season twelve_years.

Definition empty_world : Scraper.World :=
  {| Scraper.files := ∅; Scraper.checkpoint := None |}.

(** The world left by a run that was killed after its tenth season. *)
Definition killed_after_ten : Scraper.World :=
  Scraper.world (Scraper.interrupted 10 twelve_seasons empty_world).

End Examples.

(** ** Auxiliary definitions for the properties below *)

Module Aux.

(** No character of the string is a blank. *)
Fixpoint no_space (s : string) : bool :=
  match s with
  | String a s' => negb (Py.is_space a) && no_space s'
  | EmptyString => true
  end.

(** The division labels a standings record can carry. *)
Definition DIVISIONS : list string := ["Standard"; "East"; "Central"; "West"].

(** What the loop variables satisfy at every row: a retained player holds no
    asterisk, and an open group has a value. *)
Definition well_formed (st : Leaders.State) : Prop :=
  (forall p, Leaders.current_player st = Some p -> Py.contains "*" p = false) /\
  (is_Some (Leaders.current_statistic st) -> is_Some (Leaders.current_value st)).

(** What every record satisfies. *)
Definition complete (year league : string) (r : Leaders.LeaderRecord) : Prop :=
  Leaders.Year r = year /\ Leaders.League r = league /\
  is_Some (Leaders.Statistic r) /\ is_Some (Leaders.Value r) /\
  exists p, Leaders.Player_Name r = Some p /\ Py.contains "*" p = false.

(** A row that can open a group. *)
Definition opens_group (row : Row) : bool :=
  match row_cells row with
  | c0 :: _ =>
      (5 <=? length (row_cells row)) && Py.contains "datacolBlue" (cell_class c0)
  | [] => false
  end.


(** The body of the loop of [TeamStats.map_positional] (lines 558-571). *)
Definition positional_step (html_columns : list string) (cells : list Cell)
    (d : dict) (idx : nat) : dict :=
  match html_columns !! idx, text_at cells idx with
  | Some col_name, Some value =>
      if negb (String.eqb (Py.upper col_name) "TEAM")
      then dict_set col_name (Some (TeamStats.no_commas value)) d
      else d
  | _, _ => d
  end.

(** The record has a year that [read_csv] reads back as a number. *)
Definition year_reads_as_number `{Pandas.Numeric} (d : dict) : bool :=
  match dict_get "Year" d with
  | Some (Some y) =>
      negb (Pandas.is_na_field y) && bool_decide (is_Some (Pandas.to_number y))
  | _ => false
  end.

(** A frame with the given columns, at most [n] rows and a cell for every
    column in every row. *)
Definition shaped `{Pandas.Numeric} (cols : list string) (n : nat)
    (df : Pandas.DataFrame) : Prop :=
  Pandas.columns df = cols /\ Pandas.len df <= n /\
  Forall (fun r => length r = length cols) (Pandas.rows df).

(** The files [scraper_al.process_year] saves to. *)
Definition AL_FILES : list string :=
  ["AL_Player_Hitting_Leaders.csv"; "AL_Pitcher_Leaders.csv";
   "AL_Team_Standings.csv"; "AL_Team_Hitting_Leaders.csv";
   "AL_Team_Pitching_Leaders.csv"; "AL_Team_Hitting_Complete.csv";
   "AL_Team_Pitching_Complete.csv"].

(** The report [validate_csvs] writes to the output directory when [main]
    ends (line 201 of [scraper_al.py]); the report is not modelled. *)
Definition AL_REPORT : string := "AL_validation_report.txt".

(** The page of the year loads. *)
Definition loads (yi : Scraper.YearInfo) : bool :=
  match Scraper.page yi with Some _ => true | None => false end.

End Aux.

(** ** More example inputs *)

Module MoreExamples.
Import Pandas IntegerFields Examples.

(** A standings row of 1901 and its record; a row with a ties count and a
    payroll, and its record. *)
Definition boston_row : Row :=
  tr [td_link "Boston"; td "79"; td "57"; td ".581"; td "--"].

Definition boston_1901 : Standings.StandingRecord :=
  {| Standings.Year := "1901"; Standings.League := "AL";
     Standings.Division := "Standard"; Standings.Team := "Boston";
     Standings.Wins := Some "79"; Standings.Losses := Some "57";
     Standings.Ties := None; Standings.WP := Some ".581";
     Standings.GB := Some "0"; Standings.Payroll := None |}.

Definition payroll_row : Row :=
  tr [td_link "Boston"; td "79"; td "57"; td "2"; td ".581"; td "4";
      td "$1,250,000"].

Definition boston_1998 : Standings.StandingRecord :=
  {| Standings.Year := "1998"; Standings.League := "AL";
     Standings.Division := "Standard"; Standings.Team := "Boston";
     Standings.Wins := Some "79"; Standings.Losses := Some "57";
     Standings.Ties := Some "2"; Standings.WP := Some ".581";
     Standings.GB := Some "4"; Standings.Payroll := Some "1250000" |}.

(** What the scraper saves for a standings table of 1901 with two teams. *)
Definition chicago_row : Row :=
  tr [td_link "Chicago"; td "83"; td "53"; td ".610"; td "4"].

Definition standings_1901 : list dict :=
  map Scraper.standing_dict
      (Standings.extract_team_standings [boston_row; chicago_row] "1901" "AL").

(** The second record of the tied leader group. *)
Definition ruth_new_york : Leaders.LeaderRecord :=
  {| Leaders.Year := "1919"; Leaders.League := "AL";
     Leaders.Statistic := Some "Home Runs";
     Leaders.Player_Name := Some "Babe Ruth";
     Leaders.Team := "New York"; Leaders.Value := Some "29" |}.

(** Rows that open no group. *)
Definition orphan_rows : list Row :=
  [leader_next; tr [td "Detroit"; td "12"; td ""]].

(** A team-leader table in the vertical format, and its record. *)
Definition team_leader_table : list Row :=
  [tr [banner "Statistic"; banner "Team"; banner "#"];
   tr [th "Hits"; td "Boston"; td "1,450"]].

Definition hits_leader : TeamLeaders.TeamLeaderRecord :=
  {| TeamLeaders.Year := "1919"; TeamLeaders.League := "AL";
     TeamLeaders.Statistic := "Hits"; TeamLeaders.Team := "Boston";
     TeamLeaders.Value := "1450" |}.

(** A hitting table in the horizontal format, and its record. *)
Definition hitting_header : Row := tr (map banner ["Team"; "G"; "AB"; "R"; "H"]).

Definition hitting_row : Row :=
  tr (td_link "Boston" :: map td ["162"; "5,500"; "800"; "1,450"]).

Definition hitting_table : list Row := [hitting_header; hitting_row].

Definition hitting_record : dict :=
  [("Year", Some "1990"); ("League", Some "AL"); ("Team", Some "Boston");
   ("G", Some "162"); ("AB", Some "5500"); ("R", Some "800");
   ("H", Some "1450")].

(** The record of the 2003 pitching table. *)
Definition pitching_record : dict :=
  [("Year", Some "2003"); ("League", Some "AL"); ("Team", Some "Boston");
   ("W", Some "95"); ("L", Some "67"); ("ERA", Some "3.50"); ("G", Some "162");
   ("CG", Some "5"); ("SHO", Some "10"); ("SV", Some "40"); ("SVO", None);
   ("IP", Some "1450"); ("HA", Some "1300"); ("R", Some "700");
   ("ER", Some "600"); ("HR", Some "150"); ("HBP", Some "50");
   ("BB", Some "500"); ("SO", Some "1100")].

(** The file a first save of the two teams leaves. *)
Definition two_teams_file : File := to_csv (of_records two_teams).

(** An output directory that holds a file of notes and a CSV of another
    league. *)
Definition cluttered_world : Scraper.World :=
  {| Scraper.files :=
       {[ "notes.txt" := {| header := ["note"]; lines := [["keep"]] |};
          "NL_Team_Standings.csv" := two_teams_file ]};
     Scraper.checkpoint := None |}.

End MoreExamples.

(** ** The index of leagues and years: [extract_league_years] *)

Module LeagueYears.

(** [s.split()]: the maximal runs of characters that are no blanks. *)
Fixpoint split (s : string) : list string :=
  match s with
  | EmptyString => []
  | String a s' =>
      if Py.is_space a then split s'
      else
        match s' with
        | EmptyString => [String a ""]
        | String b _ =>
            if Py.is_space b then String a "" :: split s'
            else
              match split s' with
              | t :: ts => String a t :: ts
              | [] => [String a ""]
              end
        end
  end.

(** A cell of a league's table of years: its text, its class attribute and
    the target of its link ([None]: the cell has no link). *)
Record YearCell := {
  year_text : string;
  year_class : string;
  year_href : option string;
}.

(** A banner cell of the index page: its text and the rows of the table of
    years below it ([None]: one of the lookups from the banner to that
    table raises). *)
Record Banner := {
  banner_text : string;
  sub_table : option (list (list YearCell));
}.

(** An entry of [years_info]. *)
Record YearLink := {
  year : string;
  url : option string;
}.

(** Line 81: the cell names a year. *)
Definition listed (cell : YearCell) : bool :=
  let cell_text := Py.strip (year_text cell) in
  Py.truthy cell_text
  && negb (String.eqb cell_text "0000")
  && negb (Py.mem "grey" (split (year_class cell))).

(** Lines 77-86. *)
Definition years_info (rows : list (list YearCell)) : list YearLink :=
  flat_map
    (fun cells =>
       omap (fun cell =>
               if listed cell
               then Some {| year := Py.strip (year_text cell);
                            url := year_href cell |}
               else None)
            cells)
    rows.

(** [leagues_data]: the leagues in the order they were found, each name
    once. *)
Definition Leagues := list (string * list YearLink).

Fixpoint lookup (name : string) (leagues_data : Leagues)
    : option (list YearLink) :=
  match leagues_data with
  | [] => None
  | (name', years) :: rest =>
      if String.eqb name name' then Some years else lookup name rest
  end.

(** [name in leagues_data] *)
Definition known (name : string) (leagues_data : Leagues) : bool :=
  match lookup name leagues_data with Some _ => true | None => false end.

Definition MENU_TITLE : string := "Year-by-Year Baseball History".

(** The body of the loop over the banners (lines 68-95); a name is assigned
    only when it is not yet a key, so the assignment adds it at the end. *)
Definition banner_step (leagues_data : Leagues) (banner : Banner) : Leagues :=
  let table_name := Py.strip (banner_text banner) in
  if String.eqb table_name MENU_TITLE || known table_name leagues_data
  then leagues_data
  else
    match sub_table banner with
    | Some rows => leagues_data ++ [(table_name, years_info rows)]
    | None => leagues_data ++ [(table_name, [])]
    end.

(** [extract_league_years] on the banner cells of the index page; with no
    banner cell the wait times out and the function raises. *)
Definition extract_league_years (banner_cells : list Banner) : option Leagues :=
  match banner_cells with
  | [] => None
  | _ :: _ => Some (fold_left banner_step banner_cells [])
  end.

End LeagueYears.

(** ** The scraper of the four short-lived leagues: [scraper_minor.py] *)

Module Minor.
Import Pandas.

Definition MINOR_LEAGUES : list (string * string) :=
  [("The History of the Federal League From 1914 to 1915", "FL");
   ("The History of the Players League From 1890 - 1890", "PL");
   ("The History of the Union Association From 1884 - 1884", "UA");
   ("The History of the American Association From 1882 - 1891", "AA")].

(** The output directory and the checkpoint file, which holds
    [processed_data]. *)
Record World := {
  files : gmap string File;
  checkpoint : option (gmap string (gset string));
}.

(** The variables of [main], and the league codes and years it worked on. *)
Record Loop := {
  world : World;
  processed_data : gmap string (gset string);
  failed_years : list string;
  visited : list (string * string);
}.

Section minor.
Context `{Numeric}.

(** The body of the loop over the tables of a page (lines 86-121). *)
Definition process_table (league_code y : string) (fs : gmap string File)
    (t : Scraper.Table) : gmap string File :=
  match Scraper.title t with
  | None => fs
  | Some h2 =>
      let title := Py.strip h2 in
      let subtitle :=
        match Scraper.subtitle t with Some p => Py.strip p | None => "" end in
      let rows := Scraper.table_rows t in
      if Py.contains "Player Review" title || Py.contains "Pitcher Review" title
      then
        let is_pitching :=
          Py.contains "Pitching" subtitle || Py.contains "Pitcher" subtitle
          || Py.contains "Pitcher Review" title in
        let data :=
          map Scraper.leader_dict
              (Leaders.extract_player_leaders rows y league_code) in
        if is_pitching
        then Sink.save_to_csv data (league_code +:+ "_Pitcher_Leaders.csv") fs
        else Sink.save_to_csv data
               (league_code +:+ "_Player_Hitting_Leaders.csv") fs
      else if Py.contains "Team Standings" title
              || Py.contains "Team Standings" subtitle then
        Sink.save_to_csv
          (map Scraper.standing_dict
               (Standings.extract_team_standings rows y league_code))
          (league_code +:+ "_Team_Standings.csv") fs
      else if Py.contains "Team Review" title then
        if Py.contains "Hitting" subtitle then
          Sink.save_to_csv
            (map Scraper.team_leader_dict
                 (TeamLeaders.extract_team_leaders rows y league_code))
            (league_code +:+ "_Team_Hitting_Leaders.csv") fs
        else if Py.contains "Pitching" subtitle then
          Sink.save_to_csv
            (map Scraper.team_leader_dict
                 (TeamLeaders.extract_team_leaders rows y league_code))
            (league_code +:+ "_Team_Pitching_Leaders.csv") fs
        else fs
      else fs
  end.

(** [process_year]: [None] when the fetch raises, before any table is
    saved. *)
Definition process_year (league_code : string) (yi : Scraper.YearInfo)
    (fs : gmap string File) : option (gmap string File) :=
  ba_tables ← Scraper.page yi;
  Some (fold_left (process_table league_code (Scraper.year yi)) ba_tables fs).

(** [load_checkpoint_multi]: the processed data of the file, nothing when
    there is no file. *)
Definition load_checkpoint_multi (w : World) : gmap string (gset string) :=
  default ∅ (checkpoint w).

(** [processed_data[league_short]], once line 163 has set it. *)
Definition processed_years (league_short : string)
    (processed_data : gmap string (gset string)) : gset string :=
  default ∅ (processed_data !! league_short).

(** One pass of the loop over the years of a league (lines 173-193); the
    checkpoint is written after every year that went through. *)
Definition year_step (league_short : string) (st : Loop)
    (yi : Scraper.YearInfo) : Loop :=
  let y := Scraper.year yi in
  if bool_decide (y ∈ processed_years league_short (processed_data st)) then st
  else
    match process_year league_short yi (files (world st)) with
    | Some fs =>
        let processed_data' :=
          <[league_short :=
              processed_years league_short (processed_data st) ∪ {[y]}]>
            (processed_data st) in
        {| world := {| files := fs; checkpoint := Some processed_data' |};
           processed_data := processed_data';
           failed_years := failed_years st;
           visited := visited st ++ [(league_short, y)] |}
    | None =>
        {| world := world st;
           processed_data := processed_data st;
           failed_years := failed_years st ++ [y];
           visited := visited st ++ [(league_short, y)] |}
    end.

(** Lines 162-171: the league gets its set of processed years, and the list
    of failed years starts empty. *)
Definition enter_league (league_short : string) (st : Loop) : Loop :=
  {| world := world st;
     processed_data :=
       match processed_data st !! league_short with
       | Some _ => processed_data st
       | None => <[league_short := ∅]> (processed_data st)
       end;
     failed_years := [];
     visited := visited st |}.

(** One pass of the loop over the leagues (lines 149-198). *)
Definition league_step (leagues_data : gmap string (list Scraper.YearInfo))
    (st : Loop) (league : string * string) : Loop :=
  let '(league_key, league_short) := league in
  match leagues_data !! league_key with
  | None => st
  | Some years => fold_left (year_step league_short) years
                            (enter_league league_short st)
  end.

(** Lines 128-146: the old checkpoint is removed, then the checkpoint is
    loaded; the files of the output directory stay. *)
Definition start (w : World) : Loop :=
  let w0 := {| files := files w; checkpoint := None |} in
  {| world := w0; processed_data := load_checkpoint_multi w0;
     failed_years := []; visited := [] |}.

(** [main] run to its end. *)
Definition main (leagues_data : gmap string (list Scraper.YearInfo))
    (w : World) : Loop :=
  fold_left (league_step leagues_data) MINOR_LEAGUES (start w).

(** [main] killed after [n] leagues and [m] passes of the loop over the
    years of the next one. *)
Definition interrupted (n m : nat)
    (leagues_data : gmap string (list Scraper.YearInfo)) (w : World) : Loop :=
  let st := fold_left (league_step leagues_data) (take n MINOR_LEAGUES) (start w) in
  match MINOR_LEAGUES !! n with
  | Some (league_key, league_short) =>
      match leagues_data !! league_key with
      | Some years =>
          fold_left (year_step league_short) (take m years)
                    (enter_league league_short st)
      | None => st
      end
  | None => st
  end.

End minor.

End Minor.

(** ** Definitions for the properties of the index and the short-lived
    leagues *)

Module Aux2.




(** The checkpoint on disk and the processed data agree on the years of
    every league. *)
Definition in_sync (st : Minor.Loop) : Prop :=
  forall league_short : string,
    Minor.processed_years league_short
      (Minor.load_checkpoint_multi (Minor.world st))
    = Minor.processed_years league_short (Minor.processed_data st).

End Aux2.

(** ** Example inputs for the index and the short-lived leagues *)

Module IndexExamples.
Import LeagueYears.

Definition UA_NAME : string :=
  "The History of the Union Association From 1884 - 1884".

(** An index page: the menu's own banner, a league with one year, a filler
    cell, a greyed year and an empty cell, the same league again, and a
    league whose table cannot be reached. *)
Definition ua_cells : list YearCell :=
  [ {| year_text := " 1884 "; year_class := "datacolBox";
       year_href := Some "yearly/yr1884u.shtml" |};
    {| year_text := "0000"; year_class := ""; year_href := None |};
    {| year_text := "1885"; year_class := "datacolBox grey"; year_href := None |};
    {| year_text := ""; year_class := "datacolBox"; year_href := None |} ].

Definition menu_banner : Banner :=
  {| banner_text := " Year-by-Year Baseball History "; sub_table := None |}.

Definition ua_banner : Banner :=
  {| banner_text := UA_NAME; sub_table := Some [ua_cells] |}.

Definition ua_again : Banner :=
  {| banner_text := UA_NAME; sub_table := Some [] |}.

Definition lost_banner : Banner :=
  {| banner_text := "Lost League"; sub_table := None |}.

Definition index_page : list Banner :=
  [menu_banner; ua_banner; ua_again; lost_banner].

Definition year_1884 : YearLink :=
  {| year := "1884"; url := Some "yearly/yr1884u.shtml" |}.

Definition index_leagues : Leagues :=
  [(UA_NAME, [year_1884]); ("Lost League", [])].

(** What the index lists for the short-lived leagues: the one season of the
    Union Association. *)
Definition minor_index : gmap string (list Scraper.YearInfo) :=
  {[ UA_NAME := [Examples.season "1884"] ]}.

Definition empty_minor_world : Minor.World :=
  {| Minor.files := ∅; Minor.checkpoint := None |}.

End IndexExamples.

(** * Properties *)

(** ** Facts about the string primitives *)

Module PyFacts.
Import Py.

Lemma append_nil s : "" +:+ s = s.
Proof. reflexivity. Qed.

Lemma append_cons a s t : String a s +:+ t = String a (s +:+ t).
Proof. reflexivity. Qed.

Lemma prefix_nil s : String.prefix "" s = true.
Proof. now destruct s. Qed.

(** [c in s] for a single character. *)
Lemma contains_char_cons c a s :
  contains (String c "") (String a s) = Ascii.eqb c a || contains (String c "") s.
Proof.
  cbn [contains String.prefix].
  destruct (ascii_dec c a) as [->|Hne].
  - now rewrite prefix_nil, Ascii.eqb_refl.
  - apply Ascii.eqb_neq in Hne. now rewrite Hne.
Qed.

Lemma digit_is_ascii a : is_digit a = true -> nat_of_ascii a < 128.
Proof.
  unfold is_digit. intros [_ Ha%Nat.leb_le]%andb_true_iff. lia.
Qed.

Lemma prefix_low p a s :
  lead p = true -> nat_of_ascii a < 128 -> String.prefix p (String a s) = false.
Proof.
  destruct p as [|b p]; [discriminate|]. unfold lead.
  intros Hb%Nat.leb_le Ha. cbn [String.prefix].
  destruct (ascii_dec b a) as [->|]; [lia | reflexivity].
Qed.

Lemma contains_cons p a s :
  contains p (String a s) = String.prefix p (String a s) || contains p s.
Proof. reflexivity. Qed.

Lemma contains_digits_then p d :
  all_digits d = true -> contains p p = true -> contains p (d +:+ p) = true.
Proof.
  intros Hd Hp. induction d as [|a d IH]; [exact Hp|].
  simpl in Hd. apply andb_true_iff in Hd as [_ Hd].
  change (contains p (String a (d +:+ p)) = true).
  rewrite contains_cons, (IH Hd). apply orb_true_r.
Qed.

Lemma contains_digits_short p q d :
  all_digits d = true -> lead p = true -> contains p q = false ->
  contains p (d +:+ q) = false.
Proof.
  intros Hd Hp Hq. induction d as [|a d IH]; [exact Hq|].
  simpl in Hd. apply andb_true_iff in Hd as [Ha Hd].
  change (contains p (String a (d +:+ q)) = false).
  rewrite contains_cons, (IH Hd), prefix_low; auto using digit_is_ascii.
Qed.

Lemma replace_digits_then p new out d :
  all_digits d = true -> lead p = true -> replace p new p = out ->
  replace p new (d +:+ p) = d +:+ out.
Proof.
  intros Hd Hp Hout. unfold replace in *.
  induction d as [|a d IH]; [exact Hout|].
  simpl in Hd. apply andb_true_iff in Hd as [Ha Hd].
  change (replace_from p new 0 (String a (d +:+ p)) = String a (d +:+ out)).
  cbn [replace_from]. rewrite prefix_low; auto using digit_is_ascii.
  now rewrite (IH Hd).
Qed.

Lemma digits_not_dashes d q :
  all_digits d = true -> String.eqb q "--" = false ->
  String.eqb (d +:+ q) "--" = false.
Proof.
  intros Hd Hq. destruct d as [|a d]; [exact Hq|].
  simpl in Hd. apply andb_true_iff in Hd as [Ha _].
  apply String.eqb_neq. intros Heq. rewrite append_cons in Heq.
  injection Heq as -> _. vm_compute in Ha. discriminate Ha.
Qed.

(** A single character is replaced character by character. *)
Lemma replace_char_cons c new a s :
  replace (String c "") new (String a s) =
  if Ascii.eqb c a then new +:+ replace (String c "") new s
  else String a (replace (String c "") new s).
Proof.
  unfold replace. cbn [replace_from String.prefix String.length Nat.sub].
  destruct (ascii_dec c a) as [->|Hne].
  - rewrite Ascii.eqb_refl. now destruct s.
  - apply Ascii.eqb_neq in Hne. now rewrite Hne.
Qed.

Lemma replace_char_digits c new d :
  is_digit c = false -> all_digits d = true -> replace (String c "") new d = d.
Proof.
  intros Hc. induction d as [|a d IH]; [reflexivity|].
  cbn [all_digits]. intros [Ha Hd]%andb_true_iff.
  rewrite replace_char_cons, (IH Hd).
  destruct (Ascii.eqb_spec c a) as [->|]; [congruence | reflexivity].
Qed.

Lemma replace_char_between c new a b :
  is_digit c = false -> all_digits a = true -> all_digits b = true ->
  replace (String c "") new (a +:+ String c b) = a +:+ new +:+ b.
Proof.
  intros Hc Ha Hb. induction a as [|x a IH].
  - rewrite !append_nil.
    now rewrite replace_char_cons, Ascii.eqb_refl, replace_char_digits.
  - simpl in Ha. apply andb_true_iff in Ha as [Hx Ha].
    change (replace (String c "") new (String x (a +:+ String c b))
            = String x (a +:+ new +:+ b)).
    rewrite replace_char_cons, (IH Ha).
    destruct (Ascii.eqb_spec c x) as [->|]; [congruence | reflexivity].
Qed.

Lemma contains_char_between c a b : contains (String c "") (a +:+ String c b) = true.
Proof.
  induction a as [|x a IH].
  - now rewrite append_nil, contains_char_cons, Ascii.eqb_refl.
  - rewrite append_cons, contains_char_cons, IH. apply orb_true_r.
Qed.

(** Digits and commas hold none of the mangled glyphs. *)
Lemma contains_low p s :
  lead p = true ->
  (forall a, contains (String a "") s = true -> nat_of_ascii a < 128) ->
  contains p s = false.
Proof.
  intros Hp. induction s as [|a s IH]; intros Hs.
  - destruct p; [discriminate | reflexivity].
  - rewrite contains_cons, prefix_low, IH; auto.
    + intros b Hb. apply Hs. rewrite contains_char_cons, Hb. apply orb_true_r.
    + apply Hs. now rewrite contains_char_cons, Ascii.eqb_refl.
Qed.

Lemma char_in_app c a b :
  contains (String c "") (a +:+ b) = true ->
  contains (String c "") a = true \/ contains (String c "") b = true.
Proof.
  induction a as [|x a IH]; [now right|].
  rewrite append_cons, !contains_char_cons. intros [Hx|Hr]%orb_true_iff.
  - left. now rewrite Hx.
  - destruct (IH Hr) as [H1|H2]; [left | now right]. rewrite H1. apply orb_true_r.
Qed.

Lemma char_in_digits c d :
  all_digits d = true -> contains (String c "") d = true -> is_digit c = true.
Proof.
  induction d as [|a d IH]; [discriminate|].
  cbn [all_digits]. intros [Ha Hd]%andb_true_iff.
  rewrite contains_char_cons. intros [Hc|Hr]%orb_true_iff; [|auto].
  apply Ascii.eqb_eq in Hc. now subst.
Qed.

End PyFacts.

(** ** The standings extractor *)

Module StandingsFacts.
Import Py Standings PyFacts.

Lemma truthy_append_r d p : truthy p = true -> truthy (d +:+ p) = true.
Proof. now destruct d. Qed.

Lemma contains_truthy p s : contains p s = true -> truthy p = true -> truthy s = true.
Proof. destruct s; [now destruct p | reflexivity]. Qed.

Lemma clean_gb_half_long d :
  all_digits d = true -> clean_gb (Some (d +:+ half_long)) = Some (d +:+ ".5").
Proof.
  intros Hd. unfold clean_gb.
  rewrite digits_not_dashes by (auto; reflexivity).
  rewrite truthy_append_r by reflexivity.
  rewrite contains_digits_then by (auto; reflexivity).
  cbn [andb]. f_equal. now apply replace_digits_then.
Qed.

Lemma clean_gb_half_short d :
  all_digits d = true -> clean_gb (Some (d +:+ half_short)) = Some (d +:+ ".5").
Proof.
  intros Hd. unfold clean_gb.
  rewrite digits_not_dashes by (auto; reflexivity).
  rewrite truthy_append_r by reflexivity.
  rewrite contains_digits_short by (auto; reflexivity).
  rewrite contains_digits_then by (auto; reflexivity).
  cbn [andb]. f_equal. now apply replace_digits_then.
Qed.

Lemma digits_comma_low a b c :
  all_digits a = true -> all_digits b = true ->
  contains (String c "") (a +:+ "," +:+ b) = true -> nat_of_ascii c < 128.
Proof.
  intros Ha Hb [H1|H2]%char_in_app.
  - eauto using digit_is_ascii, char_in_digits.
  - rewrite append_cons, append_nil, contains_char_cons in H2.
    apply orb_true_iff in H2 as [->%Ascii.eqb_eq|H2]; [vm_compute; lia|].
    eauto using digit_is_ascii, char_in_digits.
Qed.

Lemma clean_gb_comma a b :
  all_digits a = true -> all_digits b = true ->
  clean_gb (Some (a +:+ "," +:+ b)) = Some (a +:+ "." +:+ b).
Proof.
  intros Ha Hb. unfold clean_gb.
  rewrite digits_not_dashes by (auto; now destruct b).
  rewrite truthy_append_r by reflexivity.
  rewrite !contains_low by (try reflexivity; eauto using digits_comma_low).
  assert (E : "," +:+ b = String "," b) by reflexivity.
  rewrite E, contains_char_between. cbn [andb]. f_equal.
  now apply (replace_char_between "," ".").
Qed.

(** C5.  Games-behind repair in the emitted record: the placeholder "--"
    becomes "0"; digits followed by one of the two known mangled half-game
    glyphs become the digits followed by ".5"; a comma between digits becomes
    a period; and a value that is empty after the repair is stored as null,
    not as zero. *)
Theorem games_behind_repair (year league division team : string) (f : Fields) :
  (gb f = Some "--" ->
   GB (record_of year league division team f) = Some "0") /\
  (forall d, all_digits d = true ->
     gb f = Some (d +:+ half_long) \/ gb f = Some (d +:+ half_short) ->
     GB (record_of year league division team f) = Some (d +:+ ".5")) /\
  (forall a b, all_digits a = true -> all_digits b = true ->
     gb f = Some (a +:+ "," +:+ b) ->
     GB (record_of year league division team f) = Some (a +:+ "." +:+ b)) /\
  (clean_gb (gb f) = Some "" ->
   GB (record_of year league division team f) = None).
Proof.
  cbn [record_of GB]. repeat split.
  - now intros ->.
  - intros d Hd [-> | ->].
    + rewrite clean_gb_half_long by done. unfold or_none. cbn [truthy_opt].
      now rewrite truthy_append_r.
    + rewrite clean_gb_half_short by done. unfold or_none. cbn [truthy_opt].
      now rewrite truthy_append_r.
  - intros a b Ha Hb ->. rewrite clean_gb_comma by done.
    unfold or_none. cbn [truthy_opt]. now rewrite truthy_append_r.
  - now intros ->.
Qed.

Lemma read_fields_wide offset cells :
  7 + offset <= length cells ->
  read_fields offset cells =
    w ← text_at cells (1 + offset);
    l ← text_at cells (2 + offset);
    third_cell ← text_at cells (3 + offset);
    fourth_cell ← text_at cells (4 + offset);
    Some (match ties_or_wp offset (length cells) cells third_cell fourth_cell with
          | Some (t, p, g, pay) =>
              {| wins := Some w; losses := Some l; ties := t; wp := p;
                 gb := g; payroll := pay |}
          | None =>
              {| wins := Some w; losses := Some l; ties := None;
                 wp := Some third_cell; gb := Some fourth_cell;
                 payroll := None |}
          end).
Proof.
  intros Hlen. unfold read_fields.
  assert ((5 + offset <=? length cells) = true) as -> by (apply Nat.leb_le; lia).
  assert ((7 + offset <=? length cells) = true) as -> by (apply Nat.leb_le; lia).
  destruct (text_at cells (1 + offset)); [|reflexivity].
  destruct (text_at cells (2 + offset)); [|reflexivity].
  destruct (text_at cells (3 + offset)); [|reflexivity].
  destruct (text_at cells (4 + offset)); [|reflexivity].
  cbn. now destruct ties_or_wp as [[[[? ?] ?] ?]|].
Qed.

Lemma text_at_in_range cells i : i < length cells -> is_Some (text_at cells i).
Proof.
  intros Hi. unfold text_at.
  destruct (lookup_lt_is_Some_2 cells i Hi) as [c ->]. now eexists.
Qed.

(** What the [try] block decides, from the two cell texts alone. *)
Lemma ties_or_wp_inv offset cells third fourth r :
  7 + offset <= length cells ->
  ties_or_wp offset (length cells) cells third fourth = r ->
  match float_or_zero third, float_or_zero fourth with
  | Some _, Some fv =>
      if in_unit fv && contains "." fourth
      then exists g pay,
          r = Some (if truthy third && negb (String.eqb third "0")
                    then Some third else None,
                    Some fourth, g, pay)
      else exists pay, r = Some (None, Some third, Some fourth, pay)
  | _, _ => r = None
  end.
Proof.
  intros Hlen <-. unfold ties_or_wp.
  destruct (float_or_zero third) as [tv|]; [|reflexivity].
  destruct (float_or_zero fourth) as [fv|]; [|reflexivity].
  cbn [mbind option_bind].
  assert ((7 + offset <=? length cells) = true) as -> by (apply Nat.leb_le; lia).
  assert ((6 + offset <=? length cells) = true) as -> by (apply Nat.leb_le; lia).
  destruct (text_at_in_range cells (5 + offset)) as [g ->]; [lia|].
  destruct (text_at_in_range cells (6 + offset)) as [p ->]; [lia|].
  cbn [mbind option_bind].
  destruct (in_unit fv && contains "." fourth); eauto.
Qed.

(** C10.  A standings row wide enough for a ties column whose ties candidate
    (the cell at index 3 + offset) reads exactly "0" emits a record with
    ties = null. *)
Theorem zero_ties_is_null (year league division : string) (row : Row)
    (offset : nat) (skip : bool) (r : StandingRecord) :
  split_offset (row_cells row) = (offset, skip) ->
  7 + offset <= length (row_cells row) ->
  text_at (row_cells row) (3 + offset) = Some "0" ->
  r ∈ snd (standings_row year league division row) ->
  Ties r = None.
Proof.
  intros Hsplit Hlen Hthird. unfold standings_row.
  destruct (row_cells row) as [|c0 cells'] eqn:Hcells; [by intros ?%elem_of_nil|].
  rewrite <- Hcells in *. rewrite Hsplit.
  repeat (case_match; try by intros ?%elem_of_nil).
  cbn [snd]. unfold parse_at. rewrite read_fields_wide by done.
  rewrite Hthird.
  destruct (text_at (row_cells row) (1 + offset)); [|by intros ?%elem_of_nil].
  destruct (text_at (row_cells row) (2 + offset)); [|by intros ?%elem_of_nil].
  destruct (text_at (row_cells row) (4 + offset)) as [fourth|];
    [|by intros ?%elem_of_nil].
  cbn [mbind option_bind].
  pose proof (ties_or_wp_inv offset (row_cells row) "0" fourth _ Hlen eq_refl) as Hinv.
  change (float_or_zero "0") with (Some (Finite 0)) in Hinv.
  intros ->%list_elem_of_singleton. cbn [record_of Ties].
  destruct (float_or_zero fourth) as [fv|].
  - destruct (in_unit fv && contains "." fourth).
    + destruct Hinv as (g & pay & ->). reflexivity.
    + destruct Hinv as (pay & ->). reflexivity.
  - rewrite Hinv. reflexivity.
Qed.

(** C6, amended.  In a row wide enough for a ties column: when the candidate
    cell is empty or reads as a number, and the next cell reads as a number
    in [0,1] and holds a ".", the next cell is the win percentage and the
    candidate is the ties (null when it is empty or exactly "0"); in every
    other case there is no ties column and the candidate itself is the win
    percentage. *)
Theorem ties_or_win_percentage (year league division team : string)
    (offset : nat) (cells : list Cell) (third fourth : string)
    (r : StandingRecord) :
  7 + offset <= length cells ->
  text_at cells (3 + offset) = Some third ->
  text_at cells (4 + offset) = Some fourth ->
  r ∈ parse_at year league division team offset cells ->
  ((exists tv fv, float_or_zero third = Some tv /\ float_or_zero fourth = Some fv
                  /\ in_unit fv = true /\ contains "." fourth = true) ->
   WP r = Some fourth /\
   Ties r = if truthy third && negb (String.eqb third "0")
            then Some third else None) /\
  (~ (exists tv fv, float_or_zero third = Some tv /\ float_or_zero fourth = Some fv
                    /\ in_unit fv = true /\ contains "." fourth = true) ->
   WP r = or_none (Some third) /\ Ties r = None).
Proof.
  intros Hlen H3 H4. unfold parse_at. rewrite read_fields_wide by done.
  rewrite H3, H4.
  destruct (text_at cells (1 + offset)); [|by intros ?%elem_of_nil].
  destruct (text_at cells (2 + offset)); [|by intros ?%elem_of_nil].
  cbn [mbind option_bind].
  pose proof (ties_or_wp_inv offset cells third fourth _ Hlen eq_refl) as Hinv.
  intros ->%list_elem_of_singleton. cbn [record_of WP Ties].
  destruct (float_or_zero third) as [tv|] eqn:Ht;
    [destruct (float_or_zero fourth) as [fv|] eqn:Hf|].
  - destruct (in_unit fv) eqn:Hu, (contains "." fourth) eqn:Hdot; cbn [andb] in Hinv.
    + destruct Hinv as (g & pay & ->). split; [|intros []; eauto 10].
      intros _. cbn [wp ties]. split.
      * unfold or_none. cbn [truthy_opt].
        now rewrite (contains_truthy "." fourth).
      * destruct (truthy third) eqn:Htr, (String.eqb third "0") eqn:Hz;
          cbn; now rewrite ?Htr, ?Hz.
    + destruct Hinv as (pay & ->).
      split; [intros (? & ? & _ & ? & _ & ?); congruence | done].
    + destruct Hinv as (pay & ->).
      split; [intros (? & ? & _ & ? & ? & _); congruence | done].
    + destruct Hinv as (pay & ->).
      split; [intros (? & ? & _ & ? & ? & _); congruence | done].
  - rewrite Hinv. split; [intros (? & ? & _ & ? & _); congruence | done].
  - rewrite Hinv. split; [intros (? & ? & ? & _); congruence | done].
Qed.

(** C4.  A team row whose second cell is one of the split-season markers is
    read with offset 1; it emits nothing unless the marker is "Final"; for a
    "Final" row the record read at the shifted indices is the record read at
    the plain indices of the row without its split column, and, when that
    shorter row is not itself marked, the extractor treats both rows
    alike. *)
Theorem split_season_offset (year league division : string) (row : Row)
    (c0 c1 : Cell) (rest : list Cell) :
  row_cells row = c0 :: c1 :: rest ->
  mem (strip (cell_text c1)) split_indicators = true ->
  split_offset (row_cells row)
    = (1, negb (String.eqb (strip (cell_text c1)) "Final")) /\
  (strip (cell_text c1) <> "Final" ->
   snd (standings_row year league division row) = []) /\
  (strip (cell_text c1) = "Final" ->
   (forall team,
      parse_at year league division team 1 (c0 :: c1 :: rest)
      = parse_at year league division team 0 (c0 :: rest)) /\
   (split_offset (c0 :: rest) = (0, false) ->
    standings_row year league division row
    = standings_row year league division
        {| row_class := row_class row; row_cells := c0 :: rest |})).
Proof.
  intros Hcells Hmem.
  assert (split_offset (c0 :: c1 :: rest)
          = (1, negb (String.eqb (strip (cell_text c1)) "Final"))) as Hsplit.
  { unfold split_offset.
    change (1 <? length (c0 :: c1 :: rest)) with true.
    change (text_at (c0 :: c1 :: rest) 1) with (Some (strip (cell_text c1))).
    cbv iota. now rewrite Hmem. }
  assert (forall team,
      parse_at year league division team 1 (c0 :: c1 :: rest)
      = parse_at year league division team 0 (c0 :: rest)) as Hparse.
  { intros team. reflexivity. }
  rewrite Hcells. split; [exact Hsplit|]. split.
  - intros Hne%String.eqb_neq. unfold standings_row.
    rewrite Hcells, Hsplit, Hne. cbv beta iota zeta.
    destruct (truthy_opt (cell_rowspan c0) && _); [reflexivity|].
    destruct (contains "banner" _ || _); [reflexivity|].
    destruct (cell_link c0) as [link_text|]; [|reflexivity].
    destruct (contains "All-Star" _ || _); [reflexivity|].
    now destruct (negb (truthy _)).
  - intros Hfinal. split; [exact Hparse|]. intros Hshort.
    unfold standings_row. cbn [row_cells].
    rewrite Hcells, Hsplit, Hshort, Hfinal.
    change (negb (String.eqb "Final" "Final")) with false.
    cbv beta iota zeta.
    destruct (truthy_opt (cell_rowspan c0) && _); [reflexivity|].
    destruct (contains "banner" _ || _); [reflexivity|].
    destruct (cell_link c0) as [link_text|]; [|reflexivity].
    destruct (contains "All-Star" _ || _); [reflexivity|].
    destruct (negb (truthy _)); [reflexivity|].
    now rewrite Hparse.
Qed.

End StandingsFacts.

(** ** The leader extractor *)

Module LeadersFacts.
Import Py Leaders PyFacts.

Lemma star_free_replace s : contains "*" (replace "*" "" s) = false.
Proof.
  induction s as [|a s IH]; [reflexivity|].
  rewrite replace_char_cons.
  destruct (Ascii.eqb "*" a) eqn:Ha; [now rewrite append_nil|].
  now rewrite contains_char_cons, Ha, IH.
Qed.

Lemma star_free_lstrip s : contains "*" s = false -> contains "*" (lstrip s) = false.
Proof.
  induction s as [|a s IH]; [done|]. cbn [lstrip].
  destruct (is_space a); [|done].
  rewrite contains_char_cons. intros [_ Hs]%orb_false_iff. auto.
Qed.

Lemma star_free_rstrip s : contains "*" s = false -> contains "*" (rstrip s) = false.
Proof.
  induction s as [|a s IH]; [done|]. cbn [rstrip].
  rewrite contains_char_cons. intros [Ha Hs]%orb_false_iff.
  destruct (is_space a && negb (truthy (rstrip s))); [done|].
  now rewrite contains_char_cons, Ha, IH.
Qed.

Lemma clean_name_star_free s : contains "*" (clean_name s) = false.
Proof.
  unfold clean_name, strip.
  apply star_free_rstrip, star_free_lstrip, star_free_replace.
Qed.

(** C7.  A statistic-start row (five cells or more, first cell tagged
    "datacolBlue", not passed over) with a non-empty statistic and player,
    whose player cell has row-span 2, followed by a one-cell row that is not
    passed over: exactly two records are emitted, with the same statistic,
    value and player and the teams of the two rows; the player name they
    share holds no asterisk. *)
Theorem tied_leader_group (year league : string) (st : State) (r1 r2 : Row)
    (c0 c1 c2 c3 c4 t : Cell) (more : list Cell) :
  row_cells r1 = c0 :: c1 :: c2 :: c3 :: c4 :: more ->
  contains "datacolBlue" (cell_class c0) = true ->
  passed_over r1 c0 = false ->
  cell_rowspan c1 = Some "2" ->
  truthy (strip (cell_text c0)) = true ->
  truthy (clean_name (strip (cell_text c1))) = true ->
  row_cells r2 = [t] ->
  passed_over r2 t = false ->
  leader_rows year league st [r1; r2] =
    [ {| Year := year; League := league;
         Statistic := Some (strip (cell_text c0));
         Player_Name := Some (clean_name (strip (cell_text c1)));
         Team := strip (cell_text c2);
         Value := Some (strip (cell_text c3)) |};
      {| Year := year; League := league;
         Statistic := Some (strip (cell_text c0));
         Player_Name := Some (clean_name (strip (cell_text c1)));
         Team := strip (cell_text t);
         Value := Some (strip (cell_text c3)) |} ]
  /\ contains "*" (clean_name (strip (cell_text c1))) = false.
Proof.
  intros Hcells Hblue Hpass1 Hspan Hstat Hplayer Hcells2 Hpass2.
  split; [|apply clean_name_star_free].
  assert (leader_row year league st r1 =
    ({| current_statistic := Some (strip (cell_text c0));
        current_value := Some (strip (cell_text c3));
        current_player := Some (clean_name (strip (cell_text c1))) |},
     [ {| Year := year; League := league;
          Statistic := Some (strip (cell_text c0));
          Player_Name := Some (clean_name (strip (cell_text c1)));
          Team := strip (cell_text c2);
          Value := Some (strip (cell_text c3)) |} ])) as Hfirst.
  { unfold leader_row. rewrite Hcells, Hpass1, Hblue.
    change (5 <=? length (c0 :: c1 :: c2 :: c3 :: c4 :: more)) with true.
    cbn [andb]. unfold start_row, text_at.
    cbn [lookup list_lookup mbind option_bind]. rewrite Hspan. reflexivity. }
  assert (forall st',
    current_statistic st' = Some (strip (cell_text c0)) ->
    current_player st' = Some (clean_name (strip (cell_text c1))) ->
    leader_row year league st' r2 =
      (st', [ {| Year := year; League := league;
                 Statistic := current_statistic st';
                 Player_Name := current_player st';
                 Team := strip (cell_text t);
                 Value := current_value st' |} ])) as Hsecond.
  { intros st' Hs Hp. unfold leader_row. rewrite Hcells2, Hpass2, Hs, Hp.
    cbn [length Nat.leb Nat.eqb andb truthy_opt]. rewrite Hstat, Hplayer.
    reflexivity. }
  cbn [leader_rows]. rewrite Hfirst, Hsecond by reflexivity. reflexivity.
Qed.

End LeadersFacts.

(** ** The team statistics extractor *)

Module TeamStatsFacts.
Import Py TeamStats.










End TeamStatsFacts.

(** ** The normalizer *)

Module CleanerFacts.
Import Pandas Cleaner.

Section coercion.
Context `{Numeric}.




End coercion.

End CleanerFacts.

(** ** The incremental sink *)

Module SinkFacts.
Import Pandas Sink.

Section merge.
Context `{Numeric}.

Lemma index_of_lookup c cols i : index_of c cols = Some i -> cols !! i = Some c.
Proof.
  revert i. induction cols as [|c' cols IH]; intros i; [discriminate|].
  cbn [index_of]. destruct (String.eqb_spec c c') as [->|_].
  - now intros [= <-].
  - destruct (index_of c cols); [|discriminate]. intros [= <-]. now apply IH.
Qed.

Lemma mem_elem c cols : c ∈ cols -> Py.mem c cols = true.
Proof.
  intros Hc. apply existsb_exists. exists c.
  split; [now apply list_elem_of_In | apply String.eqb_refl].
Qed.

Lemma filter_none {A} (p : A -> bool) l :
  (forall x, x ∈ l -> p x = false) -> List.filter p l = [].
Proof.
  induction l as [|x l IH]; intros Hp; [reflexivity|]. cbn [List.filter].
  rewrite (Hp x) by left. apply IH. intros y Hy. apply Hp. now right.
Qed.

Lemma concat_same_columns a b :
  columns b = columns a ->
  concat a b = {| columns := columns a;
                  rows := reindex (columns a) a ++ reindex (columns a) b |}.
Proof.
  intros Hb. unfold concat. rewrite Hb, filter_none, app_nil_r; [reflexivity|].
  intros c Hc. now rewrite mem_elem.
Qed.

Lemma keep_first_seen cols subset seen rs :
  (forall r, r ∈ rs -> row_key cols subset r ∈ seen) ->
  keep_first cols subset seen rs = [].
Proof.
  induction rs as [|r rs IH]; intros Hseen; [reflexivity|]. cbn [keep_first].
  rewrite bool_decide_eq_true_2 by (apply Hseen; left).
  apply IH. intros r' Hr'. apply Hseen. now right.
Qed.

(** Rows with fresh, distinct keys are all kept, and rows that repeat their
    keys after them all go. *)
Lemma keep_first_self cols subset xs ys seen :
  NoDup (map (row_key cols subset) xs) ->
  (forall x, x ∈ xs -> row_key cols subset x ∉ seen) ->
  (forall y, y ∈ ys ->
     row_key cols subset y ∈ map (row_key cols subset) xs
     \/ row_key cols subset y ∈ seen) ->
  keep_first cols subset seen (xs ++ ys) = xs.
Proof.
  revert seen. induction xs as [|x xs IH]; intros seen Hnd Hfresh Hys.
  - apply keep_first_seen. intros y Hy.
    destruct (Hys y Hy) as [[]%elem_of_nil|]; done.
  - cbn [app keep_first]. rewrite bool_decide_eq_false_2 by (apply Hfresh; left).
    cbn [map] in Hnd. apply NoDup_cons in Hnd as [Hx Hnd].
    f_equal. apply IH; [done| |].
    + intros x' Hx' [Heq|Hin]%elem_of_cons.
      * apply Hx. rewrite <- Heq. now apply list_elem_of_fmap_2.
      * apply (Hfresh x'); [now right | done].
    + intros y Hy. destruct (Hys y Hy) as [[Heq|Hin]%elem_of_cons|Hin].
      * right. rewrite Heq. left.
      * now left.
      * right. now right.
Qed.

Lemma read_csv_len f : len (read_csv f) = length (lines f).
Proof. unfold len, read_csv. cbn [rows]. now rewrite length_map. Qed.

Lemma of_records_len data : len (of_records data) = length data.
Proof. unfold len, of_records. cbn [rows]. now rewrite length_map. Qed.

End merge.

End SinkFacts.

(** ** The scraper's main loop *)

Module ScraperFacts.
Import Pandas Scraper.

Section loop.
Context `{Numeric}.

(** Whatever the previous run left, the loop starts with nothing marked as
    processed: the checkpoint is removed before it is loaded. *)
Lemma start_forgets_checkpoint (w : World) : processed (start w) = ∅.
Proof. reflexivity. Qed.

Lemma year_step_visited (st : Loop) (yi : YearInfo) :
  year yi ∉ processed st ->
  visited (year_step st yi) = visited st ++ [year yi] /\
  processed (year_step st yi) ⊆ processed st ∪ {[year yi]}.
Proof.
  intros Hnew. unfold year_step. rewrite bool_decide_eq_false_2 by done.
  destruct (process_year yi (files (world st))); cbn [visited processed];
    split; (reflexivity || set_solver).
Qed.

Lemma loop_visits_all (al_years : list YearInfo) (st : Loop) :
  NoDup (map year al_years) ->
  (forall yi, yi ∈ al_years -> year yi ∉ processed st) ->
  visited (fold_left year_step al_years st) = visited st ++ map year al_years.
Proof.
  revert st. induction al_years as [|yi rest IH]; intros st Hnd Hnew.
  - cbn. now rewrite app_nil_r.
  - cbn [fold_left map]. cbn [map] in Hnd. apply NoDup_cons in Hnd as [Hyi Hnd].
    destruct (year_step_visited st yi) as [Hv Hp]; [apply Hnew; left|].
    rewrite IH, Hv, <- app_assoc; [reflexivity | done |].
    intros yj Hj Hin. apply Hp in Hin.
    apply elem_of_union in Hin as [Hin|Hin%elem_of_singleton].
    + apply (Hnew yj); [now right | done].
    + apply Hyi. rewrite <- Hin. now apply list_elem_of_fmap_2.
Qed.

(** Every run works on every year of the league, whatever checkpoint and
    files the run before it left. *)
Lemma main_visits_every_year (al_years : list YearInfo) (w : World) :
  NoDup (map year al_years) ->
  visited (main al_years w) = map year al_years.
Proof.
  intros Hnd. unfold main. cbn [visited].
  rewrite loop_visits_all; [reflexivity | done |].
  intros yi _. rewrite start_forgets_checkpoint. apply not_elem_of_empty.
Qed.

End loop.

End ScraperFacts.

(** ** The properties on the example inputs *)

Module Checks.
Import Pandas IntegerFields Examples.

(** C2.  The normalizer run on its own output: the first run leaves two rows
    with the same key, the second removes one of them. *)
Theorem second_normalizer_pass_differs :
  lines (fst (Cleaner.clean_csv starred_file))
    = [["NYY"; "Ruth"]; ["NYY"; "Ruth"]] /\
  lines (fst (Cleaner.clean_csv (fst (Cleaner.clean_csv starred_file))))
    = [["NYY"; "Ruth"]] /\
  fst (Cleaner.clean_csv (fst (Cleaner.clean_csv starred_file)))
    <> fst (Cleaner.clean_csv starred_file).
Proof.
  split; [vm_compute; reflexivity|]. split; [vm_compute; reflexivity|].
  vm_compute. discriminate.
Qed.

(** C3.  A run killed after its tenth season leaves a checkpoint with those
    ten seasons; the next run works on all twelve seasons, the ten of the
    checkpoint included, and ends with the files of a run that was never
    interrupted. *)
Theorem restart_repeats_checkpointed_years :
  Scraper.load_checkpoint killed_after_ten = list_to_set (take 10 twelve_years) /\
  Scraper.visited (Scraper.main twelve_seasons killed_after_ten) = twelve_years /\
  Scraper.files (Scraper.world (Scraper.main twelve_seasons killed_after_ten))
    = Scraper.files (Scraper.world (Scraper.main twelve_seasons empty_world)).
Proof.
  split; [vm_compute; reflexivity|]. split; vm_compute; reflexivity.
Qed.

(** C4, witness: the sample "Final" row and the same row without its split
    column. *)
Lemma split_season_offset_witness :
  Py.mem (Py.strip "Final") Standings.split_indicators = true /\
  Standings.standings_row "1981" "AL" "Standard" final_row
  = Standings.standings_row "1981" "AL" "Standard"
      (tr [td_link "Yankees"; td "95"; td "67"; td "0.586"; td "--"]).
Proof.
  split; [reflexivity|].
  exact (proj2 (proj2 (proj2
           (StandingsFacts.split_season_offset "1981" "AL" "Standard" final_row
              _ _ _ eq_refl eq_refl)) eq_refl) eq_refl).
Defined.

(** C5, witness: two and a half games behind. *)
Lemma games_behind_repair_witness :
  Py.all_digits "2" = true /\
  Standings.GB
    (Standings.record_of "1981" "AL" "Standard" "Boston" half_game_fields)
  = Some "2.5".
Proof.
  split; [reflexivity|].
  exact (proj1 (proj2 (StandingsFacts.games_behind_repair "1981" "AL" "Standard"
                         "Boston" half_game_fields))
           "2" eq_refl (or_intror eq_refl)).
Defined.

(** C6, counterexample.  The next cell ".581" reads as a number in [0,1] and
    holds a "."; yet with the candidate "-" the candidate is stored as the
    win percentage, and with the candidate "0" no ties are stored. *)
Lemma ties_candidate_counterexample :
  (Py.in_unit <$> Py.float ".581") = Some true /\
  Py.contains "." ".581" = true /\
  map (fun r => (Standings.Ties r, Standings.WP r))
      (Standings.extract_team_standings [tr dash_cells] "1901" "AL")
    = [(None, Some "-")] /\
  map (fun r => (Standings.Ties r, Standings.WP r))
      (Standings.extract_team_standings [tr zero_cells] "1901" "AL")
    = [(None, Some ".581")].
Proof. repeat split; vm_compute; reflexivity. Qed.

(** C6, witness: two ties. *)
Lemma ties_or_win_percentage_witness :
  7 + 0 <= length ties_cells /\
  Forall (fun r => Standings.WP r = Some ".581" /\ Standings.Ties r = Some "2")
         (Standings.parse_at "1901" "AL" "Standard" "Boston" 0 ties_cells).
Proof.
  split; [vm_compute; lia|]. apply Forall_forall. intros r Hr.
  refine (proj1 (StandingsFacts.ties_or_win_percentage "1901" "AL" "Standard"
                   "Boston" 0 ties_cells "2" ".581" r _ eq_refl eq_refl Hr) _).
  - vm_compute. lia.
  - do 2 eexists. repeat split; vm_compute; reflexivity.
Defined.

(** C7, witness: Babe Ruth, leader with two teams. *)
Lemma tied_leader_group_witness :
  Leaders.passed_over leader_start (th "Home Runs") = false /\
  Leaders.passed_over leader_next (td "New York") = false /\
  Leaders.extract_player_leaders [leader_start; leader_next] "1919" "AL" =
    [ {| Leaders.Year := "1919"; Leaders.League := "AL";
         Leaders.Statistic := Some "Home Runs";
         Leaders.Player_Name := Some "Babe Ruth";
         Leaders.Team := "Boston"; Leaders.Value := Some "29" |};
      {| Leaders.Year := "1919"; Leaders.League := "AL";
         Leaders.Statistic := Some "Home Runs";
         Leaders.Player_Name := Some "Babe Ruth";
         Leaders.Team := "New York"; Leaders.Value := Some "29" |} ].
Proof.
  split; [reflexivity|]. split; [reflexivity|].
  exact (proj1 (LeadersFacts.tied_leader_group "1919" "AL" Leaders.initial
                  leader_start leader_next _ _ _ _ _ _ _
                  eq_refl eq_refl eq_refl eq_refl eq_refl eq_refl eq_refl eq_refl)).
Defined.




(** C10, witness: a row with zero ties. *)
Lemma zero_ties_is_null_witness :
  Standings.split_offset zero_cells = (0, false) /\
  Forall (fun r => Standings.Ties r = None)
         (snd (Standings.standings_row "1901" "AL" "Standard" (tr zero_cells))).
Proof.
  split; [reflexivity|]. apply Forall_forall. intros r Hr.
  refine (StandingsFacts.zero_ties_is_null "1901" "AL" "Standard" (tr zero_cells)
            0 false r eq_refl _ eq_refl Hr).
  vm_compute. lia.
Defined.

End Checks.

(** ** More facts about the string primitives *)

Module PyMore.
Import Py PyFacts Aux.

(** [c not in s], character by character. *)
Lemma char_free_cons c a s :
  contains (String c "") (String a s) = false <->
  Ascii.eqb c a = false /\ contains (String c "") s = false.
Proof. rewrite contains_char_cons. apply orb_false_iff. Qed.

Lemma char_free_append c s t :
  contains (String c "") s = false -> contains (String c "") t = false ->
  contains (String c "") (s +:+ t) = false.
Proof.
  intros Hs Ht. induction s as [|a s IH]; [exact Ht|].
  rewrite append_cons. apply char_free_cons in Hs as [Ha Hs].
  apply char_free_cons. auto.
Qed.

(** Removing a character leaves none of it. *)
Lemma remove_char_free c s : contains (String c "") (replace (String c "") "" s) = false.
Proof.
  induction s as [|a s IH]; [reflexivity|].
  rewrite replace_char_cons.
  destruct (Ascii.eqb c a) eqn:Ha; [now rewrite append_nil|].
  apply char_free_cons. auto.
Qed.

(** Removing one character brings in no other. *)
Lemma remove_keeps_char_free c d s :
  contains (String c "") s = false ->
  contains (String c "") (replace (String d "") "" s) = false.
Proof.
  induction s as [|a s IH]; [reflexivity|].
  intros [Ha Hs]%char_free_cons. rewrite replace_char_cons.
  destruct (Ascii.eqb d a); [rewrite append_nil; auto|].
  apply char_free_cons. auto.
Qed.

Lemma lstrip_char_free c s :
  contains (String c "") s = false -> contains (String c "") (lstrip s) = false.
Proof.
  induction s as [|a s IH]; [done|]. cbn [lstrip].
  destruct (is_space a); [|done]. intros [_ Hs]%char_free_cons. auto.
Qed.

Lemma rstrip_char_free c s :
  contains (String c "") s = false -> contains (String c "") (rstrip s) = false.
Proof.
  induction s as [|a s IH]; [done|]. cbn [rstrip].
  intros [Ha Hs]%char_free_cons.
  destruct (is_space a && negb (truthy (rstrip s))); [done|].
  apply char_free_cons. auto.
Qed.

Lemma strip_char_free c s :
  contains (String c "") s = false -> contains (String c "") (strip s) = false.
Proof. intros. now apply rstrip_char_free, lstrip_char_free. Qed.

(** A string without blanks is its own [strip]. *)
Lemma rstrip_no_space s : no_space s = true -> rstrip s = s.
Proof.
  induction s as [|a s IH]; [done|]. cbn [no_space rstrip].
  intros [Ha Hs]%andb_true_iff. apply negb_true_iff in Ha.
  now rewrite Ha, IH.
Qed.

Lemma lstrip_no_space s : no_space s = true -> lstrip s = s.
Proof.
  destruct s as [|a s]; [done|]. cbn [no_space lstrip].
  intros [Ha _]%andb_true_iff. apply negb_true_iff in Ha. now rewrite Ha.
Qed.

Lemma strip_no_space s : no_space s = true -> strip s = s.
Proof. intros Hs. unfold strip. now rewrite lstrip_no_space, rstrip_no_space. Qed.

Lemma digits_no_space d : all_digits d = true -> no_space d = true.
Proof.
  induction d as [|a d IH]; [done|]. cbn [all_digits no_space].
  intros [Ha Hd]%andb_true_iff. rewrite IH by done.
  assert (is_space a = false) as ->; [|done].
  unfold is_digit in Ha. unfold is_space.
  apply andb_true_iff in Ha as [H1%Nat.leb_le H2%Nat.leb_le].
  apply orb_false_iff. split; apply andb_false_iff.
  - right. apply Nat.leb_gt. lia.
  - right. apply Nat.leb_gt. lia.
Qed.

End PyMore.

(** ** More on the standings extractor *)

Module StandingsMore.
Import Py Standings PyFacts PyMore Aux.

Lemma or_none_nonempty x : or_none x <> Some "".
Proof.
  unfold or_none. destruct x as [[|a s]|]; cbn; congruence.
Qed.

Lemma ties_or_none_nonzero x :
  ties_or_none x <> Some "" /\ ties_or_none x <> Some "0".
Proof.
  unfold ties_or_none. destruct x as [t|]; [|split; congruence].
  destruct (negb (truthy t) || String.eqb t "0") eqn:Ht; [split; congruence|].
  apply orb_false_iff in Ht as [Ht Hz]. apply String.eqb_neq in Hz.
  split; [|congruence]. intros [= ->]. discriminate Ht.
Qed.

(** What one pass of the loop does to the division and to the output. *)
Lemma standings_row_cases year league division row :
  (snd (standings_row year league division row) = [] /\
   (fst (standings_row year league division row) = division \/
    mem (fst (standings_row year league division row))
        ["East"; "Central"; "West"] = true)) \/
  (exists c0 rest link_text offset,
     row_cells row = c0 :: rest /\
     cell_link c0 = Some link_text /\
     truthy (strip link_text) = true /\
     contains "All-Star" (strip link_text) = false /\
     contains "World Series" (strip link_text) = false /\
     (offset = 0 \/ offset = 1) /\
     standings_row year league division row
     = (division,
        parse_at year league division (strip link_text) offset (row_cells row))).
Proof.
  unfold standings_row.
  destruct (row_cells row) as [|c0 rest] eqn:Hcells; [left; cbn; auto|].
  destruct (truthy_opt (cell_rowspan c0) && _) eqn:Hdiv.
  { left. cbn [fst snd]. apply andb_true_iff in Hdiv as [_ Hdiv]. auto. }
  destruct (contains "banner" _ || _); [left; cbn; auto|].
  destruct (cell_link c0) as [link_text|] eqn:Hlink; [|left; cbn; auto].
  destruct (contains "All-Star" _ || _) eqn:Hexh; [left; cbn; auto|].
  destruct (negb (truthy _)) eqn:Hteam; [left; cbn; auto|].
  apply orb_false_iff in Hexh as [Hall Hws]. apply negb_false_iff in Hteam.
  destruct (split_offset (c0 :: rest)) as [offset skip] eqn:Hsplit.
  destruct skip; [left; cbn; auto|].
  right. exists c0, rest, link_text, offset. repeat split; try done.
  unfold split_offset in Hsplit. repeat case_match; simplify_eq; auto.
Qed.

Lemma record_of_identity year league division team f :
  Year (record_of year league division team f) = year /\
  League (record_of year league division team f) = league /\
  Division (record_of year league division team f) = division /\
  Team (record_of year league division team f) = team.
Proof. done. Qed.

Lemma parse_at_record year league division team offset cells r :
  r ∈ parse_at year league division team offset cells ->
  exists f, read_fields offset cells = Some f /\
            r = record_of year league division team f.
Proof.
  unfold parse_at. destruct (read_fields offset cells) as [f|].
  - intros ->%list_elem_of_singleton. eauto.
  - by intros ?%elem_of_nil.
Qed.

(** An invariant of the loop over the rows, for any property of the records
    of one row that does not depend on the division. *)
Lemma standings_rows_ind (P : string -> StandingRecord -> Prop) year league :
  (forall division row r,
     mem division DIVISIONS = true ->
     r ∈ snd (standings_row year league division row) -> P division r) ->
  forall rows division r,
    mem division DIVISIONS = true ->
    r ∈ standings_rows year league division rows ->
    exists d, mem d DIVISIONS = true /\ P d r.
Proof.
  intros Hrow rows. induction rows as [|row rows IH]; intros division r Hd.
  - by intros ?%elem_of_nil.
  - cbn [standings_rows].
    destruct (standings_row year league division row) as [d' out] eqn:Hstep.
    intros [Hr|Hr]%elem_of_app.
    + exists division. split; [done|]. apply (Hrow division row); [done|].
      now rewrite Hstep.
    + apply (IH d'); [|done].
      destruct (standings_row_cases year league division row) as [[_ Hfst]|Hemit].
      * rewrite Hstep in Hfst. cbn [fst] in Hfst. destruct Hfst as [->|Hm]; [done|].
        unfold DIVISIONS. cbn [mem existsb] in *. rewrite Hm. apply orb_true_r.
      * destruct Hemit as (? & ? & ? & ? & _ & _ & _ & _ & _ & _ & Heq).
        rewrite Hstep in Heq. now injection Heq as -> _.
Qed.

(** X1.  Every standings record carries the year and the league of the call
    and a division label that is "Standard", "East", "Central" or "West". *)
Theorem standings_identity (ba_table : list Row) (year league : string)
    (r : StandingRecord) :
  r ∈ extract_team_standings ba_table year league ->
  Year r = year /\ League r = league /\ mem (Division r) DIVISIONS = true.
Proof.
  intros Hr.
  destruct (standings_rows_ind
              (fun d r => Year r = year /\ League r = league /\ Division r = d)
              year league) with (rows := ba_table) (division := "Standard") (r := r)
    as (d & Hd & Hy & Hl & Hdiv); [|done|done|].
  - intros division row r' _ Hr'.
    destruct (standings_row_cases year league division row) as [[Hnil _]|Hemit].
    + rewrite Hnil in Hr'. by apply elem_of_nil in Hr'.
    + destruct Hemit as (? & ? & ? & ? & _ & _ & _ & _ & _ & _ & Heq).
      rewrite Heq in Hr'. cbn [snd] in Hr'.
      apply parse_at_record in Hr' as (f & _ & ->). done.
  - now rewrite Hdiv.
Qed.

(** X2.  Every standings record names a team: the name is not empty and is
    neither an All-Star nor a World Series link. *)
Theorem standings_team_named (ba_table : list Row) (year league : string)
    (r : StandingRecord) :
  r ∈ extract_team_standings ba_table year league ->
  truthy (Team r) = true /\ contains "All-Star" (Team r) = false
  /\ contains "World Series" (Team r) = false.
Proof.
  intros Hr.
  destruct (standings_rows_ind
              (fun _ r => truthy (Team r) = true
                          /\ contains "All-Star" (Team r) = false
                          /\ contains "World Series" (Team r) = false)
              year league) with (rows := ba_table) (division := "Standard") (r := r)
    as (d & _ & H); [|done|done|done].
  intros division row r' _ Hr'.
  destruct (standings_row_cases year league division row) as [[Hnil _]|Hemit].
  - rewrite Hnil in Hr'. by apply elem_of_nil in Hr'.
  - destruct Hemit as (? & ? & ? & ? & _ & _ & Ht & Ha & Hw & _ & Heq).
    rewrite Heq in Hr'. cbn [snd] in Hr'.
    apply parse_at_record in Hr' as (f & _ & ->). done.
Qed.

(** X3.  No value of a standings record is an empty string (an empty cell is
    stored as null), and the ties are never the text "0". *)
Theorem standings_no_empty_values (ba_table : list Row) (year league : string)
    (r : StandingRecord) :
  r ∈ extract_team_standings ba_table year league ->
  Wins r <> Some "" /\ Losses r <> Some "" /\ Ties r <> Some ""
  /\ Ties r <> Some "0" /\ WP r <> Some "" /\ GB r <> Some ""
  /\ Payroll r <> Some "".
Proof.
  intros Hr.
  destruct (standings_rows_ind
              (fun _ r => Wins r <> Some "" /\ Losses r <> Some "" /\ Ties r <> Some ""
                          /\ Ties r <> Some "0" /\ WP r <> Some "" /\ GB r <> Some ""
                          /\ Payroll r <> Some "")
              year league) with (rows := ba_table) (division := "Standard") (r := r)
    as (d & _ & H); [|done|done|done].
  intros division row r' _ Hr'.
  destruct (standings_row_cases year league division row) as [[Hnil _]|Hemit].
  - rewrite Hnil in Hr'. by apply elem_of_nil in Hr'.
  - destruct Hemit as (? & ? & ? & ? & _ & _ & _ & _ & _ & _ & Heq).
    rewrite Heq in Hr'. cbn [snd] in Hr'.
    apply parse_at_record in Hr' as (f & _ & ->).
    cbn [record_of Wins Losses Ties WP GB Payroll].
    pose proof (ties_or_none_nonzero (ties f)) as [? ?].
    repeat split; auto using or_none_nonempty.
Qed.

Lemma payroll_of_clean t p :
  payroll_of t = Some p -> contains "$" p = false /\ contains "," p = false.
Proof.
  unfold payroll_of. destruct (startswith "$" t); [|discriminate].
  intros [= <-]. split.
  - apply strip_char_free, (remove_keeps_char_free "$" ","), remove_char_free.
  - apply strip_char_free, remove_char_free.
Qed.

Lemma ties_or_wp_payroll offset n cells third fourth t p g pay :
  ties_or_wp offset n cells third fourth = Some (t, p, g, pay) ->
  pay = None \/ exists text, pay = payroll_of text.
Proof.
  unfold ties_or_wp. intros Hr.
  destruct (float_or_zero third); [|discriminate].
  destruct (float_or_zero fourth); [|discriminate].
  cbn [mbind option_bind] in Hr.
  destruct (in_unit _ && _).
  - destruct (text_at cells (5 + offset)); [|discriminate].
    cbn [mbind option_bind] in Hr.
    destruct (7 + offset <=? n).
    + destruct (text_at cells (6 + offset)); [|discriminate].
      injection Hr as _ _ _ <-. eauto.
    + injection Hr as _ _ _ <-. auto.
  - destruct (6 + offset <=? n).
    + destruct (text_at cells (5 + offset)); [|discriminate].
      injection Hr as _ _ _ <-. eauto.
    + injection Hr as _ _ _ <-. auto.
Qed.

Lemma read_fields_payroll offset cells f :
  read_fields offset cells = Some f ->
  payroll f = None \/ exists text, payroll f = payroll_of text.
Proof.
  unfold read_fields. destruct (5 + offset <=? length cells); [|intros [= <-]; auto].
  destruct (text_at cells (1 + offset)); [|discriminate].
  destruct (text_at cells (2 + offset)); [|discriminate].
  cbn [mbind option_bind].
  destruct (7 + offset <=? length cells).
  - destruct (text_at cells (3 + offset)) as [third|]; [|discriminate].
    destruct (text_at cells (4 + offset)) as [fourth|]; [|discriminate].
    cbn [mbind option_bind].
    destruct (ties_or_wp _ _ _ _ _) as [[[[t p] g] pay]|] eqn:Hties.
    + intros [= <-]. cbn [payroll]. eauto using ties_or_wp_payroll.
    + intros [= <-]. auto.
  - destruct (text_at cells (3 + offset)); [|discriminate].
    destruct (text_at cells (4 + offset)); [|discriminate].
    intros [= <-]. auto.
Qed.

(** X4.  The payroll of a standings record holds neither the currency marker
    nor a digit-group comma. *)
Theorem standings_payroll_plain (ba_table : list Row) (year league : string)
    (r : StandingRecord) (p : string) :
  r ∈ extract_team_standings ba_table year league ->
  Payroll r = Some p ->
  contains "$" p = false /\ contains "," p = false.
Proof.
  intros Hr Hp.
  destruct (standings_rows_ind
              (fun _ r => forall p, Payroll r = Some p ->
                          contains "$" p = false /\ contains "," p = false)
              year league) with (rows := ba_table) (division := "Standard") (r := r)
    as (d & _ & H); [|done|done|auto].
  intros division row r' _ Hr' q.
  destruct (standings_row_cases year league division row) as [[Hnil _]|Hemit].
  - rewrite Hnil in Hr'. by apply elem_of_nil in Hr'.
  - destruct Hemit as (? & ? & ? & ? & _ & _ & _ & _ & _ & _ & Heq).
    rewrite Heq in Hr'. cbn [snd] in Hr'.
    apply parse_at_record in Hr' as (f & Hf & ->).
    cbn [record_of Payroll]. unfold or_none.
    destruct (truthy_opt (payroll f)); [|discriminate].
    destruct (read_fields_payroll _ _ _ Hf) as [->|[text ->]]; [discriminate|].
    apply payroll_of_clean.
Qed.

(** X5.  A team row with fewer than 7 + offset cells never yields a payroll
    or a ties count, whatever its cells hold: with fewer than 5 + offset
    cells all six values of its record are null, and with 5 or 6 the win
    percentage and games-behind come from cells 3 and 4 (shifted). *)
Theorem narrow_row_values (year league division team : string) (offset : nat)
    (cells : list Cell) (r : StandingRecord) :
  length cells < 7 + offset ->
  r ∈ parse_at year league division team offset cells ->
  Payroll r = None /\ Ties r = None /\
  (length cells < 5 + offset ->
   Wins r = None /\ Losses r = None /\ WP r = None /\ GB r = None) /\
  (5 + offset <= length cells ->
   Wins r = or_none (text_at cells (1 + offset)) /\
   Losses r = or_none (text_at cells (2 + offset)) /\
   WP r = or_none (text_at cells (3 + offset)) /\
   GB r = or_none (clean_gb (text_at cells (4 + offset)))).
Proof.
  intros Hlen (f & Hf & ->)%parse_at_record. unfold read_fields in Hf.
  assert ((7 + offset <=? length cells) = false) as H7 by (apply Nat.leb_gt; lia).
  rewrite H7 in Hf.
  destruct (5 + offset <=? length cells) eqn:H5.
  - apply Nat.leb_le in H5.
    destruct (text_at cells (1 + offset)) as [w|]; [|discriminate].
    destruct (text_at cells (2 + offset)) as [l|]; [|discriminate].
    destruct (text_at cells (3 + offset)) as [p|]; [|discriminate].
    destruct (text_at cells (4 + offset)) as [g|]; [|discriminate].
    injection Hf as <-. cbn [record_of Payroll Ties Wins Losses WP GB payroll ties wins losses wp gb].
    repeat split; try done; lia.
  - apply Nat.leb_gt in H5. injection Hf as <-. repeat split; try done; lia.
Qed.

(** X6.  A table yields at most one standings record per row. *)
Theorem standings_at_most_one_per_row (ba_table : list Row) (year league : string) :
  length (extract_team_standings ba_table year league) <= length ba_table.
Proof.
  unfold extract_team_standings. generalize "Standard".
  induction ba_table as [|row rows IH]; intros division; [done|].
  cbn [standings_rows length].
  destruct (standings_row year league division row) as [d' out] eqn:Hstep.
  rewrite length_app. specialize (IH d').
  assert (length out <= 1); [|lia].
  destruct (standings_row_cases year league division row) as [[Hnil _]|Hemit].
  - rewrite Hstep in Hnil. cbn [snd] in Hnil. subst. cbn. lia.
  - destruct Hemit as (? & ? & ? & ? & _ & _ & _ & _ & _ & _ & Heq).
    rewrite Hstep in Heq. injection Heq as _ ->. unfold parse_at.
    destruct read_fields; cbn; lia.
Qed.

End StandingsMore.

(** ** More on the leader extractor *)

Module LeadersMore.
Import Py Leaders PyFacts PyMore LeadersFacts Aux.

Lemma truthy_opt_some o : truthy_opt o = true -> is_Some o.
Proof. destruct o; [eauto | discriminate]. Qed.

Lemma start_row_step year league st cells :
  well_formed st ->
  well_formed (fst (start_row year league st cells)) /\
  Forall (complete year league) (snd (start_row year league st cells)) /\
  length (snd (start_row year league st cells)) <= 1.
Proof.
  intros [Hp Hv]. unfold start_row.
  destruct (text_at cells 0) as [statistic|]; [|cbn; repeat split; auto].
  destruct (text_at cells 1) as [player|]; [|cbn; repeat split; auto].
  destruct (text_at cells 2) as [team|]; [|cbn; repeat split; auto].
  destruct (text_at cells 3) as [value|]; [|cbn; repeat split; auto].
  destruct (cells !! 1) as [c1|]; [|cbn; repeat split; auto].
  assert (complete year league
            {| Year := year; League := league; Statistic := Some statistic;
               Player_Name := Some (clean_name player); Team := team;
               Value := Some value |}) as Hrec.
  { repeat split; cbn; eauto using clean_name_star_free. }
  destruct (truthy_opt (cell_rowspan c1)).
  - destruct (int _) as [n|].
    + destruct (1 <? n)%Z; cbn [fst snd]; (split; [|split; [auto | cbn; lia]]);
        split; cbn; eauto; try congruence.
      intros p [= <-]. apply clean_name_star_free.
    + cbn [fst snd]. split; [|split; [auto | cbn; lia]].
      split; cbn; eauto.
  - cbn [fst snd]. split; [|split; [auto | cbn; lia]].
    split; cbn; eauto; congruence.
Qed.

(** One pass of the loop keeps the loop variables well formed and emits at
    most one record, a complete one. *)
Lemma leader_row_step year league st row :
  well_formed st ->
  well_formed (fst (leader_row year league st row)) /\
  Forall (complete year league) (snd (leader_row year league st row)) /\
  length (snd (leader_row year league st row)) <= 1.
Proof.
  intros Hst. pose proof Hst as [Hp Hv]. unfold leader_row.
  destruct (row_cells row) as [|c0 rest] eqn:Hcells; [cbn; auto|].
  destruct (passed_over row c0); [cbn; auto|].
  destruct ((5 <=? _) && _); [now apply start_row_step|].
  destruct ((_ =? 2) && _ && _) eqn:H2.
  { apply andb_true_iff in H2 as [[_ Hs%truthy_opt_some]%andb_true_iff Hval%truthy_opt_some].
    destruct (text_at _ 0) as [player|]; [|cbn; auto].
    destruct (text_at _ 1) as [team|]; [|cbn; auto].
    cbn [fst snd]. split; [done|]. split; [|cbn; lia].
    apply Forall_singleton. repeat split; cbn; eauto using clean_name_star_free. }
  destruct ((_ =? 1) && _ && _) eqn:H1.
  { apply andb_true_iff in H1 as [[_ Hpl%truthy_opt_some]%andb_true_iff Hs%truthy_opt_some].
    destruct (text_at _ 0) as [team|]; [|cbn; auto].
    cbn [fst snd]. split; [done|]. split; [|cbn; lia].
    destruct Hpl as [p Hpl].
    apply Forall_singleton. repeat split; cbn; eauto. }
  destruct ((_ =? 3) && _) eqn:H3.
  { apply andb_true_iff in H3 as [_ Hs%truthy_opt_some].
    destruct (text_at _ 0) as [player|]; [|cbn; auto].
    destruct (text_at _ 1) as [team|]; [|cbn; auto].
    destruct (text_at _ 2) as [value|]; [|cbn; auto].
    cbn [fst snd]. split; [done|]. split; [|cbn; lia].
    apply Forall_singleton. repeat split; cbn; eauto using clean_name_star_free. }
  cbn. auto.
Qed.

Lemma leader_rows_step year league rows st :
  well_formed st ->
  Forall (complete year league) (leader_rows year league st rows) /\
  length (leader_rows year league st rows) <= length rows.
Proof.
  revert st. induction rows as [|row rows IH]; intros st Hst; [cbn; auto|].
  cbn [leader_rows length].
  destruct (leader_row_step year league st row Hst) as (Hst' & Hout & Hlen).
  destruct (leader_row year league st row) as [st' out]. cbn [fst snd] in *.
  destruct (IH st' Hst') as [Hrest Hlen']. split.
  - now apply Forall_app.
  - rewrite length_app. lia.
Qed.

Lemma initial_well_formed : well_formed initial.
Proof. split; cbn; [discriminate | intros [? [=]]]. Qed.

(** X7.  Every leader record carries the year and league of the call, a
    statistic, a value and a player name, and the player name holds no
    asterisk. *)
Theorem leader_records_complete (ba_table : list Row) (year league : string)
    (r : LeaderRecord) :
  r ∈ extract_player_leaders ba_table year league ->
  Year r = year /\ League r = league /\
  is_Some (Statistic r) /\ is_Some (Value r) /\
  exists p, Player_Name r = Some p /\ contains "*" p = false.
Proof.
  intros Hr.
  destruct (leader_rows_step year league ba_table initial initial_well_formed)
    as [Hall _].
  rewrite Forall_forall in Hall. now apply Hall.
Qed.

(** X8.  A table yields at most one leader record per row. *)
Theorem leaders_at_most_one_per_row (ba_table : list Row) (year league : string) :
  length (extract_player_leaders ba_table year league) <= length ba_table.
Proof.
  apply (leader_rows_step year league ba_table initial initial_well_formed).
Qed.

(** X9.  Before the first row that opens a group nothing is emitted: a table
    in which no row has five cells or more and a first cell tagged
    "datacolBlue" yields no record, whatever its one-, two- and three-cell
    rows hold. *)
Theorem no_group_no_leaders (ba_table : list Row) (year league : string) :
  forallb (fun row => negb (opens_group row)) ba_table = true ->
  extract_player_leaders ba_table year league = [].
Proof.
  unfold extract_player_leaders.
  induction ba_table as [|row rows IH]; [done|]. cbn [forallb leader_rows].
  intros [Hrow Hrows]%andb_true_iff. apply negb_true_iff in Hrow.
  assert (leader_row year league initial row = (initial, [])) as ->.
  { unfold leader_row, opens_group in *.
    destruct (row_cells row) as [|c0 rest]; [done|].
    destruct (passed_over row c0); [done|]. rewrite Hrow.
    cbn [initial current_statistic current_player current_value truthy_opt].
    now rewrite !andb_false_r. }
  now rewrite IH.
Qed.

End LeadersMore.

(** ** More on the team extractors *)

Module TeamMore.
Import Py PyFacts PyMore Aux.

(** X10.  Every team-leader record carries the year and league of the call
    and a non-empty statistic, team and value; its value holds no comma. *)
Theorem team_leader_records_complete (ba_table : list Row) (year league : string)
    (r : TeamLeaders.TeamLeaderRecord) :
  r ∈ TeamLeaders.extract_team_leaders ba_table year league ->
  TeamLeaders.Year r = year /\ TeamLeaders.League r = league /\
  truthy (TeamLeaders.Statistic r) = true /\
  truthy (TeamLeaders.Team r) = true /\
  truthy (TeamLeaders.Value r) = true /\
  contains "," (TeamLeaders.Value r) = false.
Proof.
  unfold TeamLeaders.extract_team_leaders.
  intros (row & _ & Hr)%list_elem_of_In%in_flat_map.
  apply list_elem_of_In in Hr. revert Hr. unfold TeamLeaders.team_leader_row.
  destruct (row_cells row) as [|c0 rest]; [by intros ?%elem_of_nil|].
  destruct (_ <? 3); [by intros ?%elem_of_nil|].
  destruct (contains "banner" _ || _); [by intros ?%elem_of_nil|].
  destruct (contains "datacolBlue" _); [|by intros ?%elem_of_nil].
  destruct (text_at _ 0) as [statistic|]; [|by intros ?%elem_of_nil].
  destruct (text_at _ 1) as [team|]; [|by intros ?%elem_of_nil].
  destruct (text_at _ 2) as [value|]; [|by intros ?%elem_of_nil].
  destruct (truthy statistic && truthy team && _) eqn:Hall;
    [|by intros ?%elem_of_nil].
  apply andb_true_iff in Hall as [[Hs Ht]%andb_true_iff Hv].
  intros ->%list_elem_of_singleton. cbn. repeat split; try done.
  destruct (truthy value) eqn:Hval; [apply remove_char_free | congruence].
Qed.

Lemma dict_get_set_eq k v d : dict_get k (dict_set k v d) = Some v.
Proof.
  induction d as [|[k' v'] d IH]; cbn.
  - now rewrite String.eqb_refl.
  - destruct (String.eqb k k') eqn:Hk; cbn.
    + now rewrite String.eqb_refl.
    + now rewrite Hk.
Qed.

Lemma dict_get_set_ne k k' v d :
  k <> k' -> dict_get k (dict_set k' v d) = dict_get k d.
Proof.
  intros Hne. apply String.eqb_neq in Hne.
  induction d as [|[k2 v2] d IH]; cbn.
  - now rewrite Hne.
  - destruct (String.eqb k' k2) eqn:Hk; cbn.
    + apply String.eqb_eq in Hk as <-. now rewrite Hne.
    + now rewrite IH.
Qed.

Import TeamStats.

Lemma map_positional_fold html_columns cells d :
  map_positional html_columns cells d
  = fold_left (positional_step html_columns cells)
              (seq 0 (Nat.min (length cells) (length html_columns))) d.
Proof. reflexivity. Qed.

Lemma positional_untouched html_columns cells idxs d c :
  (forall j, j ∈ idxs -> html_columns !! j = Some c ->
             String.eqb (upper c) "TEAM" = true) ->
  dict_get c (fold_left (positional_step html_columns cells) idxs d)
  = dict_get c d.
Proof.
  revert d. induction idxs as [|j idxs IH]; intros d Hfree; [done|].
  cbn [fold_left]. rewrite IH by (intros; apply (Hfree j0); [now right | done]).
  unfold positional_step.
  destruct (html_columns !! j) as [col|] eqn:Hj; [|done].
  destruct (text_at cells j); [|done].
  destruct (String.eqb (upper col) "TEAM") eqn:Hup; [done|]. cbn [negb].
  apply dict_get_set_ne. intros ->.
  rewrite (Hfree j) in Hup; [done | left | done].
Qed.

Lemma positional_hit html_columns cells idxs d c i :
  NoDup html_columns -> NoDup idxs -> i ∈ idxs ->
  html_columns !! i = Some c -> i < length cells ->
  String.eqb (upper c) "TEAM" = false ->
  dict_get c (fold_left (positional_step html_columns cells) idxs d)
  = Some (cell_value cells i).
Proof.
  intros Hcols Hnd Hin Hi Hlen Hup. revert d.
  induction idxs as [|j idxs IH]; intros d; [by apply elem_of_nil in Hin|].
  apply NoDup_cons in Hnd as [Hj Hnd]. cbn [fold_left].
  apply elem_of_cons in Hin as [<-|Hin].
  - rewrite positional_untouched.
    + unfold positional_step, cell_value. rewrite Hi.
      destruct (text_at cells i) as [value|] eqn:Hv.
      * rewrite Hup. cbn [negb]. apply dict_get_set_eq.
      * unfold text_at in Hv.
        destruct (lookup_lt_is_Some_2 cells i Hlen) as [cell Hc].
        now rewrite Hc in Hv.
    + intros j Hjin Hjc. exfalso. apply Hj.
      now rewrite (NoDup_lookup _ _ _ _ Hcols Hi Hjc).
  - now apply IH.
Qed.

(** X11.  In the general layout (any table but the 2002-2004 pitching
    tables) with distinct header labels, a record comes from a row of the
    table and holds, under every header label that is not "TEAM" in any
    spelling of case, the text without commas of the cell at the label's
    position, for the positions the row has; and its team is never
    overwritten by a cell. *)
Theorem positional_team_stats (ba_table : list Row)
    (year league stats_type : string) (header : Row) (rec : dict) :
  header_row ba_table = Some header ->
  is_special stats_type year = false ->
  NoDup (html_columns_of (row_cells header)) ->
  rec ∈ extract_team_stats_complete ba_table year league stats_type ->
  exists row c0 rest,
    row ∈ ba_table /\ row_cells row = c0 :: rest /\
    dict_get "Team" rec = Some (Some (team_of c0)) /\
    truthy (team_of c0) = true /\
    forall i c,
      html_columns_of (row_cells header) !! i = Some c ->
      i < length (row_cells row) ->
      String.eqb (upper c) "TEAM" = false ->
      dict_get c rec = Some (cell_value (row_cells row) i).
Proof.
  intros Hheader Hspecial Hnd. unfold extract_team_stats_complete.
  rewrite Hheader, Hspecial.
  destruct (html_columns_of (row_cells header)) as [|h hs] eqn:Hcols;
    [by intros ?%elem_of_nil|].
  rewrite <- Hcols in *. intros (row & Hrow & Hrec)%list_elem_of_omap.
  unfold stats_row in Hrec.
  destruct (row_cells row) as [|c0 rest] eqn:Hcells; [discriminate|].
  destruct (_ <? 3); [discriminate|].
  destruct (contains "banner" _ || _); [discriminate|].
  destruct (negb (truthy (team_of c0))) eqn:Hteam; [discriminate|].
  destruct (contains "All-Star" _ || _ || _); [discriminate|].
  injection Hrec as <-. apply negb_false_iff in Hteam.
  exists row, c0, rest. rewrite Hcells. repeat split; try done.
  - rewrite map_positional_fold, positional_untouched; [done|].
    intros j _ _. reflexivity.
  - intros i c Hi Hlen Hup. rewrite map_positional_fold.
    apply positional_hit; try done; [apply NoDup_seq|].
    apply elem_of_seq. split; [lia|]. cbn [Nat.add].
    apply lookup_lt_Some in Hi. lia.
Qed.

(** X12.  In the layout of the 2002-2004 pitching tables every record has the
    same nineteen columns in the same order, whatever the header of the page
    holds: year, league, team, then the expected columns after "TEAM". *)
Theorem special_layout_columns (ba_table : list Row) (year league : string)
    (rec : dict) :
  mem year ["2002"; "2003"; "2004"] = true ->
  rec ∈ extract_team_stats_complete ba_table year league "Pitching" ->
  map fst rec = "Year" :: "League" :: "Team" :: List.tl EXPECTED_COLUMNS.
Proof.
  intros Hyear. unfold extract_team_stats_complete, is_special.
  rewrite Hyear. cbn [String.eqb Ascii.eqb Bool.eqb andb].
  destruct (header_row ba_table) as [header|]; [|by intros ?%elem_of_nil].
  destruct (html_columns_of (row_cells header)) as [|h hs];
    [by intros ?%elem_of_nil|].
  intros (row & _ & Hrec)%list_elem_of_omap. unfold stats_row in Hrec.
  destruct (row_cells row) as [|c0 rest]; [discriminate|].
  destruct (_ <? 3); [discriminate|].
  destruct (contains "banner" _ || _); [discriminate|].
  destruct (negb (truthy (team_of c0))); [discriminate|].
  destruct (contains "All-Star" _ || _ || _); [discriminate|].
  injection Hrec as <-. reflexivity.
Qed.

End TeamMore.

(** ** More on the incremental sink *)

Module SinkMore.
Import Pandas Sink SinkFacts.

Lemma mem_true_elem c cols : Py.mem c cols = true -> c ∈ cols.
Proof.
  intros (c' & Hin & ->%String.eqb_eq)%existsb_exists. now apply list_elem_of_In.
Qed.

Lemma mem_false_not_elem c cols : Py.mem c cols = false -> c ∉ cols.
Proof. intros Hm Hc. apply mem_elem in Hc. congruence. Qed.

(** The keys one record adds to the columns. *)
Lemma add_keys_keeps (d : dict) cols c :
  c ∈ cols ->
  c ∈ fold_left (fun cols kv => if Py.mem (fst kv) cols then cols else cols ++ [fst kv])
                d cols.
Proof.
  revert cols. induction d as [|kv d IH]; intros cols Hc; [done|].
  cbn [fold_left]. apply IH. destruct (Py.mem _ _); [done|].
  apply elem_of_app. now left.
Qed.

Lemma add_keys_all (d : dict) cols k :
  k ∈ map fst d ->
  k ∈ fold_left (fun cols kv => if Py.mem (fst kv) cols then cols else cols ++ [fst kv])
                d cols.
Proof.
  revert cols. induction d as [|kv d IH]; intros cols Hk;
    [by apply elem_of_nil in Hk|].
  cbn [map] in Hk. cbn [fold_left]. apply elem_of_cons in Hk as [->|Hk].
  - apply add_keys_keeps. destruct (Py.mem _ _) eqn:Hm.
    + now apply mem_true_elem.
    + apply elem_of_app. right. left.
  - now apply IH.
Qed.

Lemma add_keys_nodup (d : dict) cols :
  NoDup cols ->
  NoDup (fold_left (fun cols kv => if Py.mem (fst kv) cols then cols else cols ++ [fst kv])
                   d cols).
Proof.
  revert cols. induction d as [|kv d IH]; intros cols Hnd; [done|].
  cbn [fold_left]. apply IH. destruct (Py.mem _ _) eqn:Hm; [done|].
  apply NoDup_app. split; [done|]. split; [|apply NoDup_singleton].
  intros c Hc ->%list_elem_of_singleton. now apply mem_false_not_elem in Hm.
Qed.

Lemma add_keys_known (d : dict) cols :
  (forall k, k ∈ map fst d -> k ∈ cols) ->
  fold_left (fun cols kv => if Py.mem (fst kv) cols then cols else cols ++ [fst kv])
            d cols = cols.
Proof.
  induction d as [|kv d IH]; intros Hk; [done|].
  cbn [fold_left]. rewrite mem_elem by (apply Hk; left).
  apply IH. intros k Hin. apply Hk. now right.
Qed.

Lemma keys_fold_keeps (data : list dict) cols c :
  c ∈ cols ->
  c ∈ fold_left
        (fun cols d =>
           fold_left
             (fun cols kv => if Py.mem (fst kv) cols then cols else cols ++ [fst kv])
             d cols)
        data cols.
Proof.
  revert cols. induction data as [|d data IH]; intros cols Hc; [done|].
  cbn [fold_left]. apply IH. now apply add_keys_keeps.
Qed.

Lemma keys_fold_all (data : list dict) cols d k :
  d ∈ data -> k ∈ map fst d ->
  k ∈ fold_left
        (fun cols d =>
           fold_left
             (fun cols kv => if Py.mem (fst kv) cols then cols else cols ++ [fst kv])
             d cols)
        data cols.
Proof.
  revert cols. induction data as [|d' data IH]; intros cols Hd Hk;
    [by apply elem_of_nil in Hd|].
  cbn [fold_left]. apply elem_of_cons in Hd as [->|Hd].
  - apply keys_fold_keeps. now apply add_keys_all.
  - now apply IH.
Qed.

Lemma keys_fold_nodup (data : list dict) cols :
  NoDup cols ->
  NoDup (fold_left
           (fun cols d =>
              fold_left
                (fun cols kv => if Py.mem (fst kv) cols then cols else cols ++ [fst kv])
                d cols)
           data cols).
Proof.
  revert cols. induction data as [|d data IH]; intros cols Hnd; [done|].
  cbn [fold_left]. apply IH. now apply add_keys_nodup.
Qed.

Lemma keys_fold_known (data : list dict) cols :
  (forall d k, d ∈ data -> k ∈ map fst d -> k ∈ cols) ->
  fold_left
    (fun cols d =>
       fold_left
         (fun cols kv => if Py.mem (fst kv) cols then cols else cols ++ [fst kv])
         d cols)
    data cols = cols.
Proof.
  induction data as [|d data IH]; intros Hk; [done|].
  cbn [fold_left]. rewrite add_keys_known by (intros k; apply Hk; left).
  apply IH. intros d' k Hd. apply Hk. now right.
Qed.

Lemma add_keys_fresh (d : dict) cols :
  NoDup (cols ++ map fst d) ->
  fold_left (fun cols kv => if Py.mem (fst kv) cols then cols else cols ++ [fst kv])
            d cols = cols ++ map fst d.
Proof.
  revert cols. induction d as [|kv d IH]; intros cols Hnd.
  - cbn. now rewrite app_nil_r.
  - cbn [map fold_left] in *.
    destruct (Py.mem (fst kv) cols) eqn:Hm.
    + apply mem_true_elem in Hm. apply NoDup_app in Hnd as (_ & Hdisj & _).
      destruct (Hdisj _ Hm). left.
    + rewrite IH; rewrite <- app_assoc; done.
Qed.

(** Records that all have the keys of the first one, in any order, give the
    columns of the first one. *)
Lemma keys_of_uniform (d : dict) (data : list dict) :
  NoDup (map fst d) ->
  (forall d' k, d' ∈ data -> k ∈ map fst d' -> k ∈ map fst d) ->
  keys_of (d :: data) = map fst d.
Proof.
  intros Hnd Hsame. unfold keys_of. cbn [fold_left].
  rewrite add_keys_fresh by done. cbn [app]. now apply keys_fold_known.
Qed.

Section more.
Context `{Numeric}.

Lemma field_of_cell (d : dict) (c : string) :
  field_of (cell_of d c)
  = match dict_get c d with Some (Some s) => s | _ => "" end.
Proof. unfold cell_of. now destruct (dict_get c d) as [[s|]|]. Qed.

(** X13.  A first save writes one line per record, in order, under the keys
    of the records in order of first appearance: every key of every record
    is a column, no column comes twice, and the field of a record under a
    column is its value, empty when the value is [None] or the record lacks
    the key. *)
Theorem first_save_writes_records (data : list dict) (filename : string)
    (fs : gmap string File) :
  data <> [] ->
  fs !! filename = None ->
  exists f,
    save_to_csv data filename fs !! filename = Some f /\
    NoDup (header f) /\
    (forall d k, d ∈ data -> k ∈ map fst d -> k ∈ header f) /\
    length (lines f) = length data /\
    forall i d k c,
      data !! i = Some d -> header f !! k = Some c ->
      exists line,
        lines f !! i = Some line /\
        line !! k = Some (match dict_get c d with Some (Some s) => s | _ => "" end).
Proof.
  intros Hdata Hnew. exists (to_csv (of_records data)). split.
  { unfold save_to_csv. destruct data; [done|]. rewrite Hnew.
    apply lookup_insert_eq. }
  cbn [to_csv of_records header lines columns rows]. split.
  { apply keys_fold_nodup, NoDup_nil_2. }
  split. { intros d k. apply keys_fold_all. }
  split. { now rewrite !length_map. }
  intros i d k c Hd Hc. eexists. split.
  - rewrite !list_lookup_fmap, Hd. reflexivity.
  - rewrite !list_lookup_fmap, Hc. cbn. now rewrite field_of_cell.
Qed.

Lemma keep_first_length cols subset seen rs :
  length (keep_first cols subset seen rs) <= length rs.
Proof.
  revert seen. induction rs as [|r rs IH]; intros seen; [done|].
  cbn [keep_first]. destruct (bool_decide _); cbn [length].
  - specialize (IH seen). lia.
  - specialize (IH (row_key cols subset r :: seen)). lia.
Qed.

Lemma keep_first_sub cols subset seen rs r :
  r ∈ keep_first cols subset seen rs -> r ∈ rs.
Proof.
  revert seen. induction rs as [|r' rs IH]; intros seen; [done|].
  cbn [keep_first]. destruct (bool_decide _).
  - intros Hr. right. now apply (IH seen).
  - intros [->|Hr]%elem_of_cons; [left | right; now apply (IH _ Hr)].
Qed.

Lemma keep_first_head cols subset r rs :
  keep_first cols subset [] (r :: rs)
  = r :: keep_first cols subset [row_key cols subset r] rs.
Proof. cbn [keep_first]. now rewrite bool_decide_eq_false_2 by apply not_elem_of_nil. Qed.

(** X14.  A save over an existing file, for records with a key column: the
    columns of the file stay first and in order, the columns only the
    records have follow; every line has a field for every column; the file
    has at most the lines it had plus one per record, and never loses its
    first line's place to a record. *)
Theorem merge_keeps_shape (data : list dict) (filename : string)
    (fs : gmap string File) (f : File) :
  data <> [] ->
  fs !! filename = Some f ->
  is_empty (key_columns (of_records data)) = false ->
  exists f',
    save_to_csv data filename fs !! filename = Some f' /\
    header f' = header f
                ++ List.filter (fun c => negb (Py.mem c (header f))) (keys_of data) /\
    (forall line, line ∈ lines f' -> length line = length (header f')) /\
    length (lines f') <= length (lines f) + length data /\
    (lines f <> [] -> 0 < length (lines f')).
Proof.
  intros Hdata Hold Hkeys.
  exists (to_csv (drop_duplicates (key_columns (of_records data))
                    (concat (read_csv f) (of_records data)))).
  split.
  { unfold save_to_csv. destruct data; [done|]. rewrite Hold, Hkeys.
    cbn [negb]. apply lookup_insert_eq. }
  cbn [to_csv drop_duplicates concat header lines columns rows read_csv
       of_records].
  split; [reflexivity|]. split; [|split].
  - intros line (r & -> & Hr)%list_elem_of_fmap.
    apply keep_first_sub in Hr. rewrite length_map.
    apply elem_of_app in Hr as [Hr|Hr]; unfold reindex in Hr;
      apply list_elem_of_fmap in Hr as (r0 & -> & _); now rewrite length_map.
  - rewrite length_map. etransitivity; [apply keep_first_length|].
    unfold reindex. rewrite length_app, !length_map. cbn [rows].
    pose proof (read_csv_len f) as Hf. pose proof (of_records_len data) as Hd.
    unfold len in Hf, Hd. lia.
  - intros Hlines. rewrite length_map.
    pose proof (read_csv_len f) as Hf. unfold len in Hf.
    destruct (reindex _ (read_csv f) ++ _) as [|r rs] eqn:Hrows.
    + apply (f_equal length) in Hrows. unfold reindex in Hrows.
      rewrite length_app, !length_map, Hf in Hrows.
      destruct (lines f); [done | cbn in Hrows; lia].
    + rewrite keep_first_head. cbn [length]. lia.
Qed.

(** X15.  The files of the scraper are merged on these keys: standings on
    year, league and team; player leaders on year, league, team, player and
    statistic; team leaders on year, league, team and statistic. *)
Theorem merge_keys_by_kind :
  (forall r rs,
     key_columns (of_records (map Scraper.standing_dict (r :: rs)))
     = ["Year"; "League"; "Team"]) /\
  (forall r rs,
     key_columns (of_records (map Scraper.leader_dict (r :: rs)))
     = ["Year"; "League"; "Team"; "Player_Name"; "Statistic"]) /\
  (forall r rs,
     key_columns (of_records (map Scraper.team_leader_dict (r :: rs)))
     = ["Year"; "League"; "Team"; "Statistic"]).
Proof.
  repeat split; intros r rs; unfold key_columns, has_column, of_records;
    cbn [columns map]; rewrite keys_of_uniform; try reflexivity;
    try (apply (bool_decide_unpack _); vm_compute; exact I);
    intros d' k (r' & -> & _)%list_elem_of_fmap Hk; exact Hk.
Qed.

End more.

End SinkMore.

(** ** The sink on the files the scraper writes *)

Module SinkDefect.
Import Pandas Sink SinkFacts SinkMore Aux.

Lemma dict_get_key (k : string) (d : dict) (v : option string) :
  dict_get k d = Some v -> k ∈ map fst d.
Proof.
  induction d as [|[k' v'] d IH]; [done|]. cbn [dict_get map fst].
  destruct (String.eqb_spec k k') as [->|_]; [left | right; auto].
Qed.

Lemma index_of_elem (c : string) (cols : list string) :
  c ∈ cols -> exists i, index_of c cols = Some i.
Proof.
  induction cols as [|c' cols IH]; [by intros ?%elem_of_nil|].
  cbn [index_of]. destruct (String.eqb c c') eqn:Hc; [eauto|].
  intros [->|Hin]%elem_of_cons; [by rewrite String.eqb_refl in Hc|].
  destruct (IH Hin) as [i ->]. eauto.
Qed.

Section defect.
Context `{Numeric}.

(** Rows whose keys are new and pairwise distinct are all kept, whatever
    comes before them. *)
Lemma keep_first_fresh_tail cols subset seen xs ys :
  NoDup (map (row_key cols subset) ys) ->
  (forall y, y ∈ ys -> row_key cols subset y ∉ seen) ->
  (forall x y, x ∈ xs -> y ∈ ys -> row_key cols subset y <> row_key cols subset x) ->
  keep_first cols subset seen (xs ++ ys) = keep_first cols subset seen xs ++ ys.
Proof.
  intros Hnd. revert seen. induction xs as [|x xs IH]; intros seen Hseen Hxs.
  - cbn [app keep_first]. rewrite <- (app_nil_r ys) at 1.
    apply keep_first_self; [done | done | by intros y ?%elem_of_nil].
  - cbn [app keep_first]. destruct (bool_decide _).
    + apply IH; [done|]. intros x' y Hx'. apply Hxs. now right.
    + cbn [app]. f_equal. apply IH.
      * intros y Hy [Heq|Hin]%elem_of_cons; [|by apply (Hseen y)].
        apply (Hxs x y); [left | done | done].
      * intros x' y Hx'. apply Hxs. now right.
Qed.

Lemma reindexed_lookup (cols cols' : list string) (c : string) (i : nat)
    (r : list value) :
  index_of c cols = Some i -> cols' = cols ->
  default NA (map (fun c => match index_of c cols' with
                            | Some j => default NA (r !! j)
                            | None => NA
                            end) cols !! i)
  = default NA (r !! i).
Proof.
  intros Hi ->. rewrite list_lookup_fmap, (index_of_lookup _ _ _ Hi). cbn.
  now rewrite Hi.
Qed.

(** The frame of the records, laid out on its own columns, is itself. *)
Lemma reindex_of_records (data : list dict) :
  reindex (columns (of_records data)) (of_records data) = rows (of_records data).
Proof.
  unfold reindex. cbn [of_records columns rows]. rewrite map_map.
  apply map_ext. intros d. apply map_ext_in. intros c Hc%list_elem_of_In.
  destruct (index_of_elem _ _ Hc) as [j Hj]. rewrite Hj.
  now rewrite list_lookup_fmap, (index_of_lookup _ _ _ Hj).
Qed.

(** The year of a record as the new frame holds it, and as the frame read
    from the file holds it. *)
Lemma year_in_new_frame (data : list dict) (d : dict) (i : nat) :
  year_reads_as_number d = true ->
  keys_of data !! i = Some "Year" ->
  is_str (default NA (map (cell_of d) (keys_of data) !! i)) = true.
Proof.
  intros Hd Hi. rewrite list_lookup_fmap, Hi. cbn. unfold cell_of.
  unfold year_reads_as_number in Hd. now destruct (dict_get "Year" d) as [[y|]|].
Qed.

Lemma year_field (data : list dict) (d : dict) (i : nat) :
  year_reads_as_number d = true ->
  keys_of data !! i = Some "Year" ->
  exists y n,
    field_at i (map field_of (map (cell_of d) (keys_of data))) = y /\
    is_na_field y = false /\ to_number y = Some n.
Proof.
  intros Hd Hi. unfold field_at. rewrite !list_lookup_fmap, Hi. cbn.
  rewrite field_of_cell. unfold year_reads_as_number in Hd.
  destruct (dict_get "Year" d) as [[y|]|]; try done.
  apply andb_true_iff in Hd as [Hna Hnum]. apply negb_true_iff in Hna.
  apply bool_decide_eq_true in Hnum as [n Hn]. eauto.
Qed.

Lemma year_in_read_frame (data : list dict) (r : list value) (i : nat) :
  forallb year_reads_as_number data = true ->
  keys_of data !! i = Some "Year" ->
  r ∈ rows (read_csv (to_csv (of_records data))) ->
  is_str (default NA (r !! i)) = false.
Proof.
  intros Hdata Hi. cbn [read_csv to_csv of_records rows lines header columns].
  rewrite forallb_forall in Hdata.
  intros (line & -> & (r1 & -> & (d & -> & Hd)%list_elem_of_fmap)
                       %list_elem_of_fmap)%list_elem_of_fmap.
  rewrite list_lookup_imap, list_lookup_imap, Hi. cbn.
  assert (numeric_column i
            (map (map field_of) (map (fun d0 => map (cell_of d0) (keys_of data)) data))
          = true) as ->.
  { unfold numeric_column. apply forallb_forall.
    intros line (r2 & <- & (d' & <- & Hd')%in_map_iff)%in_map_iff.
    destruct (year_field data d' i) as (y & n & -> & Hna & Hn);
      [apply Hdata, Hd' | done|].
    rewrite Hn. apply orb_true_iff. right. now apply bool_decide_eq_true. }
  destruct (year_field data d i) as (y & n & -> & Hna & Hn);
    [apply Hdata; now apply list_elem_of_In | done|].
  unfold read_field. now rewrite Hna, Hn.
Qed.

(** C1.  Saving to the same file twice a dataset as the scraper writes it,
    with a year in every record that reads back as a number and with
    pairwise distinct key tuples: the first save writes one line per
    record; the second save, over a file that holds exactly the same
    records, recognises none of them as a duplicate, because the year of
    the file is a number and the year of the record a text, and leaves a
    file with more lines than the original, up to twice as many. *)
Theorem year_column_resave_grows (data : list dict) (filename : string)
    (fs : gmap string File) :
  data <> [] ->
  fs !! filename = None ->
  forallb year_reads_as_number data = true ->
  NoDup (map (row_key (columns (of_records data)) (key_columns (of_records data)))
             (rows (of_records data))) ->
  exists f1 f2,
    save_to_csv data filename fs !! filename = Some f1 /\
    save_to_csv data filename (save_to_csv data filename fs) !! filename = Some f2 /\
    length (lines f1) = length data /\
    (exists kept, kept <> [] /\ lines f2 = kept ++ lines f1) /\
    length (lines f1) < length (lines f2) /\
    length (lines f2) <= 2 * length data.
Proof.
  intros Hdata Hnew Hyear Hnd.
  set (df := of_records data) in *. set (existing := read_csv (to_csv df)).
  assert (save_to_csv data filename fs = <[filename := to_csv df]> fs) as Hfirst.
  { unfold save_to_csv. destruct data; [done|]. now rewrite Hnew. }
  assert ("Year" ∈ columns df) as Hcol.
  { destruct data as [|d data]; [done|]. cbn [forallb] in Hyear.
    apply andb_true_iff in Hyear as [Hd _]. unfold year_reads_as_number in Hd.
    destruct (dict_get "Year" d) as [v|] eqn:Hget; [|done].
    apply (keys_fold_all _ _ d); [left | now apply (dict_get_key _ _ v)]. }
  destruct (index_of_elem _ _ Hcol) as [i Hi].
  pose proof (index_of_lookup _ _ _ Hi) as Hlook.
  assert (exists rest, key_columns df = "Year" :: rest) as [rest Hkeys].
  { unfold key_columns, KEY_COLUMNS. cbn [List.filter].
    unfold has_column at 1. rewrite (mem_elem _ _ Hcol). eauto. }
  assert (columns existing = columns df) as Hcols by reflexivity.
  exists (to_csv df),
    (to_csv (drop_duplicates (key_columns df) (concat existing df))).
  split; [rewrite Hfirst; apply lookup_insert_eq|]. split.
  { rewrite Hfirst. unfold save_to_csv at 1. destruct data; [done|].
    rewrite lookup_insert_eq. fold df existing. rewrite Hkeys.
    cbn [is_empty negb]. apply lookup_insert_eq. }
  assert (length (lines (to_csv df)) = length data) as Hone.
  { cbn [to_csv lines]. rewrite length_map. apply of_records_len. }
  split; [exact Hone|]. rewrite Hone.
  rewrite concat_same_columns by done.
  cbn [to_csv lines drop_duplicates columns rows]. rewrite Hcols.
  pose proof (reindex_of_records data) as Hself. fold df in Hself.
  rewrite Hself.
  assert (forall r, hd NA (row_key (columns df) (key_columns df) r)
                    = default NA (r !! i)) as Hhead.
  { intros r. rewrite Hkeys. unfold row_key. cbn [map hd]. now rewrite Hi. }
  rewrite keep_first_fresh_tail.
  - assert (length (reindex (columns df) existing) = length data) as Hold.
    { unfold reindex. rewrite length_map, <- Hone. apply (read_csv_len (to_csv df)). }
    assert (length (rows df) = length data) as Hadd by apply of_records_len.
    pose proof (keep_first_length (columns df) (key_columns df) []
                  (reindex (columns df) existing)) as Hle.
    rewrite Hold in Hle.
    assert (keep_first (columns df) (key_columns df) []
              (reindex (columns df) existing) <> []) as Hkept.
    { destruct (reindex (columns df) existing) as [|x xs] eqn:Hx.
      - destruct data; [done | cbn in Hold; lia].
      - now rewrite keep_first_head. }
    rewrite map_app, length_app, !length_map, Hadd. split; [|split; [|lia]].
    + eexists. split; [|reflexivity]. intros Hnil%(f_equal length).
      rewrite length_map in Hnil.
      destruct (keep_first _ _ _ _); [done | discriminate].
    + destruct (keep_first _ _ _ _); [done | cbn [length]; lia].
  - exact Hnd.
  - intros y _. apply not_elem_of_nil.
  - intros x y Hx Hy Heq. apply (f_equal (hd NA)) in Heq.
    rewrite !Hhead in Heq. unfold reindex in Hx.
    apply list_elem_of_fmap in Hx as (x0 & -> & Hx0).
    rewrite (reindexed_lookup _ _ "Year" i x0 Hi Hcols) in Heq.
    assert (is_str (default NA (y !! i)) = true) as Hstr.
    { cbn [of_records rows] in Hy.
      apply list_elem_of_fmap in Hy as (d & -> & Hd).
      apply year_in_new_frame; [|done].
      rewrite forallb_forall in Hyear. now apply Hyear, list_elem_of_In. }
    pose proof (year_in_read_frame data x0 i Hyear Hlook Hx0) as Hnum.
    congruence.
Qed.

End defect.

(** C1, witness: the two standings records of 1901, as the scraper saves
    them; their file has two lines after the first save and four after the
    second. *)
Lemma year_column_resave_grows_witness :
  (exists f1 f2,
     Sink.save_to_csv MoreExamples.standings_1901 "AL_Team_Standings.csv" ∅
       !! "AL_Team_Standings.csv" = Some f1 /\
     Sink.save_to_csv MoreExamples.standings_1901 "AL_Team_Standings.csv"
       (Sink.save_to_csv MoreExamples.standings_1901 "AL_Team_Standings.csv" ∅)
       !! "AL_Team_Standings.csv" = Some f2 /\
     length (lines f1) = length MoreExamples.standings_1901 /\
     (exists kept, kept <> [] /\ lines f2 = kept ++ lines f1) /\
     length (lines f1) < length (lines f2) /\
     length (lines f2) <= 2 * length MoreExamples.standings_1901) /\
  (length <$> (lines <$> Sink.save_to_csv MoreExamples.standings_1901
                           "AL_Team_Standings.csv" ∅
                         !! "AL_Team_Standings.csv")) = Some 2 /\
  (length <$> (lines <$> Sink.save_to_csv MoreExamples.standings_1901
                           "AL_Team_Standings.csv"
                           (Sink.save_to_csv MoreExamples.standings_1901
                              "AL_Team_Standings.csv" ∅)
                         !! "AL_Team_Standings.csv")) = Some 4.
Proof.
  split; [|split; vm_compute; reflexivity].
  apply (year_column_resave_grows (H := IntegerFields.integers)
           MoreExamples.standings_1901 "AL_Team_Standings.csv" ∅).
  - discriminate.
  - reflexivity.
  - reflexivity.
  - apply (bool_decide_unpack _). vm_compute. exact I.
Defined.

End SinkDefect.

(** ** More on the normalizer *)

Module CleanerMore.
Import Pandas Cleaner PyFacts PyMore SinkFacts SinkMore Aux.

Section more.
Context `{Numeric}.

Lemma set_series_shaped cols n df c s :
  shaped cols n df -> shaped cols n (set_series df c s).
Proof.
  intros (Hc & Hn & Hr). unfold set_series.
  destruct (index_of c (columns df)) as [i|]; [|done].
  split; [done|]. split.
  - unfold len in *. cbn [rows]. now rewrite length_imap.
  - cbn [rows]. apply Forall_forall.
    intros r (k & r0 & -> & Hk)%elem_of_lookup_imap.
    rewrite length_insert. rewrite Forall_forall in Hr. apply Hr.
    now apply list_elem_of_lookup_2 in Hk.
Qed.

Lemma apply_column_shaped cols n df f c :
  shaped cols n df -> shaped cols n (apply_column f c df).
Proof. apply set_series_shaped. Qed.

Lemma dropna_all_shaped cols n df :
  shaped cols n df -> shaped cols n (dropna_all df).
Proof.
  intros (Hc & Hn & Hr). split; [done|]. split.
  - unfold len in *. cbn [dropna_all rows].
    etransitivity; [apply filter_length_le | done].
  - cbn [dropna_all rows]. apply Forall_forall. intros r [Hin _]%list_elem_of_In%filter_In.
    rewrite Forall_forall in Hr. now apply Hr, list_elem_of_In.
Qed.

Lemma drop_duplicates_shaped cols n df keys :
  shaped cols n df -> shaped cols n (drop_duplicates keys df).
Proof.
  intros (Hc & Hn & Hr). split; [done|]. split.
  - unfold len in *. cbn [drop_duplicates rows].
    etransitivity; [apply keep_first_length | done].
  - cbn [drop_duplicates rows]. apply Forall_forall.
    intros r Hin%keep_first_sub.
    rewrite Forall_forall in Hr. now apply Hr.
Qed.

Lemma for_columns_shaped cols n names body df log :
  (forall col df log, shaped cols n df -> shaped cols n (fst (body col df log))) ->
  shaped cols n df -> shaped cols n (fst (for_columns names body df log)).
Proof.
  intros Hbody. unfold for_columns. revert df log.
  induction names as [|col names IH]; intros df log Hdf; [done|].
  cbn [fold_left].
  rewrite (surjective_pairing (body col _ _)). apply IH. now apply Hbody.
Qed.

Lemma step_empty_rows_shaped cols n df log :
  shaped cols n df -> shaped cols n (fst (step_empty_rows df log)).
Proof. apply dropna_all_shaped. Qed.

Lemma step_duplicates_shaped cols n df log :
  shaped cols n df -> shaped cols n (fst (step_duplicates df log)).
Proof.
  intros Hdf. unfold step_duplicates.
  destruct (negb _); [now apply drop_duplicates_shaped | done].
Qed.

Lemma step_special_shaped cols n df log :
  shaped cols n df -> shaped cols n (fst (step_special df log)).
Proof.
  apply for_columns_shaped. intros col df' log' Hdf.
  destruct (is_object _); [|done].
  cbv beta zeta. destruct (0 <? _); [now apply apply_column_shaped | done].
Qed.

Lemma step_question_marks_shaped cols n df log :
  shaped cols n df -> shaped cols n (fst (step_question_marks df log)).
Proof.
  apply for_columns_shaped. intros col df' log' Hdf.
  destruct (has_column _ _); [|done].
  cbv beta zeta. destruct (0 <? _); [now apply apply_column_shaped | done].
Qed.

Lemma placeholders_loop_shaped cols n names df k :
  shaped cols n df ->
  shaped cols n
    (fst (fold_left
            (fun st col =>
               let before :=
                 count (fun v => String.eqb (Py.strip (astype_str v)) "--")
                       (series (fst st) col) in
               if 0 <? before
               then (apply_column clean_placeholder_values col (fst st),
                     snd st + before)
               else st)
            names (df, k))).
Proof.
  revert df k. induction names as [|col names IH]; intros df k Hdf; [done|].
  cbn [fold_left fst snd]. cbv beta zeta. destruct (0 <? _).
  - apply IH. now apply apply_column_shaped.
  - now apply IH.
Qed.

Lemma step_placeholders_shaped cols n df log :
  shaped cols n df -> shaped cols n (fst (step_placeholders df log)).
Proof.
  intros Hdf. unfold step_placeholders.
  pose proof (placeholders_loop_shaped cols n (columns df) df 0 Hdf) as Hloop.
  destruct (fold_left _ _ _) as [df' k]. exact Hloop.
Qed.

Lemma step_asterisks_shaped cols n df log :
  shaped cols n df -> shaped cols n (fst (step_asterisks df log)).
Proof.
  apply for_columns_shaped. intros col df' log' Hdf.
  destruct (has_column _ _ && _); [|done].
  cbv beta zeta. destruct (0 <? _); [now apply apply_column_shaped | done].
Qed.

Lemma whitespace_loop_shaped cols n names df k :
  shaped cols n df ->
  shaped cols n
    (fst (fold_left
            (fun st col =>
               if is_object (series (fst st) col)
               then (apply_column clean_whitespace col (fst st), S (snd st))
               else st)
            names (df, k))).
Proof.
  revert df k. induction names as [|col names IH]; intros df k Hdf; [done|].
  cbn [fold_left fst snd]. destruct (is_object _).
  - apply IH. now apply apply_column_shaped.
  - now apply IH.
Qed.

Lemma step_whitespace_shaped cols n df log :
  shaped cols n df -> shaped cols n (fst (step_whitespace df log)).
Proof.
  intros Hdf. unfold step_whitespace.
  pose proof (whitespace_loop_shaped cols n (columns df) df 0 Hdf) as Hloop.
  destruct (fold_left _ _ _) as [df' k]. exact Hloop.
Qed.

Lemma step_decimal_shaped cols n df log :
  shaped cols n df -> shaped cols n (fst (step_decimal df log)).
Proof.
  apply for_columns_shaped. intros col df' log' Hdf.
  destruct (has_column _ _); [now apply apply_column_shaped | done].
Qed.

Lemma step_numeric_shaped cols n names df log :
  shaped cols n df -> shaped cols n (fst (step_numeric names df log)).
Proof.
  apply for_columns_shaped. intros col df' log' Hdf.
  destruct (has_column _ _); [now apply set_series_shaped | done].
Qed.

Lemma read_csv_shaped f : shaped (header f) (length (lines f)) (read_csv f).
Proof.
  split; [done|]. split; [now rewrite read_csv_len|].
  cbn [read_csv rows]. apply Forall_forall.
  intros r (line & -> & _)%list_elem_of_fmap. now rewrite !length_imap.
Qed.

Lemma clean_frame_shaped cols n df :
  shaped cols n df -> shaped cols n (fst (clean_frame df)).
Proof.
  intros H0. unfold clean_frame.
  pose proof (step_empty_rows_shaped cols n df [] H0) as H1.
  destruct (step_empty_rows df []) as [df1 log1].
  pose proof (step_duplicates_shaped cols n df1 log1 H1) as H2.
  destruct (step_duplicates df1 log1) as [df2 log2].
  pose proof (step_special_shaped cols n df2 log2 H2) as H3.
  destruct (step_special df2 log2) as [df3 log3].
  pose proof (step_question_marks_shaped cols n df3 log3 H3) as H4.
  destruct (step_question_marks df3 log3) as [df4 log4].
  pose proof (step_placeholders_shaped cols n df4 log4 H4) as H5.
  destruct (step_placeholders df4 log4) as [df5 log5].
  pose proof (step_asterisks_shaped cols n df5 log5 H5) as H6.
  destruct (step_asterisks df5 log5) as [df6 log6].
  pose proof (step_whitespace_shaped cols n df6 log6 H6) as H7.
  destruct (step_whitespace df6 log6) as [df7 log7].
  pose proof (step_decimal_shaped cols n df7 log7 H7) as H8.
  destruct (step_decimal df7 log7) as [df8 log8].
  pose proof (step_numeric_shaped cols n numeric_columns df8 log8 H8) as H9.
  destruct (step_numeric numeric_columns df8 log8) as [df9 log9].
  now apply step_numeric_shaped.
Qed.

(** X16.  The normalizer keeps the shape of a file: the cleaned file has the
    header of the original, no more lines than the original, and a field
    for every column in every line. *)
Theorem clean_csv_keeps_shape (f : File) :
  header (fst (clean_csv f)) = header f /\
  length (lines (fst (clean_csv f))) <= length (lines f) /\
  forall line, line ∈ lines (fst (clean_csv f)) ->
               length line = length (header f).
Proof.
  unfold clean_csv.
  pose proof (clean_frame_shaped _ _ _ (read_csv_shaped f)) as (Hc & Hn & Hr).
  destruct (clean_frame (read_csv f)) as [df log]. cbn [fst] in *.
  cbn [to_csv header lines]. split; [done|]. split.
  - rewrite length_map. exact Hn.
  - intros line (r & -> & Hin)%list_elem_of_fmap. rewrite length_map.
    rewrite Forall_forall in Hr. now apply Hr.
Qed.

(** X17.  The numeric conversion leaves no text: every cell of the result is
    a number or missing, so the column is no longer of object dtype, and
    the column keeps its length. *)
Theorem converted_column_is_numeric (s : list value) :
  length (convert_to_numeric s) = length s /\
  (forall v, v ∈ convert_to_numeric s -> is_str v = false) /\
  series_dtype (convert_to_numeric s) <> object.
Proof.
  assert (forall v, v ∈ convert_to_numeric s -> is_str v = false) as Hnum.
  { unfold convert_to_numeric.
    intros v (v1 & -> & (v2 & -> & (v3 & -> & _)%list_elem_of_fmap)
                %list_elem_of_fmap)%list_elem_of_fmap.
    unfold clean_placeholder_values.
    destruct v3 as [|n|t]; [done| |].
    - destruct (_ || _); [done|]. cbn. now destruct (to_number _).
    - destruct (_ || _); [done|]. cbn. now destruct (to_number _). }
  split; [unfold convert_to_numeric; now rewrite !length_map|].
  split; [exact Hnum|]. unfold series_dtype.
  destruct (existsb is_str (convert_to_numeric s)) eqn:Hex.
  - apply existsb_exists in Hex as (v & Hin%list_elem_of_In & Hv).
    rewrite Hnum in Hv; done.
  - now destruct (forallb _ _).
Qed.

(** X18.  Cleaning a name leaves no asterisk in it. *)
Theorem cleaned_name_has_no_asterisk (v : value) (s : string) :
  clean_asterisks v = Str s -> Py.contains "*" s = false.
Proof.
  destruct v as [|n|t]; [done| |]; intros [= <-];
    apply strip_char_free, remove_char_free.
Qed.

Lemma endswith_append p s : Py.endswith p (s +:+ p) = true.
Proof.
  induction s as [|a s IH].
  - rewrite append_nil. destruct p; cbn [Py.endswith]; now rewrite String.eqb_refl.
  - rewrite append_cons. cbn [Py.endswith]. rewrite IH. apply orb_true_r.
Qed.

Lemma init_append_char s a : init (s +:+ String a "") = s.
Proof.
  induction s as [|b s IH]; [now rewrite append_nil|].
  rewrite append_cons. cbn [init]. rewrite IH.
  destruct s as [|c s]; [now rewrite append_nil|]. now rewrite append_cons.
Qed.

Lemma no_space_append s t :
  no_space s = true -> no_space t = true -> no_space (s +:+ t) = true.
Proof.
  intros Hs Ht. induction s as [|a s IH]; [now rewrite append_nil|].
  rewrite append_cons. cbn [no_space] in *.
  apply andb_true_iff in Hs as [-> Hs]. auto.
Qed.

(** X19.  A value without blanks that ends in a question mark loses that one
    question mark and nothing else. *)
Theorem one_question_mark_removed (s : string) :
  no_space s = true ->
  clean_question_marks (Str (s +:+ "?")) = Str s.
Proof.
  intros Hs. unfold clean_question_marks. cbn [astype_str].
  rewrite (strip_no_space (s +:+ "?")) by now apply no_space_append.
  now rewrite endswith_append, init_append_char, strip_no_space.
Qed.

(** X20.  A decimal written with a leading comma or a leading dot gets a
    leading zero and a dot. *)
Theorem leading_separator_standardized (s : string) :
  no_space s = true -> s <> "" ->
  standardize_decimal_format (Str ("," +:+ s)) = Str ("0." +:+ s) /\
  standardize_decimal_format (Str ("." +:+ s)) = Str ("0." +:+ s).
Proof.
  intros Hs Hne. destruct s as [|a s]; [done|].
  unfold standardize_decimal_format. cbn [astype_str].
  rewrite !strip_no_space by (rewrite append_cons, append_nil; exact Hs).
  rewrite !append_cons, !append_nil. split; reflexivity.
Qed.

End more.

End CleanerMore.

(** ** More on the scraper's main loop *)

Module ScraperMore.
Import Pandas Scraper Aux.

Section more.
Context `{Numeric}.

Lemma save_to_csv_other (data : list dict) (filename g : string)
    (fs : gmap string File) :
  g <> filename -> Sink.save_to_csv data filename fs !! g = fs !! g.
Proof.
  intros Hg. unfold Sink.save_to_csv. destruct data as [|d data]; [done|].
  destruct (fs !! filename) as [f|]; [destruct (negb _)|];
    now rewrite lookup_insert_ne.
Qed.

Lemma process_table_other (y g : string) (fs : gmap string File) (t : Table) :
  g ∉ AL_FILES -> process_table y fs t !! g = fs !! g.
Proof.
  intros Hg. unfold process_table.
  assert (forall data name, name ∈ AL_FILES ->
            Sink.save_to_csv data name fs !! g = fs !! g) as Hsave.
  { intros data name Hname. apply save_to_csv_other. now intros ->. }
  assert (forall name, bool_decide (name ∈ AL_FILES) = true -> name ∈ AL_FILES)
    as Hin by (intros name; apply bool_decide_eq_true).
  destruct (title t) as [h2|]; [|done]. cbv zeta.
  repeat match goal with
         | |- Sink.save_to_csv _ _ _ !! _ = _ =>
             apply Hsave, Hin; vm_compute; reflexivity
         | |- (if ?b then _ else _) !! _ = _ => destruct b
         | |- ?fs !! _ = ?fs !! _ => reflexivity
         end.
Qed.

Lemma process_year_other (yi : YearInfo) (g : string) (fs fs' : gmap string File) :
  g ∉ AL_FILES -> process_year yi fs = Some fs' -> fs' !! g = fs !! g.
Proof.
  intros Hg. unfold process_year. destruct (page yi) as [ba_tables|]; [|done].
  cbn. intros [= <-]. revert fs.
  induction ba_tables as [|t ts IH]; intros fs; [done|].
  cbn [fold_left]. rewrite IH. now apply process_table_other.
Qed.

Lemma process_year_loads (yi : YearInfo) (fs : gmap string File) :
  is_Some (process_year yi fs) <-> loads yi = true.
Proof.
  unfold process_year, loads. destruct (page yi) as [p|]; cbn.
  - split; [done | intros _; eauto].
  - split; [intros [? ?]; done | done].
Qed.

Lemma year_step_other (st : Loop) (yi : YearInfo) (g : string) :
  g ∉ AL_FILES ->
  files (world (year_step st yi)) !! g = files (world st) !! g.
Proof.
  intros Hg. unfold year_step. destruct (bool_decide _); [done|].
  destruct (process_year yi (files (world st))) as [fs|] eqn:Hfs; [|done].
  cbn [world files]. now apply (process_year_other yi).
Qed.

Lemma loop_other (al_years : list YearInfo) (st : Loop) (g : string) :
  g ∉ AL_FILES ->
  files (world (fold_left year_step al_years st)) !! g = files (world st) !! g.
Proof.
  intros Hg. revert st. induction al_years as [|yi rest IH]; intros st; [done|].
  cbn [fold_left]. rewrite IH. now apply year_step_other.
Qed.

(** X21.  A run removes every file of the output directory whose name ends
    in ".csv" and, but for the seven files it saves to and the validation
    report it writes when it ends, leaves the directory as it was: a file of
    another name ends the run as it began, or is gone if it was a CSV. *)
Theorem main_touches_only_its_files (al_years : list YearInfo) (w : World)
    (g : string) :
  g ∉ AL_FILES -> g <> AL_REPORT ->
  files (world (main al_years w)) !! g
  = if Py.endswith ".csv" g then None else files w !! g.
Proof.
  intros Hg _. unfold main. cbn [world files]. rewrite loop_other by done.
  unfold start, clean_csv_files. cbn [world files].
  destruct (Py.endswith ".csv" g) eqn:Hcsv.
  - apply map_lookup_filter_None. right. intros f _. cbn [fst]. congruence.
  - destruct (files w !! g) as [f|] eqn:Hf.
    + apply map_lookup_filter_Some. done.
    + apply map_lookup_filter_None. now left.
Qed.

Lemma loop_summary (al_years : list YearInfo) (st : Loop) :
  NoDup (map year al_years) ->
  (forall yi, yi ∈ al_years -> year yi ∉ processed st) ->
  let st' := fold_left year_step al_years st in
  visited st' = visited st ++ map year al_years /\
  processed st'
    = processed st ∪ list_to_set (map year (List.filter loads al_years)) /\
  failed_years st'
    = failed_years st
      ++ map year (List.filter (fun yi => negb (loads yi)) al_years).
Proof.
  revert st. induction al_years as [|yi rest IH]; intros st Hnd Hnew.
  - cbn. rewrite !app_nil_r. repeat split; try done. set_solver.
  - cbn [map] in Hnd. apply NoDup_cons in Hnd as [Hyi Hnd].
    cbn [fold_left]. cbv zeta.
    assert (year yi ∉ processed st) as Hfresh by (apply Hnew; left).
    assert (forall yj, yj ∈ rest -> year yj ∉ processed (year_step st yi)) as Hrest.
    { intros yj Hj. unfold year_step. rewrite bool_decide_eq_false_2 by done.
      assert (year yj ∉ processed st) by (apply Hnew; now right).
      assert (year yj <> year yi).
      { intros Heq. apply Hyi. rewrite <- Heq. now apply list_elem_of_fmap_2. }
      destruct (process_year _ _); cbn [processed]; set_solver. }
    destruct (IH (year_step st yi) Hnd Hrest) as (Hv & Hp & Hf).
    rewrite Hv, Hp, Hf. clear IH Hv Hp Hf.
    unfold year_step. rewrite bool_decide_eq_false_2 by done.
    cbn [List.filter]. 
    destruct (process_year yi (files (world st))) as [fs|] eqn:Hfs.
    + assert (loads yi = true) as -> by (now apply (process_year_loads yi (files (world st)))).
      cbn [negb visited processed failed_years map list_to_set].
      rewrite <- app_assoc. repeat split; try done. set_solver.
    + assert (loads yi = false) as ->.
      { destruct (loads yi) eqn:Hl; [|done].
        apply (process_year_loads yi (files (world st))) in Hl as [? ?]. congruence. }
      cbn [negb visited processed failed_years map].
      rewrite <- !app_assoc. repeat split; done.
Qed.

(** X22.  A run over years that are pairwise distinct works on every year
    once and in order; it ends with exactly the years whose page loaded
    marked as processed and written to the checkpoint, and with the years
    whose page failed to load, in order, as the failed years. *)
Theorem main_outcome (al_years : list YearInfo) (w : World) :
  NoDup (map year al_years) ->
  let r := main al_years w in
  visited r = map year al_years /\
  processed r = list_to_set (map year (List.filter loads al_years)) /\
  failed_years r = map year (List.filter (fun yi => negb (loads yi)) al_years) /\
  checkpoint (world r) = Some (save_checkpoint (processed r)).
Proof.
  intros Hnd. cbv zeta. unfold main. cbn [visited processed failed_years world checkpoint].
  destruct (loop_summary al_years (start w) Hnd) as (Hv & Hp & Hf).
  { intros yi _. apply not_elem_of_empty. }
  rewrite Hv, Hp, Hf. cbn [start visited processed failed_years app].
  repeat split; try done.
  unfold load_checkpoint. cbn [checkpoint]. set_solver.
Qed.




End more.

End ScraperMore.

(** ** The further properties on the example inputs *)

Module MoreChecks.
Import Pandas IntegerFields Examples MoreExamples Aux.

(** X1, witness: the record of the 1901 row. *)
Lemma standings_identity_witness :
  Standings.Year boston_1901 = "1901" /\ Standings.League boston_1901 = "AL" /\
  Py.mem (Standings.Division boston_1901) DIVISIONS = true.
Proof.
  apply (StandingsMore.standings_identity [boston_row] "1901" "AL" boston_1901).
  vm_compute. left.
Defined.

(** X2, witness: the record of the 1901 row. *)
Lemma standings_team_named_witness :
  Py.truthy (Standings.Team boston_1901) = true /\
  Py.contains "All-Star" (Standings.Team boston_1901) = false /\
  Py.contains "World Series" (Standings.Team boston_1901) = false.
Proof.
  apply (StandingsMore.standings_team_named [boston_row] "1901" "AL" boston_1901).
  vm_compute. left.
Defined.

(** X3, witness: the record of the 1901 row, whose ties cell is absent. *)
Lemma standings_no_empty_values_witness :
  Standings.Wins boston_1901 <> Some "" /\ Standings.Losses boston_1901 <> Some "" /\
  Standings.Ties boston_1901 <> Some "" /\ Standings.Ties boston_1901 <> Some "0" /\
  Standings.WP boston_1901 <> Some "" /\ Standings.GB boston_1901 <> Some "" /\
  Standings.Payroll boston_1901 <> Some "".
Proof.
  apply (StandingsMore.standings_no_empty_values [boston_row] "1901" "AL" boston_1901).
  vm_compute. left.
Defined.

(** X4, witness: a payroll of "$1,250,000". *)
Lemma standings_payroll_plain_witness :
  Py.contains "$" "1250000" = false /\ Py.contains "," "1250000" = false.
Proof.
  apply (StandingsMore.standings_payroll_plain [payroll_row] "1998" "AL"
           boston_1998 "1250000").
  - vm_compute. left.
  - reflexivity.
Defined.

(** X5, witness: the five cells of the 1901 row. *)
Lemma narrow_row_values_witness :
  Standings.Payroll boston_1901 = None /\ Standings.Ties boston_1901 = None /\
  (length (row_cells boston_row) < 5 + 0 ->
   Standings.Wins boston_1901 = None /\ Standings.Losses boston_1901 = None /\
   Standings.WP boston_1901 = None /\ Standings.GB boston_1901 = None) /\
  (5 + 0 <= length (row_cells boston_row) ->
   Standings.Wins boston_1901
   = Standings.or_none (text_at (row_cells boston_row) (1 + 0)) /\
   Standings.Losses boston_1901
   = Standings.or_none (text_at (row_cells boston_row) (2 + 0)) /\
   Standings.WP boston_1901
   = Standings.or_none (text_at (row_cells boston_row) (3 + 0)) /\
   Standings.GB boston_1901
   = Standings.or_none (Standings.clean_gb (text_at (row_cells boston_row) (4 + 0)))).
Proof.
  apply (StandingsMore.narrow_row_values "1901" "AL" "Standard" "Boston" 0
           (row_cells boston_row) boston_1901).
  - cbn. lia.
  - vm_compute. left.
Defined.

(** X7, witness: the second record of the tied group. *)
Lemma leader_records_complete_witness :
  Leaders.Year ruth_new_york = "1919" /\ Leaders.League ruth_new_york = "AL" /\
  is_Some (Leaders.Statistic ruth_new_york) /\
  is_Some (Leaders.Value ruth_new_york) /\
  exists p, Leaders.Player_Name ruth_new_york = Some p /\ Py.contains "*" p = false.
Proof.
  apply (LeadersMore.leader_records_complete [leader_start; leader_next]
           "1919" "AL" ruth_new_york).
  vm_compute. right. left.
Defined.

(** X9, witness: a one-cell row and a three-cell row. *)
Lemma no_group_no_leaders_witness :
  Leaders.extract_player_leaders orphan_rows "1919" "AL" = [].
Proof.
  apply (LeadersMore.no_group_no_leaders orphan_rows "1919" "AL"). reflexivity.
Defined.

(** X10, witness: the hits leader, with a comma in its cell. *)
Lemma team_leader_records_complete_witness :
  TeamLeaders.Year hits_leader = "1919" /\ TeamLeaders.League hits_leader = "AL" /\
  Py.truthy (TeamLeaders.Statistic hits_leader) = true /\
  Py.truthy (TeamLeaders.Team hits_leader) = true /\
  Py.truthy (TeamLeaders.Value hits_leader) = true /\
  Py.contains "," (TeamLeaders.Value hits_leader) = false.
Proof.
  apply (TeamMore.team_leader_records_complete team_leader_table "1919" "AL"
           hits_leader).
  vm_compute. left.
Defined.

(** X11, witness: the hitting table of 1990. *)
Lemma positional_team_stats_witness :
  exists row c0 rest,
    row ∈ hitting_table /\ row_cells row = c0 :: rest /\
    dict_get "Team" hitting_record = Some (Some (TeamStats.team_of c0)) /\
    Py.truthy (TeamStats.team_of c0) = true /\
    forall i c,
      TeamStats.html_columns_of (row_cells hitting_header) !! i = Some c ->
      i < length (row_cells row) ->
      String.eqb (Py.upper c) "TEAM" = false ->
      dict_get c hitting_record = Some (TeamStats.cell_value (row_cells row) i).
Proof.
  apply (TeamMore.positional_team_stats hitting_table "1990" "AL" "Hitting"
           hitting_header hitting_record).
  - reflexivity.
  - reflexivity.
  - apply (bool_decide_unpack _). vm_compute. exact I.
  - vm_compute. left.
Defined.

(** X12, witness: the pitching table of 2003. *)
Lemma special_layout_columns_witness :
  map fst pitching_record
  = "Year" :: "League" :: "Team" :: List.tl TeamStats.EXPECTED_COLUMNS.
Proof.
  apply (TeamMore.special_layout_columns pitching_table "2003" "AL"
           pitching_record).
  - reflexivity.
  - vm_compute. left.
Defined.

(** X13, witness: the two teams saved to an empty directory. *)
Lemma first_save_writes_records_witness :
  exists f,
    Sink.save_to_csv two_teams "AL.csv" ∅ !! "AL.csv" = Some f /\
    NoDup (header f) /\
    (forall d k, d ∈ two_teams -> k ∈ map fst d -> k ∈ header f) /\
    length (lines f) = length two_teams /\
    forall i d k c,
      two_teams !! i = Some d -> header f !! k = Some c ->
      exists line,
        lines f !! i = Some line /\
        line !! k = Some (match dict_get c d with Some (Some s) => s | _ => "" end).
Proof.
  apply (SinkMore.first_save_writes_records two_teams "AL.csv" ∅).
  - discriminate.
  - reflexivity.
Defined.

(** X14, witness: the two teams saved over their own file. *)
Lemma merge_keeps_shape_witness :
  exists f',
    Sink.save_to_csv two_teams "AL.csv" {[ "AL.csv" := two_teams_file ]}
      !! "AL.csv" = Some f' /\
    header f' = header two_teams_file
                ++ List.filter (fun c => negb (Py.mem c (header two_teams_file)))
                     (keys_of two_teams) /\
    (forall line, line ∈ lines f' -> length line = length (header f')) /\
    length (lines f') <= length (lines two_teams_file) + length two_teams /\
    (lines two_teams_file <> [] -> 0 < length (lines f')).
Proof.
  apply (SinkMore.merge_keeps_shape two_teams "AL.csv"
           {[ "AL.csv" := two_teams_file ]} two_teams_file).
  - discriminate.
  - vm_compute. reflexivity.
  - reflexivity.
Defined.

(** X18, witness: a starred name. *)
Lemma cleaned_name_has_no_asterisk_witness : Py.contains "*" "Ruth" = false.
Proof.
  apply (CleanerMore.cleaned_name_has_no_asterisk (Str "Ruth*") "Ruth").
  reflexivity.
Defined.

(** X19, witness: a count with an editor's question mark. *)
Lemma one_question_mark_removed_witness :
  Cleaner.clean_question_marks (Str ("12" +:+ "?")) = Str "12".
Proof. apply (CleanerMore.one_question_mark_removed "12"). reflexivity. Defined.

(** X20, witness: a batting average written ",300" and ".300". *)
Lemma leading_separator_standardized_witness :
  Cleaner.standardize_decimal_format (Str ("," +:+ "300")) = Str ("0." +:+ "300") /\
  Cleaner.standardize_decimal_format (Str ("." +:+ "300")) = Str ("0." +:+ "300").
Proof.
  apply (CleanerMore.leading_separator_standardized "300");
    [reflexivity | discriminate].
Defined.

(** X21, witness: the CSV of another league is gone after a run. *)
Lemma main_touches_only_its_files_witness :
  Scraper.files (Scraper.world (Scraper.main twelve_seasons cluttered_world))
    !! "NL_Team_Standings.csv"
  = if Py.endswith ".csv" "NL_Team_Standings.csv" then None
    else Scraper.files cluttered_world !! "NL_Team_Standings.csv".
Proof.
  apply (ScraperMore.main_touches_only_its_files twelve_seasons cluttered_world
           "NL_Team_Standings.csv").
  - apply (bool_decide_unpack _). vm_compute. exact I.
  - unfold AL_REPORT. discriminate.
Defined.

(** X22, witness: the twelve seasons. *)
Lemma main_outcome_witness :
  Scraper.visited (Scraper.main twelve_seasons empty_world)
    = map Scraper.year twelve_seasons /\
  Scraper.processed (Scraper.main twelve_seasons empty_world)
    = list_to_set (map Scraper.year (List.filter loads twelve_seasons)) /\
  Scraper.failed_years (Scraper.main twelve_seasons empty_world)
    = map Scraper.year (List.filter (fun yi => negb (loads yi)) twelve_seasons) /\
  Scraper.checkpoint (Scraper.world (Scraper.main twelve_seasons empty_world))
    = Some (Scraper.save_checkpoint
              (Scraper.processed (Scraper.main twelve_seasons empty_world))).
Proof.
  apply (ScraperMore.main_outcome twelve_seasons empty_world).
  apply (bool_decide_unpack _). vm_compute. exact I.
Defined.

End MoreChecks.

(** ** The index of leagues and years *)

Module LeagueYearsFacts.
Import Py PyFacts PyMore LeagueYears.

Lemma rstrip_idempotent s : rstrip (rstrip s) = rstrip s.
Proof.
  induction s as [|a s IH]; [done|]. cbn [rstrip].
  destruct (is_space a && negb (truthy (rstrip s))) eqn:Hc; [done|].
  cbn [rstrip]. now rewrite IH, Hc.
Qed.

Lemma lstrip_rstrip_lstrip s : lstrip (rstrip (lstrip s)) = rstrip (lstrip s).
Proof.
  induction s as [|a s IH]; [done|]. cbn [lstrip].
  destruct (is_space a) eqn:Ha; [exact IH|].
  cbn [rstrip]. rewrite Ha. cbn [andb lstrip]. now rewrite Ha.
Qed.

Lemma strip_idempotent s : strip (strip s) = strip s.
Proof. unfold strip. now rewrite lstrip_rstrip_lstrip, rstrip_idempotent. Qed.

Lemma lookup_app name (d d' : Leagues) :
  lookup name (d ++ d')
  = match lookup name d with Some ys => Some ys | None => lookup name d' end.
Proof.
  induction d as [|[name' ys] d IH]; [done|]. cbn [app lookup].
  now destruct (String.eqb name name').
Qed.

Lemma lookup_none_keys name (d : Leagues) :
  lookup name d = None <-> name ∉ map fst d.
Proof.
  induction d as [|[name' ys] d IH]; cbn [lookup map fst].
  - split; [intros _; apply not_elem_of_nil | done].
  - rewrite not_elem_of_cons. destruct (String.eqb_spec name name') as [->|Hne].
    + split; [done | intros [[] _]; done].
    + rewrite IH. tauto.
Qed.

Lemma known_keys name (d : Leagues) : known name d = true <-> name ∈ map fst d.
Proof.
  unfold known. destruct (lookup name d) eqn:Hl.
  - split; [intros _ | done].
    destruct (decide (name ∈ map fst d)) as [|Hn]; [done|].
    apply lookup_none_keys in Hn. congruence.
  - apply lookup_none_keys in Hl. split; [done | intros; done].
Qed.

Lemma years_info_listed rows e :
  e ∈ years_info rows ->
  exists cell, listed cell = true /\ year e = strip (year_text cell)
               /\ url e = year_href cell.
Proof.
  unfold years_info.
  intros (cells & _ & He)%list_elem_of_In%in_flat_map.
  apply list_elem_of_In, list_elem_of_omap in He as (cell & _ & Hcell).
  exists cell. destruct (listed cell); [|done]. now injection Hcell as <-.
Qed.

Lemma banner_step_inv (P : string -> list YearLink -> Prop) d banner :
  (forall rows, sub_table banner = Some rows ->
     strip (banner_text banner) <> MENU_TITLE ->
     strip (banner_text banner) ∉ map fst d ->
     P (strip (banner_text banner)) (years_info rows)) ->
  (sub_table banner = None ->
     strip (banner_text banner) <> MENU_TITLE ->
     strip (banner_text banner) ∉ map fst d ->
     P (strip (banner_text banner)) []) ->
  (forall name ys, (name, ys) ∈ d -> P name ys) ->
  forall name ys, (name, ys) ∈ banner_step d banner -> P name ys.
Proof.
  intros Hsome Hnone Hd name ys. unfold banner_step.
  destruct (String.eqb_spec (strip (banner_text banner)) MENU_TITLE) as [|Hmenu];
    [apply Hd|].
  destruct (known _ d) eqn:Hknown; [apply Hd|]. cbn [orb].
  assert (strip (banner_text banner) ∉ map fst d) as Hnew.
  { intros Hin%known_keys. congruence. }
  destruct (sub_table banner) as [rows|];
    intros [Hin|Hin%list_elem_of_singleton]%elem_of_app; try (now apply Hd);
    injection Hin as -> ->; auto.
Qed.

Lemma banners_inv (P : string -> list YearLink -> Prop) banners d :
  (forall banner rows, banner ∈ banners -> sub_table banner = Some rows ->
     strip (banner_text banner) <> MENU_TITLE ->
     P (strip (banner_text banner)) (years_info rows)) ->
  (forall banner, banner ∈ banners -> sub_table banner = None ->
     strip (banner_text banner) <> MENU_TITLE ->
     P (strip (banner_text banner)) []) ->
  (forall name ys, (name, ys) ∈ d -> P name ys) ->
  forall name ys, (name, ys) ∈ fold_left banner_step banners d -> P name ys.
Proof.
  revert d. induction banners as [|b bs IH]; intros d Hsome Hnone Hd; [exact Hd|].
  cbn [fold_left]. apply IH.
  - intros banner rows Hin. apply Hsome. now right.
  - intros banner Hin. apply Hnone. now right.
  - apply banner_step_inv; [| |exact Hd].
    + intros rows Hrows Hmenu _. apply (Hsome b); [left | done | done].
    + intros Hrows Hmenu _. apply (Hnone b); [left | done | done].
Qed.

(** X24.  Every year listed for a league has a text that is not empty, is
    not "0000" and has no blank around it, and comes from a cell whose class
    attribute has no token "grey"; its address is the link of that cell. *)
Theorem listed_years_are_years (banner_cells : list Banner) (data : Leagues)
    (name : string) (ys : list YearLink) (e : YearLink) :
  extract_league_years banner_cells = Some data ->
  (name, ys) ∈ data -> e ∈ ys ->
  truthy (year e) = true /\ year e <> "0000" /\ strip (year e) = year e /\
  exists banner rows cells cell,
    banner ∈ banner_cells /\ sub_table banner = Some rows /\
    cells ∈ rows /\ cell ∈ cells /\
    mem "grey" (split (year_class cell)) = false /\
    year e = strip (year_text cell) /\ url e = year_href cell.
Proof.
  unfold extract_league_years.
  destruct banner_cells as [|b bs] eqn:Hbs; [done|]. rewrite <- Hbs.
  intros [= <-] Hin. revert e.
  apply (banners_inv
           (fun _ ys => forall e, e ∈ ys ->
              truthy (year e) = true /\ year e <> "0000" /\
              strip (year e) = year e /\
              exists banner rows cells cell,
                banner ∈ banner_cells /\ sub_table banner = Some rows /\
                cells ∈ rows /\ cell ∈ cells /\
                mem "grey" (split (year_class cell)) = false /\
                year e = strip (year_text cell) /\ url e = year_href cell)
           banner_cells [] ) with (name := name); [| | |exact Hin].
  - intros banner rows Hbanner Hrows _ e.
    unfold years_info.
    intros (cells & Hcells & He)%list_elem_of_In%in_flat_map.
    apply list_elem_of_In, list_elem_of_omap in He as (cell & Hcell & He).
    destruct (listed cell) eqn:Hl; [|done]. injection He as <-.
    cbn [year url]. unfold listed in Hl.
    apply andb_true_iff in Hl as [[Ht Hz]%andb_true_iff Hg].
    apply negb_true_iff in Hz, Hg. apply String.eqb_neq in Hz.
    split; [done|]. split; [done|]. split; [apply strip_idempotent|].
    exists banner, rows, cells, cell.
    repeat split; try done. now apply list_elem_of_In.
  - intros banner _ _ _ e []%elem_of_nil.
  - intros name' ys' []%elem_of_nil.
Qed.

Lemma banner_step_keys d banner :
  map fst (banner_step d banner) = map fst d
  \/ (strip (banner_text banner) <> MENU_TITLE /\
      (strip (banner_text banner) ∉ map fst d) /\
      map fst (banner_step d banner)
      = map fst d ++ [strip (banner_text banner)]).
Proof.
  unfold banner_step.
  destruct (String.eqb_spec (strip (banner_text banner)) MENU_TITLE) as [|Hmenu];
    [now left|].
  destruct (known _ d) eqn:Hknown; [now left|]. cbn [orb]. right.
  split; [done|]. split.
  { intros Hin%known_keys. congruence. }
  destruct (sub_table banner); now rewrite map_app.
Qed.

Lemma banners_keys banners d :
  NoDup (map fst d) -> MENU_TITLE ∉ map fst d ->
  NoDup (map fst (fold_left banner_step banners d)) /\
  (MENU_TITLE ∉ map fst (fold_left banner_step banners d)) /\
  forall name, name ∈ map fst (fold_left banner_step banners d) ->
    name ∈ map fst d
    \/ exists banner, banner ∈ banners /\ name = strip (banner_text banner).
Proof.
  revert d. induction banners as [|b bs IH]; intros d Hnd Hmenu.
  - cbn [fold_left]. repeat split; try done. now left.
  - cbn [fold_left].
    destruct (banner_step_keys d b) as [Hsame|(Hm & Hnew & Hadd)].
    + destruct (IH (banner_step d b)) as (H1 & H2 & H3);
        [now rewrite Hsame | now rewrite Hsame|].
      repeat split; try done. intros name Hname.
      destruct (H3 name Hname) as [Hin|(banner & Hb & ->)].
      * left. now rewrite <- Hsame.
      * right. exists banner. split; [now right | done].
    + destruct (IH (banner_step d b)) as (H1 & H2 & H3).
      * rewrite Hadd. apply NoDup_app. split; [done|].
        split; [|apply NoDup_singleton].
        intros x Hx ->%list_elem_of_singleton. done.
      * rewrite Hadd. intros [Hin|Hin%list_elem_of_singleton]%elem_of_app;
          [done | congruence].
      * repeat split; try done. intros name Hname.
        destruct (H3 name Hname) as [Hin|(banner & Hb & ->)].
        -- rewrite Hadd in Hin.
           apply elem_of_app in Hin as [Hin| ->%list_elem_of_singleton];
             [now left|].
           right. exists b. split; [left | done].
        -- right. exists banner. split; [now right | done].
Qed.

(** X25.  The leagues of the index have pairwise distinct names, none of
    them the title of the menu itself, and every name is the text of a
    banner cell without the blanks around it. *)
Theorem league_names_distinct (banner_cells : list Banner) (data : Leagues) :
  extract_league_years banner_cells = Some data ->
  NoDup (map fst data) /\ (MENU_TITLE ∉ map fst data) /\
  forall name, name ∈ map fst data ->
    exists banner, banner ∈ banner_cells /\ name = strip (banner_text banner).
Proof.
  unfold extract_league_years.
  destruct banner_cells as [|b bs] eqn:Hbs; [done|]. rewrite <- Hbs.
  intros [= <-].
  destruct (banners_keys banner_cells []) as (H1 & H2 & H3);
    [apply NoDup_nil_2 | apply not_elem_of_nil|].
  repeat split; try done. intros name Hname.
  destruct (H3 name Hname) as [[]%elem_of_nil|]; done.
Qed.

Lemma banner_step_lookup d banner name ys :
  lookup name d = Some ys -> lookup name (banner_step d banner) = Some ys.
Proof.
  intros Hl. unfold banner_step. destruct (_ || _); [done|].
  destruct (sub_table banner); now rewrite lookup_app, Hl.
Qed.

Lemma banners_lookup banners d name ys :
  lookup name d = Some ys -> lookup name (fold_left banner_step banners d) = Some ys.
Proof.
  revert d. induction banners as [|b bs IH]; intros d Hl; [done|].
  cbn [fold_left]. now apply IH, banner_step_lookup.
Qed.

Lemma banners_lookup_none banners d name :
  lookup name d = None ->
  (forall banner, banner ∈ banners -> strip (banner_text banner) <> name) ->
  lookup name (fold_left banner_step banners d) = None.
Proof.
  intros Hl Hb. apply lookup_none_keys. apply lookup_none_keys in Hl.
  revert d Hl. induction banners as [|b bs IH]; intros d Hl; [done|].
  cbn [fold_left]. apply IH; [intros banner Hin; apply Hb; now right|].
  destruct (banner_step_keys d b) as [->|(_ & _ & ->)]; [done|].
  intros [Hin| ->%list_elem_of_singleton]%elem_of_app; [done|].
  apply (Hb b); [left | done].
Qed.

(** X26.  The first banner of a name decides the league: its years are the
    listed cells of its table, in order, and no years at all when the table
    cannot be reached; later banners of the same name change nothing. *)
Theorem first_banner_decides (before after : list Banner) (banner : Banner) :
  strip (banner_text banner) <> MENU_TITLE ->
  (forall b, b ∈ before -> strip (banner_text b) <> strip (banner_text banner)) ->
  exists data,
    extract_league_years (before ++ banner :: after) = Some data /\
    lookup (strip (banner_text banner)) data
    = Some (match sub_table banner with
            | Some rows => years_info rows
            | None => []
            end).
Proof.
  intros Hmenu Hfirst.
  exists (fold_left banner_step (before ++ banner :: after) []). split.
  { unfold extract_league_years. now destruct before. }
  rewrite fold_left_app. cbn [fold_left]. apply banners_lookup.
  pose proof (banners_lookup_none before [] _ eq_refl Hfirst) as Hnone.
  unfold banner_step at 1.
  apply String.eqb_neq in Hmenu. rewrite Hmenu. unfold known. rewrite Hnone.
  cbn [orb]. destruct (sub_table banner); rewrite lookup_app, Hnone;
    cbn [lookup]; now rewrite String.eqb_refl.
Qed.

End LeagueYearsFacts.

(** ** The scraper of the short-lived leagues *)

Module MinorFacts.
Import Pandas Minor Aux Aux2 PyFacts.



Section more.
Context `{Numeric}.








Lemma start_sync (w : World) : in_sync (start w).
Proof. intros s. reflexivity. Qed.

Lemma year_step_sync (code : string) (st : Loop) (yi : Scraper.YearInfo) :
  in_sync st -> in_sync (year_step code st yi).
Proof.
  intros Hst. unfold year_step. destruct (bool_decide _); [done|].
  destruct (process_year _ _ _); [|done]. intros s. reflexivity.
Qed.

Lemma years_sync (code : string) (years : list Scraper.YearInfo) (st : Loop) :
  in_sync st -> in_sync (fold_left (year_step code) years st).
Proof.
  revert st. induction years as [|yi rest IH]; intros st Hst; [done|].
  cbn [fold_left]. now apply IH, year_step_sync.
Qed.

Lemma enter_league_sync (code : string) (st : Loop) :
  in_sync st -> in_sync (enter_league code st).
Proof.
  intros Hst s. unfold enter_league. cbn [world processed_data]. rewrite Hst.
  destruct (processed_data st !! code) eqn:Hcode; [done|].
  unfold processed_years. destruct (decide (s = code)) as [->|Hne].
  - now rewrite lookup_insert_eq, Hcode.
  - now rewrite lookup_insert_ne.
Qed.

Lemma league_step_sync ld (st : Loop) (league : string * string) :
  in_sync st -> in_sync (league_step ld st league).
Proof.
  intros Hst. destruct league as [key code]. unfold league_step.
  destruct (ld !! key); [|done]. now apply years_sync, enter_league_sync.
Qed.

Lemma leagues_sync ld (leagues : list (string * string)) (st : Loop) :
  in_sync st -> in_sync (fold_left (league_step ld) leagues st).
Proof.
  revert st. induction leagues as [|league rest IH]; intros st Hst; [done|].
  cbn [fold_left]. now apply IH, league_step_sync.
Qed.

(** X28.  The checkpoint of the short-lived leagues never lags: when the run
    ends, and whenever it is killed between two years, the checkpoint on
    disk holds for every league exactly the years marked as processed (with
    no checkpoint on disk, no year is marked). *)
Theorem minor_checkpoint_in_sync ld (w : World) :
  in_sync (main ld w) /\ forall n m, in_sync (interrupted n m ld w).
Proof.
  split.
  - apply leagues_sync, start_sync.
  - intros n m. unfold interrupted.
    pose proof (leagues_sync ld (take n MINOR_LEAGUES) (start w) (start_sync w))
      as Hdone.
    destruct (MINOR_LEAGUES !! n) as [[key code]|]; [|exact Hdone].
    destruct (ld !! key); [|exact Hdone].
    now apply years_sync, enter_league_sync.
Qed.

Lemma year_step_data_other (code s : string) (st : Loop) (yi : Scraper.YearInfo) :
  s <> code ->
  processed_data (year_step code st yi) !! s = processed_data st !! s.
Proof.
  intros Hne. unfold year_step. destruct (bool_decide _); [done|].
  destruct (process_year _ _ _); [|done]. cbn [processed_data].
  now rewrite lookup_insert_ne.
Qed.

Lemma years_data_other (code s : string) (years : list Scraper.YearInfo)
    (st : Loop) :
  s <> code ->
  processed_data (fold_left (year_step code) years st) !! s
  = processed_data st !! s.
Proof.
  intros Hne. revert st. induction years as [|yi rest IH]; intros st; [done|].
  cbn [fold_left]. rewrite IH. now apply year_step_data_other.
Qed.

Lemma years_data_self (code : string) (years : list Scraper.YearInfo)
    (st : Loop) (done : gset string) :
  processed_data st !! code = Some done ->
  NoDup (map Scraper.year years) ->
  (forall yi, yi ∈ years -> Scraper.year yi ∉ done) ->
  processed_data (fold_left (year_step code) years st) !! code
  = Some (done ∪ list_to_set (map Scraper.year (List.filter loads years))).
Proof.
  revert st done. induction years as [|yi rest IH]; intros st done Hdone Hnd Hnew.
  - cbn. rewrite Hdone. f_equal. set_solver.
  - cbn [map] in Hnd. apply NoDup_cons in Hnd as [Hyi Hnd]. cbn [fold_left].
    assert (Scraper.year yi ∉ done) as Hfresh by (apply Hnew; left).
    assert (forall yj, yj ∈ rest -> Scraper.year yj <> Scraper.year yi) as Hrest.
    { intros yj Hj Heq. apply Hyi. rewrite <- Heq. now apply list_elem_of_fmap_2. }
    unfold year_step at 2. unfold processed_years. rewrite Hdone. cbn [default].
    rewrite bool_decide_eq_false_2 by done. cbn [List.filter].
    unfold process_year, loads.
    destruct (Scraper.page yi) as [ba_tables|]; cbn [mbind option_bind].
    + rewrite (IH _ (done ∪ {[Scraper.year yi]})); cbn [processed_data].
      * f_equal. cbn [map list_to_set]. set_solver.
      * apply lookup_insert_eq.
      * done.
      * intros yj Hj. specialize (Hnew yj). specialize (Hrest yj Hj).
        assert (Scraper.year yj ∉ done) by (apply Hnew; now right). set_solver.
    + rewrite (IH _ done); cbn [processed_data]; try done.
      intros yj Hj. apply Hnew. now right.
Qed.

Lemma league_step_data_other ld (st : Loop) (key code s : string) :
  s <> code ->
  processed_data (league_step ld st (key, code)) !! s = processed_data st !! s.
Proof.
  intros Hne. unfold league_step. destruct (ld !! key); [|done].
  rewrite years_data_other by done. unfold enter_league. cbn [processed_data].
  destruct (processed_data st !! code); [done|]. now rewrite lookup_insert_ne.
Qed.

Lemma leagues_data_other ld (leagues : list (string * string)) (st : Loop)
    (s : string) :
  s ∉ map snd leagues ->
  processed_data (fold_left (league_step ld) leagues st) !! s
  = processed_data st !! s.
Proof.
  revert st. induction leagues as [|[key code] rest IH]; intros st Hs; [done|].
  cbn [map snd] in Hs. apply not_elem_of_cons in Hs as [Hne Hs].
  cbn [fold_left]. rewrite IH by done. now apply league_step_data_other.
Qed.

Lemma league_step_data_found ld (st : Loop) (key code : string)
    (years : list Scraper.YearInfo) :
  processed_data st !! code = None ->
  ld !! key = Some years -> NoDup (map Scraper.year years) ->
  processed_data (league_step ld st (key, code)) !! code
  = Some (list_to_set (map Scraper.year (List.filter loads years))).
Proof.
  intros Hnone Hkey Hnd. unfold league_step. rewrite Hkey.
  rewrite (years_data_self code years _ ∅); [f_equal; set_solver| |done|].
  - unfold enter_league. cbn [processed_data]. rewrite Hnone.
    apply lookup_insert_eq.
  - intros yi _. apply not_elem_of_empty.
Qed.

Lemma league_step_missing ld (st : Loop) (key code : string) :
  ld !! key = None -> league_step ld st (key, code) = st.
Proof. intros Hkey. unfold league_step. now rewrite Hkey. Qed.

Lemma leagues_outcome ld (leagues : list (string * string)) (st : Loop)
    (key code : string) :
  NoDup (map snd leagues) -> (key, code) ∈ leagues ->
  (forall s, s ∈ map snd leagues -> processed_data st !! s = None) ->
  (forall years, ld !! key = Some years -> NoDup (map Scraper.year years) ->
     processed_data (fold_left (league_step ld) leagues st) !! code
     = Some (list_to_set (map Scraper.year (List.filter loads years)))) /\
  (ld !! key = None ->
     processed_data (fold_left (league_step ld) leagues st) !! code = None).
Proof.
  revert st. induction leagues as [|[key0 code0] rest IH]; intros st Hnd Hin Hnone;
    [by apply elem_of_nil in Hin|].
  cbn [map snd] in Hnd, Hnone. apply NoDup_cons in Hnd as [Hfirst Hnd].
  cbn [fold_left]. apply elem_of_cons in Hin as [[= <- <-]|Hin].
  - rewrite leagues_data_other by done. split.
    + intros years Hkey Hyears.
      apply league_step_data_found; [apply Hnone; left | done | done].
    + intros Hkey. rewrite league_step_missing by done. apply Hnone. left.
  - apply IH; [done | done |]. intros s Hs.
    rewrite league_step_data_other; [apply Hnone; now right|].
    intros ->. done.
Qed.

(** X29.  At the end of a run every league of the program that the index
    lists, with pairwise distinct years, has exactly the years whose page
    loaded marked as processed; a league that the index does not list has
    no entry at all. *)
Theorem minor_outcome ld (w : World) (key code : string) :
  (key, code) ∈ MINOR_LEAGUES ->
  (forall years, ld !! key = Some years -> NoDup (map Scraper.year years) ->
     processed_data (main ld w) !! code
     = Some (list_to_set (map Scraper.year (List.filter loads years)))) /\
  (ld !! key = None -> processed_data (main ld w) !! code = None).
Proof.
  intros Hin. unfold main. apply leagues_outcome; [|done|].
  - apply (bool_decide_unpack _). vm_compute. exact I.
  - intros s _. reflexivity.
Qed.

End more.

End MinorFacts.

(** ** The properties of the index and the short-lived leagues on the
    example inputs *)

Module IndexChecks.
Import Pandas IntegerFields Examples IndexExamples Aux Aux2.

(** X24, witness: the one year the example index lists. *)
Lemma listed_years_are_years_witness :
  Py.truthy (LeagueYears.year year_1884) = true /\
  LeagueYears.year year_1884 <> "0000" /\
  Py.strip (LeagueYears.year year_1884) = LeagueYears.year year_1884 /\
  exists banner rows cells cell,
    banner ∈ index_page /\ LeagueYears.sub_table banner = Some rows /\
    cells ∈ rows /\ cell ∈ cells /\
    Py.mem "grey" (LeagueYears.split (LeagueYears.year_class cell)) = false /\
    LeagueYears.year year_1884 = Py.strip (LeagueYears.year_text cell) /\
    LeagueYears.url year_1884 = LeagueYears.year_href cell.
Proof.
  apply (LeagueYearsFacts.listed_years_are_years index_page index_leagues
           UA_NAME [year_1884] year_1884).
  - reflexivity.
  - left.
  - left.
Defined.

(** X25, witness: the example index. *)
Lemma league_names_distinct_witness :
  NoDup (map fst index_leagues) /\
  (LeagueYears.MENU_TITLE ∉ map fst index_leagues) /\
  forall name, name ∈ map fst index_leagues ->
    exists banner,
      banner ∈ index_page /\ name = Py.strip (LeagueYears.banner_text banner).
Proof.
  apply (LeagueYearsFacts.league_names_distinct index_page index_leagues).
  reflexivity.
Defined.

(** X26, witness: the league that comes twice in the example index. *)
Lemma first_banner_decides_witness :
  exists data,
    LeagueYears.extract_league_years ([menu_banner] ++ ua_banner :: [ua_again; lost_banner])
      = Some data /\
    LeagueYears.lookup (Py.strip (LeagueYears.banner_text ua_banner)) data
    = Some (match LeagueYears.sub_table ua_banner with
            | Some rows => LeagueYears.years_info rows
            | None => []
            end).
Proof.
  apply (LeagueYearsFacts.first_banner_decides [menu_banner] [ua_again; lost_banner]
           ua_banner).
  - vm_compute. discriminate.
  - intros b ->%list_elem_of_singleton. vm_compute. discriminate.
Defined.


(** X29, witness: the Union Association, listed with its one season. *)
Lemma minor_outcome_witness :
  (forall years, minor_index !! UA_NAME = Some years ->
     NoDup (map Scraper.year years) ->
     Minor.processed_data (Minor.main minor_index empty_minor_world) !! "UA"
     = Some (list_to_set (map Scraper.year (List.filter loads years)))) /\
  (minor_index !! UA_NAME = None ->
   Minor.processed_data (Minor.main minor_index empty_minor_world) !! "UA" = None).
Proof.
  apply (MinorFacts.minor_outcome minor_index empty_minor_world UA_NAME "UA").
  apply (bool_decide_unpack _). vm_compute. exact I.
Defined.

End IndexChecks.
